(** * gutolog-dash: the spreadsheet merge engine

    A shallow embedding of the [merge] package (read_base_valores.py,
    read_calculo_frete.py, read_cotacao.py, merge_all.py).

    Conventions of the embedding.
    - A Python [str] is a Rocq [string]; one [ascii] is one character
      (a code point below 256, i.e. Latin-1, which covers the
      Portuguese labels of the workbooks).  Accented letters of label
      constants are written with their code ([chr 218] is U+00DA).
    - A number (Python float, or an int read from a sheet) is an
      integer [Z]; [nan] is kept apart.  The only arithmetic of the
      package is [km_final - km_inicial + 1] and comparisons, exact on
      the integer-valued floats the sheets hold.
    - A missing cell (NaN / None) is [None : cell]; pandas treats both
      alike ([pd.isna]).
    - A Python exception is a constructor of [exn], and code that may
      raise lives in the [result] monad.
    - What is not in the package sources (the vehicle normalizer of
      vehicle_mapping.py, the builtin [float] on text and [str] on
      non-text values) is a field of the [Host] class. *)

From Stdlib Require Import ZArith Ascii String.
From stdpp Require Import base option list gmap strings pretty fin_maps.

Local Open Scope Z_scope.
Local Open Scope string_scope.

(** ** Python strings *)

Module PyStr.

Definition chr (n : nat) : ascii := ascii_of_nat n.

Definition in_range (lo hi n : nat) : bool := (lo <=? n)%nat && (n <=? hi)%nat.

(** [str.lower] on one Latin-1 character: A-Z and U+00C0..U+00DE
    (but the multiplication sign U+00D7) move up by 32. *)
Definition lower_char (c : ascii) : ascii :=
  let n := nat_of_ascii c in
  if in_range 65 90 n || (in_range 192 222 n && negb (n =? 215)%nat)
  then ascii_of_nat (n + 32) else c.

Fixpoint lower (s : string) : string :=
  match s with
  | EmptyString => EmptyString
  | String c s' => String (lower_char c) (lower s')
  end.

(** [s.replace(old, new)] for a one-character [old]: every pattern of
    the package is one character long. *)
Fixpoint replace (old : ascii) (new : string) (s : string) : string :=
  match s with
  | EmptyString => EmptyString
  | String c s' =>
      if Ascii.eqb c old then new ++ replace old new s'
      else String c (replace old new s')
  end.

(** [s[:n]] *)
Fixpoint take (n : nat) (s : string) : string :=
  match n, s with
  | S n', String c s' => String c (take n' s')
  | _, _ => EmptyString
  end.

(** [str.isspace] on one Latin-1 character. *)
Definition is_space (c : ascii) : bool :=
  let n := nat_of_ascii c in
  in_range 9 13 n || in_range 28 32 n || (n =? 133)%nat || (n =? 160)%nat.

Fixpoint lstrip (s : string) : string :=
  match s with
  | String c s' => if is_space c then lstrip s' else s
  | EmptyString => EmptyString
  end.

Fixpoint rstrip (s : string) : string :=
  match s with
  | EmptyString => EmptyString
  | String c s' =>
      match rstrip s' with
      | EmptyString => if is_space c then EmptyString else String c EmptyString
      | t => String c t
      end
  end.

(** [s.strip()] *)
Definition strip (s : string) : string := rstrip (lstrip s).

(** [sub in s] *)
Fixpoint contains (sub s : string) : bool :=
  String.prefix sub s ||
  match s with
  | EmptyString => false
  | String _ s' => contains sub s'
  end.

(** [s.endswith(suf)] *)
Definition endswith (suf s : string) : bool :=
  let n := String.length s in
  let k := String.length suf in
  (k <=? n)%nat && String.eqb (String.substring (n - k) k s) suf.

End PyStr.

(** ** Slugification (read_base_valores.py, [_slug]) *)

Definition _slug (s : string) : string :=
  PyStr.take 50
    (PyStr.replace "." ""
    (PyStr.replace ":" ""
    (PyStr.replace "-" "_"
    (PyStr.replace ")" ""
    (PyStr.replace "(" ""
    (PyStr.replace "/" "_"
    (PyStr.replace "%" "pct"
    (PyStr.replace " " "_"
    (PyStr.lower s))))))))).

(** The image of one (lowercased) character under the chain of
    replacements of [_slug]. *)
Definition slug_char (c : ascii) : string :=
  if Ascii.eqb c " " then "_"
  else if Ascii.eqb c "%" then "pct"
  else if Ascii.eqb c "/" then "_"
  else if Ascii.eqb c "(" then ""
  else if Ascii.eqb c ")" then ""
  else if Ascii.eqb c "-" then "_"
  else if Ascii.eqb c ":" then ""
  else if Ascii.eqb c "." then ""
  else String c "".

Fixpoint concat_map (f : ascii -> string) (s : string) : string :=
  match s with
  | EmptyString => EmptyString
  | String c s' => f c ++ concat_map f s'
  end.

(** One replacement is a character-wise substitution. *)
Definition subst1 (old : ascii) (new : string) (c : ascii) : string :=
  if Ascii.eqb c old then new else String c "".

(** The slugification rule in the words of the specification:
    lowercase, space to underscore, percent sign to "pct", the
    characters / ( ) : . - stripped, cut at 50 characters. *)
Definition spec_slug_char (c : ascii) : string :=
  if Ascii.eqb c " " then "_"
  else if Ascii.eqb c "%" then "pct"
  else if existsb (Ascii.eqb c) ["/"; "("; ")"; ":"; "."; "-"]%char then ""
  else String c "".

Definition spec_slug (s : string) : string :=
  PyStr.take 50 (concat_map spec_slug_char (PyStr.lower s)).

(** [all(p(c) for c in s)] *)
Fixpoint string_forall (p : ascii → bool) (s : string) : bool :=
  match s with
  | EmptyString => true
  | String c s' => p c && string_forall p s'
  end.

(** A character on which [_slug] has nothing to do: none of the eight
    characters it replaces, and its own lowercase. *)
Definition slug_clean (c : ascii) : bool :=
  negb (existsb (Ascii.eqb c) [" "; "%"; "/"; "("; ")"; "-"; ":"; "."]%char)
  && Ascii.eqb (PyStr.lower_char c) c.

(** ** Exceptions and the result monad *)

Inductive exn : Set :=
  | ValueError | TypeError | IndexError | KeyError | OverflowError.

Global Instance exn_eq_dec : EqDecision exn.
Proof. solve_decision. Defined.

Inductive result (A : Type) : Type :=
  | Ok (a : A)
  | Raise (e : exn).
Arguments Ok {A} a.
Arguments Raise {A} e.

Global Instance result_ret : MRet result := λ A a, Ok a.
Global Instance result_bind : MBind result := λ A B f m,
  match m with
  | Ok a => f a
  | Raise e => Raise e
  end.

Global Instance result_fmap : FMap result := λ A B f m,
  match m with
  | Ok a => Ok (f a)
  | Raise e => Raise e
  end.

(** [try: m except (caught): h] *)
Definition try_except {A} (m : result A) (caught : list exn) (h : result A) : result A :=
  match m with
  | Ok a => Ok a
  | Raise e => if bool_decide (e ∈ caught) then h else Raise e
  end.

Definition raises {A} (m : result A) : Prop := ∃ e, m = Raise e.

(** ** Cell values *)

(** What a sheet cell or a frame cell holds when it is not missing.
    [VDate] stands for the objects that are neither text, number nor
    boolean (dates and times), on which [float] raises [TypeError]. *)
Inductive value : Set :=
  | VNum (z : Z)
  | VStr (s : string)
  | VBool (b : bool)
  | VDate (stamp : Z).

Global Instance value_eq_dec : EqDecision value.
Proof. solve_decision. Defined.

(** A cell: [None] is NaN / None. *)
Abbreviation cell := (option value).
Abbreviation NaN := (@None value).

Definition isna (x : cell) : bool := bool_decide (x = None).
Definition notna (x : cell) : bool := negb (isna x).

(** A Python float: [None] is [nan]. *)
Abbreviation pyfloat := (option Z).

Definition cell_of_float (f : pyfloat) : cell := VNum <$> f.

(** A sheet read with [header=None]: the grid of its cells. *)
Abbreviation Grid := (list (list cell)).

(** An opened workbook ([pd.ExcelFile]): its sheets in order. *)
Abbreviation Workbook := (list (string * Grid)).

(** A dict literal, in insertion order. *)
Abbreviation PyDict := (list (string * cell)).

(** A frame row: column name to value, a missing (NaN) cell being an
    absent key. *)
Abbreviation Row := (gmap string value).

(** ** The host: builtins and the vehicle normalizer *)

Class Host := {
  (** [normalize_vehicle] of vehicle_mapping.py, which is not among the
      sources: a label to its canonical vehicle type, [None] when no
      mapping is known. *)
  normalize_vehicle : string → option string;
  (** [float(s)] on text: [None] when it raises [ValueError]. *)
  float_of_str : string → option pyfloat;
  (** Whether [float(s)] is an infinity, as for "inf", "-Infinity" and
      "1e999": the floats that [int] refuses with [OverflowError]. *)
  float_is_inf : string → bool;
  (** [str(v)] on a value that is not text. *)
  str_of_other : value → string;
}.

Section Engine.
Context `{Host}.

(** [float(x)] *)
Definition py_float (x : cell) : result pyfloat :=
  match x with
  | None => Ok None
  | Some (VNum z) => Ok (Some z)
  | Some (VBool b) => Ok (Some (if b then 1 else 0))
  | Some (VStr s) =>
      match float_of_str s with
      | Some f => Ok f
      | None => Raise ValueError
      end
  | Some (VDate _) => Raise TypeError
  end.

(** Whether [float(x)] is an infinity: a sheet cell holds one only as
    text. *)
Definition is_inf (x : cell) : bool :=
  match x with
  | Some (VStr s) => float_is_inf s
  | _ => false
  end.

(** [int(f)] on a float that is no infinity: [nan] cannot be
    converted. *)
Definition py_int (f : pyfloat) : result Z :=
  match f with
  | Some z => Ok z
  | None => Raise ValueError
  end.

(** [int(float(x))]: on a text that [float] reads as an infinity,
    [float] returns and [int] raises [OverflowError]. *)
Definition int_float (x : cell) : result Z :=
  if is_inf x then Raise OverflowError
  else f ← py_float x; py_int f.

(** [str(v)] *)
Definition py_str (v : value) : string :=
  match v with
  | VStr s => s
  | _ => str_of_other v
  end.

(** [_num] of read_calculo_frete.py and read_cotacao.py; [float]
    raises nothing but [ValueError] and [TypeError], which are both
    caught. *)
Definition _num (x : cell) : cell :=
  if isna x then None
  else match py_float x with
       | Ok f => cell_of_float f
       | Raise _ => None
       end.

(** The truth value of what [normalize_vehicle] returns ([if v:]). *)
Definition truthy (v : option string) : option string :=
  match v with
  | Some s => if bool_decide (s = "") then None else Some s
  | None => None
  end.

(** ** Sheets and workbooks *)


Definition shape0 (df : Grid) : nat := length df.
Definition shape1 (df : Grid) : nat :=
  match df with
  | [] => 0%nat
  | row :: _ => length row
  end.

(** Every frame pandas builds is rectangular. *)
Definition rectangular (df : Grid) : Prop :=
  Forall (λ row, length row = shape1 df) df.

(** [row.iloc[c]] *)
Definition row_iloc (row : list cell) (c : nat) : result cell :=
  match row !! c with
  | Some x => Ok x
  | None => Raise IndexError
  end.

(** [df.iloc[r, c]] *)
Definition iloc (df : Grid) (r c : nat) : result cell :=
  match df !! r with
  | Some row => row_iloc row c
  | None => Raise IndexError
  end.


Definition sheet_names (xl : Workbook) : list string := fst <$> xl.

Fixpoint find_sheet (xl : Workbook) (name : string) : option Grid :=
  match xl with
  | [] => None
  | (n, g) :: xl' => if bool_decide (n = name) then Some g else find_sheet xl' name
  end.

(** [pd.read_excel(xl, sheet_name=name, header=None)]: pandas raises
    [ValueError] ("Worksheet named ... not found") on an absent sheet. *)
Definition read_excel (xl : Workbook) (name : string) : result Grid :=
  match find_sheet xl name with
  | Some g => Ok g
  | None => Raise ValueError
  end.

(** ** Records and frames *)


(** [d[k] = v] *)
Fixpoint dict_set (d : PyDict) (k : string) (v : cell) : PyDict :=
  match d with
  | [] => [(k, v)]
  | (k', v') :: d' =>
      if bool_decide (k' = k) then (k, v) :: d' else (k', v') :: dict_set d' k v
  end.

Fixpoint dict_get (d : PyDict) (k : string) : option cell :=
  match d with
  | [] => None
  | (k', v') :: d' => if bool_decide (k' = k) then Some v' else dict_get d' k
  end.


Record DataFrame : Type := {
  columns : list string;
  rows : list Row;
}.

(** [pd.DataFrame()] *)
Definition empty_frame : DataFrame := {| columns := []; rows := [] |}.

(** [df.empty]: no row or no column. *)
Definition df_empty (df : DataFrame) : bool :=
  bool_decide (columns df = []) || bool_decide (rows df = []).

Fixpoint uniq (seen l : list string) : list string :=
  match l with
  | [] => []
  | x :: l' => if bool_decide (x ∈ seen) then uniq seen l' else x :: uniq (x :: seen) l'
  end.

Definition row_of_dict (d : PyDict) : Row :=
  list_to_map (omap (λ kv, (kv.1,.) <$> kv.2) d).

(** [pd.DataFrame(records)]: the columns are the keys in order of first
    appearance. *)
Definition frame_of_records (records : list PyDict) : DataFrame :=
  {| columns := uniq [] (concat ((λ d : PyDict, d.*1) <$> records));
     rows := row_of_dict <$> records |}.

(** [df.to_dict("records")]: every row as the list of its cells under
    the columns. *)
Definition to_records (df : DataFrame) : list PyDict :=
  (λ r : Row, (λ c, (c, r !! c)) <$> columns df) <$> rows df.

(** [df[c] = v] for a scalar [v]. *)
Definition set_column (c : string) (v : value) (df : DataFrame) : DataFrame :=
  {| columns := if bool_decide (c ∈ columns df) then columns df else columns df ++ [c];
     rows := (λ r, <[c := v]> r) <$> rows df |}.

(** [df.drop(columns=cs, errors="ignore")] *)
Definition drop_columns (cs : list string) (df : DataFrame) : DataFrame :=
  {| columns := filter (λ c, c ∉ cs) (columns df);
     rows := (λ r : Row, filter (λ kv, kv.1 ∉ cs) r) <$> rows df |}.

(** [for x in xs: out.extend(body(x))], an exception of the body ending
    the loop. *)
Fixpoint for_each {A B} (body : A → result (list B)) (xs : list A) : result (list B) :=
  match xs with
  | [] => Ok []
  | x :: xs' =>
      ys ← body x;
      zs ← for_each body xs';
      Ok (ys ++ zs)%list
  end.

(** ** read_calculo_frete.py *)

Definition SHEET_TO_VEHICLE : list (string * string) :=
  [ ("FIORINO_CS", "FIORINO - CARGA SECA");
    ("FIORINO_CS_AG", "FIORINO - CARGA SECA");
    ("VAN_CS", "VAN - CARGA SECA");
    ("LEVE_CS", "LEVE - CARGA SECA");
    ("TOCO_CS", "TOCO - CARGA SECA");
    ("TRUCK_CS", "TRUCK - CARGA SECA");
    ("CTA5_CS", "CARRETA 5 EIXOS - CARGA SECA");
    ("CTA6_CS", "CARRETA 6 EIXOS - CARGA SECA");
    ("VAN_CR", "VAN - REFRIGERADA");
    ("LEVE_CR", "LEVE - REFRIGERADO");
    ("TOCO_CR", "TOCO - REFRIGERADO");
    ("TRUCK_CR", "TRUCK - REFRIGERADO");
    ("CTA5_CR", "CARRETA 5 EIXOS - REFRIGERADA");
    ("CTA6_CR", "CARRETA 6 EIXOS - REFRIGERADA") ].

Fixpoint assoc (table : list (string * string)) (k : string) : option string :=
  match table with
  | [] => None
  | (k', v) :: table' => if bool_decide (k' = k) then Some v else assoc table' k
  end.

(** The three band cells of a row, read inside one [try]. *)
Definition band_floats (c_i c_f c_t : result cell) : result (pyfloat * pyfloat * pyfloat) :=
  x_i ← c_i; km_i ← py_float x_i;
  x_f ← c_f; km_f ← py_float x_f;
  x_t ← c_t; km_t ← py_float x_t;
  Ok (km_i, km_f, km_t).

(** One data row of a per-vehicle sheet (the body of the loop over [r]). *)
Definition calculo_row (vehicle : string) (row : list cell) : result (list PyDict) :=
  band ← try_except
            (Some <$> band_floats (row_iloc row 9) (row_iloc row 10) (row_iloc row 11))
            [TypeError; ValueError; IndexError] (Ok None);
  match band with
  | None => Ok []
  | Some (km_i, km_f, km_t) =>
      if isna (cell_of_float km_i) || isna (cell_of_float km_f) then Ok []
      else
        diario ← row_iloc row 6;
        mensal ← row_iloc row 4;
        por_km ← row_iloc row 5;
        entrega ← row_iloc row 18;
        retorno ← row_iloc row 19;
        viagem ← row_iloc row 20;
        Ok [[ ("vehicle_type", Some (VStr vehicle));
              ("km_inicial", cell_of_float km_i);
              ("km_final", cell_of_float km_f);
              ("km_total", cell_of_float km_t);
              ("valor_dia_util_calculo", _num diario);
              ("mensal_calculo", _num mensal);
              ("por_km_calculo", _num por_km);
              ("frete_peso_entrega", _num entrega);
              ("frete_peso_retorno", _num retorno);
              ("frete_peso_viagem", _num viagem) ]]
  end.

(** One per-vehicle sheet (the body of the loop over [xl.sheet_names]). *)
Definition calculo_sheet (xl : Workbook) (sheet : string) : result (list PyDict) :=
  match assoc SHEET_TO_VEHICLE sheet with
  | None => Ok []
  | Some vehicle =>
      df ← read_excel xl sheet;
      if (shape0 df <? 2)%nat || (shape1 df <? 12)%nat then Ok []
      else for_each (calculo_row vehicle) (drop 1 df)
  end.

Definition calculo_primary (xl : Workbook) : result (list PyDict) :=
  for_each (calculo_sheet xl) (sheet_names xl).

(** The [while c + 2 < df_geral.shape[1]] loop of one data row [r] of
    the consolidated sheet; [fuel] bounds the number of iterations. *)
Fixpoint geral_groups (df_geral : Grid) (r : nat) (km_i km_f km_t : pyfloat)
    (fuel c : nat) : result (list PyDict) :=
  match fuel with
  | O => Ok []
  | S fuel' =>
      if (c + 2 <? shape1 df_geral)%nat then
        vehicle_name ← iloc df_geral 2 (c + 1);
        here ← match vehicle_name with
               | Some (VStr name) =>
                   match truthy (normalize_vehicle (PyStr.strip name)) with
                   | Some v =>
                       x0 ← iloc df_geral r c;
                       x1 ← iloc df_geral r (c + 1);
                       x2 ← iloc df_geral r (c + 2);
                       Ok [[ ("vehicle_type", Some (VStr v));
                             ("km_inicial", cell_of_float km_i);
                             ("km_final", cell_of_float km_f);
                             ("km_total", cell_of_float km_t);
                             ("valor_dia_util_calculo", _num x0);
                             ("frete_peso_entrega", _num x0);
                             ("frete_peso_retorno", _num x1);
                             ("frete_peso_viagem", _num x2) ]]
                   | None => Ok []
                   end
               | _ => Ok []
               end;
        rest ← geral_groups df_geral r km_i km_f km_t fuel' (c + 3);
        Ok (here ++ rest)%list
      else Ok []
  end.

(** One data row of the consolidated sheet. *)
Definition geral_row (df_geral : Grid) (r : nat) : result (list PyDict) :=
  band ← try_except
            (Some <$> band_floats (iloc df_geral r 1) (iloc df_geral r 2) (iloc df_geral r 3))
            [TypeError; ValueError] (Ok None);
  match band with
  | None => Ok []
  | Some (km_i, km_f, km_t) =>
      geral_groups df_geral r km_i km_f km_t (shape1 df_geral) 4
  end.





Definition calculo_fallback (xl : Workbook) : result (list PyDict) :=
  df_geral ← read_excel xl "FRETE PESO - GERAL";
  if (4 <=? shape0 df_geral)%nat && (5 <=? shape1 df_geral)%nat
  then for_each (geral_row df_geral) (seq 4 (shape0 df_geral - 4))
  else Ok [].

Definition read_calculo_frete (xl : Workbook) : result DataFrame :=
  out_rows ← calculo_primary xl;
  out_rows ← (if bool_decide (out_rows = []) then calculo_fallback xl else Ok out_rows);
  Ok (frame_of_records out_rows).

(** ** read_base_valores.py *)

(** "DIAS [U+00DA]TEIS:" *)
Definition DIAS_UTEIS_LABEL : string :=
  "DIAS " ++ String (PyStr.chr 218) "TEIS:".

(** The loop over the rows of the VIAGEM sheet: the value of
    [dias_uteis] when the loop ends ([None] is Python's [None]). *)
Fixpoint viagem_scan (df_viagem : Grid) : result (option Z) :=
  match df_viagem with
  | [] => Ok None
  | row :: rest =>
      c0 ← row_iloc row 0;
      if bool_decide (c0 = Some (VStr DIAS_UTEIS_LABEL))
      then try_except
             (x ← row_iloc row 1; n ← int_float x; Ok (Some n))
             [ValueError; TypeError] (Ok None)
      else viagem_scan rest
  end.

(** [dias_uteis or 24] *)
Definition or_24 (dias_uteis : option Z) : Z :=
  match dias_uteis with
  | None => 24
  | Some n => if bool_decide (n = 0) then 24 else n
  end.

(** Lines 19-31 of [read_base_valores]: the one-row context frame. *)
Definition base_valores_context (xl : Workbook) : result PyDict :=
  df_viagem ← read_excel xl "VIAGEM";
  dias_uteis ← viagem_scan df_viagem;
  Ok [("dias_uteis", Some (VNum (or_24 dias_uteis)))].

(** The first row of the sheet whose first cell is the label. *)
Definition dias_uteis_row (df_viagem : Grid) : option (list cell) :=
  find (λ row, bool_decide (row !! 0%nat = Some (Some (VStr DIAS_UTEIS_LABEL)))) df_viagem.

(** Line 128: the band width stored by the primary path of the
    percentage sheet. *)
Definition rel_km_total (km_i km_f : Z) : Z :=
  if (km_f >=? km_i)%Z then (km_f - km_i + 1)%Z else 0%Z.

(** ** read_cotacao.py: the context scan *)

(** "N[U+00BA]" and "Revis[U+00E3]o:" *)
Definition NUMERO_LABEL : string := String "N" (String (PyStr.chr 186) "").
Definition REVISAO_LABEL : string := "Revis" ++ String (PyStr.chr 227) "o:".

(** The body of the loop over [r] (lines 25-42). *)
Definition cotacao_context_row (df_cot : Grid) (context : PyDict) (r : nat) : result PyDict :=
  label ← iloc df_cot r 0;
  val ← (if (1 <? shape1 df_cot)%nat then iloc df_cot r 1 else Ok None);
  match label with
  | None => Ok context
  | Some lv =>
      let s := PyStr.strip (py_str lv) in
      if bool_decide (s = NUMERO_LABEL) && (r + 1 <=? shape0 df_cot)%nat then
        x ← iloc df_cot r 2;
        Ok (dict_set context "numero_cotacao" (VStr ∘ py_str <$> x))
      else if bool_decide (s = "Data:") && notna val then
        Ok (dict_set context "data_cotacao" val)
      else
        x3 ← (if bool_decide (s = REVISAO_LABEL) then iloc df_cot r 3 else Ok None);
        if bool_decide (s = REVISAO_LABEL) && notna x3 then
          Ok (dict_set context "revisao" x3)
        else if bool_decide (s = "Cliente:") && notna val then
          Ok (dict_set context "cliente" val)
        else if bool_decide (s = "Origem:") && notna val then
          Ok (dict_set context "origem" val)
        else if bool_decide (s = "Destino:") && notna val then
          Ok (dict_set context "destino" val)
        else if PyStr.contains "Km" s && notna val then
          Ok (dict_set context "km_rota" val)
        else Ok context
  end.

Fixpoint cotacao_context_loop (df_cot : Grid) (context : PyDict) (rs : list nat) : result PyDict :=
  match rs with
  | [] => Ok context
  | r :: rs' =>
      context' ← cotacao_context_row df_cot context r;
      cotacao_context_loop df_cot context' rs'
  end.

(** "COTA[U+00C7][U+00C3]O", the name of the sheet. *)
Definition COTACAO_SHEET : string :=
  "COTA" ++ String (PyStr.chr 199) (String (PyStr.chr 195) "O").

(** Lines 22-43 of [read_cotacao]: the one-row context frame. *)
Definition cotacao_context (xl : Workbook) : result PyDict :=
  df_cot ← read_excel xl COTACAO_SHEET;
  cotacao_context_loop df_cot [] (seq 0 (min 20 (shape0 df_cot))).

(** The cell at row [r] and column [c] of a sheet, missing outside it. *)
Definition cell_at (df : Grid) (r c : nat) : cell :=
  default None (df !! r ≫= (.!! c)).

(** The labels whose value stands in column 1, with their fields. *)
Definition VALUE_LABELS : list (string * string) :=
  [ ("Data:", "data_cotacao"); ("Cliente:", "cliente");
    ("Origem:", "origem"); ("Destino:", "destino") ].

(** The labels that are matched as a whole. *)
Definition EXACT_LABELS : list string :=
  NUMERO_LABEL :: REVISAO_LABEL :: VALUE_LABELS.*1.

(** The assignment [context[field] = x] that row [r] of the sheet
    makes, if it makes one. *)
Definition row_assignment (df_cot : Grid) (r : nat) : option (string * cell) :=
  match cell_at df_cot r 0 with
  | None => None
  | Some lv =>
      let s := PyStr.strip (py_str lv) in
      let val := cell_at df_cot r 1 in
      if bool_decide (s = NUMERO_LABEL)
      then Some ("numero_cotacao", VStr ∘ py_str <$> cell_at df_cot r 2)
      else if bool_decide (s = REVISAO_LABEL)
      then (if notna (cell_at df_cot r 3) then Some ("revisao", cell_at df_cot r 3)
            else None)
      else match assoc VALUE_LABELS s with
           | Some field => if notna val then Some (field, val) else None
           | None => if PyStr.contains "Km" s && notna val
                     then Some ("km_rota", val) else None
           end
  end.

(** The fields that the scan can set (lines 30-42). *)
Definition QUOTATION_FIELDS : list string :=
  [ "numero_cotacao"; "data_cotacao"; "revisao"; "cliente"; "origem";
    "destino"; "km_rota" ].

(** The number of columns that the loop body reads in row [r] without
    a test on the width of the sheet: the label in column 0, the
    quotation number in column 2 of a row labelled [NUMERO_LABEL], the
    revision in column 3 of a row labelled [REVISAO_LABEL].  (Column 1
    is read only when the sheet has it, line 26.) *)
Definition columns_read (df_cot : Grid) (r : nat) : nat :=
  match cell_at df_cot r 0 with
  | None => 1
  | Some lv =>
      let s := PyStr.strip (py_str lv) in
      if bool_decide (s = NUMERO_LABEL) then 3
      else if bool_decide (s = REVISAO_LABEL) then 4
      else 1
  end.

Definition apply_assignment (context : PyDict) (a : option (string * cell)) : PyDict :=
  match a with
  | Some (field, x) => dict_set context field x
  | None => context
  end.

(** ** merge_all.py *)

Definition key_cols : list string := ["vehicle_type"; "km_inicial"; "km_final"].

(** The cells of a row under the columns [subset]. *)
Definition row_key (subset : list string) (r : Row) : list cell :=
  (λ c, r !! c) <$> subset.

Definition has_columns (cs : list string) (df : DataFrame) : bool :=
  forallb (λ c, bool_decide (c ∈ columns df)) cs.

(** [left.merge(right, on=key_cols, how="outer", suffixes=("", "_dup"))].
    A column of [right] that is no key and is also a column of [left]
    gets the suffix; missing cells of the keys match each other, as in
    pandas.  The rows come here as: every left row with its matches (or
    alone), then the unmatched right rows; pandas may order an outer
    join by key, and nothing below depends on the order chosen.  The
    refusal of pandas to join a text key column with a numeric one is
    left out. *)
Definition merge_outer (left right : DataFrame) : result DataFrame :=
  if has_columns key_cols left && has_columns key_cols right then
    let right_cols := filter (λ c, c ∉ key_cols) (columns right) in
    let suffixed c := if bool_decide (c ∈ columns left) then c ++ "_dup" else c in
    let right_part (r : Row) : Row :=
      list_to_map (omap (λ c, (suffixed c,.) <$> r !! c) right_cols) in
    let key_part (r : Row) : Row := filter (λ kv, kv.1 ∈ key_cols) r in
    let matches (l : Row) :=
      filter (λ r, row_key key_cols r = row_key key_cols l) (rows right) in
    let unmatched :=
      filter (λ r, Forall (λ l, row_key key_cols l ≠ row_key key_cols r) (rows left))
             (rows right) in
    Ok {| columns := (columns left ++ (suffixed <$> right_cols))%list;
          rows := (flat_map (λ l, match matches l with
                                  | [] => [l]
                                  | ms => (λ r, l ∪ right_part r) <$> ms
                                  end) (rows left)
                   ++ ((λ r, key_part r ∪ right_part r) <$> unmatched))%list |}
  else Raise KeyError.

(** The parts of [merge_outer] by name: the name a column of [right]
    takes in the joined frame, the cells a right row brings under these
    names, and the key cells of a row. *)
Definition suffixed (left : DataFrame) (c : string) : string :=
  if bool_decide (c ∈ columns left) then c ++ "_dup" else c.

Definition right_part (left right : DataFrame) (r : Row) : Row :=
  list_to_map (omap (λ c, (suffixed left c,.) <$> r !! c)
                    (filter (λ c, c ∉ key_cols) (columns right))).

Definition key_part (r : Row) : Row := filter (λ kv, kv.1 ∈ key_cols) r.

(** The keys of the rows of a frame. *)
Definition frame_keys (df : DataFrame) : list (list cell) :=
  row_key key_cols <$> rows df.

(** The loop over [main_dfs[1:]]. *)
Fixpoint merge_loop (main : DataFrame) (dfs : list DataFrame) : result DataFrame :=
  match dfs with
  | [] => Ok main
  | df :: dfs' =>
      merged ← merge_outer main df;
      let dup_cols := filter (λ c, PyStr.endswith "_dup" c = true) (columns merged) in
      merge_loop (drop_columns dup_cols merged) dfs'
  end.

(** [km_final - km_inicial + 1] on two cells of the frame. *)
Definition km_span (km_final km_inicial : value) : result value :=
  match km_final, km_inicial with
  | VNum f, VNum i => Ok (VNum (f - i + 1))
  | _, _ => Raise TypeError
  end.

(** One row of the masked assignment of lines 75-78. *)
Definition fill_row (r : Row) : result Row :=
  match r !! "km_total", r !! "km_inicial", r !! "km_final" with
  | None, Some i, Some f => v ← km_span f i; Ok (<["km_total" := v]> r)
  | _, _, _ => Ok r
  end.

Fixpoint fill_rows (rs : list Row) : result (list Row) :=
  match rs with
  | [] => Ok []
  | r :: rs' => r' ← fill_row r; rs'' ← fill_rows rs'; Ok (r' :: rs'')
  end.

(** Lines 73-78. *)
Definition fill_km_total (main : DataFrame) : result DataFrame :=
  if bool_decide ("km_total" ∈ columns main) then
    if has_columns ["km_inicial"; "km_final"] main then
      rs ← fill_rows (rows main);
      Ok {| columns := columns main; rows := rs |}
    else Raise KeyError
  else Ok main.

(** [keep="first"]: a row goes when its key was seen before. *)
Fixpoint keep_first (subset : list string) (seen : list (list cell)) (rs : list Row) : list Row :=
  match rs with
  | [] => []
  | r :: rs' =>
      if bool_decide (row_key subset r ∈ seen) then keep_first subset seen rs'
      else r :: keep_first subset (row_key subset r :: seen) rs'
  end.

(** [df.drop_duplicates(subset=subset, keep="first").reset_index(drop=True)] *)
Definition drop_duplicates (subset : list string) (df : DataFrame) : result DataFrame :=
  if has_columns subset df
  then Ok {| columns := columns df; rows := keep_first subset [] (rows df) |}
  else Raise KeyError.

(** The cells of a one-row frame under the label [c]: more than one
    when the label is repeated. *)
Definition cells_named (c : string) (frame : PyDict) : list cell :=
  (filter (λ kv, kv.1 = c) frame).*2.

(** The loop of lines 91-95 over [context.columns].  Under a repeated
    label [context_flat[c]] is a frame, [.isna().all()] a series of
    several booleans, and its truth value raises [ValueError]. *)
Fixpoint flatten_loop (context : PyDict) (cols : list string) (context_flat : PyDict)
    : result PyDict :=
  match cols with
  | [] => Ok context_flat
  | c :: cols' =>
      match cells_named c context_flat with
      | [] => flatten_loop context cols' context_flat
      | [x] =>
          if isna x then
            match filter (λ v, notna v = true) (cells_named c context) with
            | first :: _ => flatten_loop context cols' (dict_set context_flat c first)
            | [] => flatten_loop context cols' context_flat
            end
          else flatten_loop context cols' context_flat
      | _ :: _ :: _ => Raise ValueError
      end
  end.

(** Lines 87-97; every context frame has the one row of index 0, so
    [pd.concat(context_dfs, axis=1)] puts their columns side by side
    and [context.iloc[0:1]] is the whole of it. *)
Definition flatten_context (context_dfs : list PyDict) : result PyDict :=
  match context_dfs with
  | [] => Ok []
  | _ =>
      let context := concat context_dfs in
      flatten_loop context context.*1 context
  end.

(** For each of the three paths: [None] when the file does not exist,
    else what its extractor does (returns or raises). *)
Record Sources : Type := {
  base_valores : option (result (DataFrame * PyDict));
  calculo : option (result DataFrame);
  cotacao : option (result (DataFrame * PyDict));
}.

(** Lines 28-48: the frames appended to [main_dfs] and [context_dfs]. *)
Definition collect_sources (s : Sources) : result (list DataFrame * list PyDict) :=
  '(main_dfs, context_dfs) ←
     match base_valores s with
     | None => Ok ([], [])
     | Some extracted =>
         '(bv_main, bv_ctx) ← extracted;
         Ok ([set_column "_source_bv" (VBool true) bv_main], [bv_ctx])
     end;
  main_dfs ←
     match calculo s with
     | None => Ok main_dfs
     | Some extracted =>
         cf_main ← extracted;
         Ok (if df_empty cf_main then main_dfs
             else main_dfs ++ [set_column "_source_cf" (VBool true) cf_main])%list
     end;
  match cotacao s with
  | None => Ok (main_dfs, context_dfs)
  | Some extracted =>
      '(cot_main, cot_ctx) ← extracted;
      Ok ((if df_empty cot_main then main_dfs
           else main_dfs ++ [set_column "_source_cot" (VBool true) cot_main])%list,
          (context_dfs ++ [cot_ctx])%list)
  end.

(** Lines 61-78: the joined frame with [km_total] backfilled. *)
Definition join_and_fill (first : DataFrame) (others : list DataFrame) : result DataFrame :=
  main ← merge_loop first others;
  fill_km_total main.

Definition merge_all (s : Sources) : result (DataFrame * PyDict) :=
  '(main_dfs, context_dfs) ← collect_sources s;
  match main_dfs with
  | [] => Ok (empty_frame, [])
  | first :: others =>
      main ← join_and_fill first others;
      main ← drop_duplicates key_cols main;
      context_flat ← flatten_context context_dfs;
      Ok (main, context_flat)
  end.

(** The three sources and their marker columns. *)
Inductive source : Set := BaseValores | Calculo | Cotacao.

Definition source_markers : list string := ["_source_bv"; "_source_cf"; "_source_cot"].

Definition marker (src : source) : string :=
  match src with
  | BaseValores => "_source_bv"
  | Calculo => "_source_cf"
  | Cotacao => "_source_cot"
  end.

(** The context frames that the extractor of [src] contributes. *)
Definition contexts_of (src : source) (ctx : PyDict) : list PyDict :=
  match src with
  | Calculo => []
  | _ => [ctx]
  end.

(** The call of [merge_all] in which only the file of [src] exists, its
    extractor returning [main] (and [ctx], when it has a context). *)
Definition only (src : source) (main : DataFrame) (ctx : PyDict) : Sources :=
  match src with
  | BaseValores => {| base_valores := Some (Ok (main, ctx)); calculo := None; cotacao := None |}
  | Calculo => {| base_valores := None; calculo := Some (Ok main); cotacao := None |}
  | Cotacao => {| base_valores := None; calculo := None; cotacao := Some (Ok (main, ctx)) |}
  end.

(** No frame is appended to [main_dfs]: the fixed-cost file, whose
    frame is appended as it comes, does not exist, and each of the two
    other files does not exist or gives an empty main frame. *)
Definition no_main_rows (s : Sources) : Prop :=
  base_valores s = None
  ∧ (calculo s = None ∨ ∃ df, calculo s = Some (Ok df) ∧ df_empty df = true)
  ∧ (cotacao s = None
     ∨ ∃ df ctx, cotacao s = Some (Ok (df, ctx)) ∧ df_empty df = true).

(** No row of the frame is touched by the backfill of [km_total]. *)
Definition km_total_complete (df : DataFrame) : Prop :=
  ∀ r : Row, r ∈ rows df →
    r !! "km_total" = None → r !! "km_inicial" = None ∨ r !! "km_final" = None.


(** The combination rule in the words of the specification: "for each
    field, take the first non-missing value across the context records
    in source order". *)
Definition first_non_missing (context_dfs : list PyDict) (field : string) : cell :=
  default None
    (head (filter (λ v, notna v = true)
                  (omap (λ d : PyDict, dict_get d field) context_dfs))).

(** The records of the FactTable of a call. *)
Definition fact_records (call : result (DataFrame * PyDict)) : result (list PyDict) :=
  '(main, _) ← call; Ok (to_records main).

(** The main frame that the extractor of [src] returned, if its file
    exists and the extractor returned. *)
Definition main_of (s : Sources) (src : source) : option DataFrame :=
  match src with
  | BaseValores =>
      match base_valores s with Some (Ok (df, _)) => Some df | _ => None end
  | Calculo =>
      match calculo s with Some (Ok df) => Some df | _ => None end
  | Cotacao =>
      match cotacao s with Some (Ok (df, _)) => Some df | _ => None end
  end.

(** Every row of the frame has a marker that is true. *)
Definition marked (df : DataFrame) : Prop :=
  ∀ r : Row, r ∈ rows df → ∃ mk, mk ∈ source_markers ∧ r !! mk = Some (VBool true).

(** Every frame of [dfs] has, in all its rows, a true marker that is a
    column of no frame before it (of which [cols] are the columns). *)
Fixpoint markers_fresh (cols : list string) (dfs : list DataFrame) : Prop :=
  match dfs with
  | [] => True
  | df :: dfs' =>
      (∃ mk, mk ∈ source_markers ∧ mk ∈ columns df ∧ (mk ∉ cols)
             ∧ ∀ r : Row, r ∈ rows df → r !! mk = Some (VBool true))
      ∧ markers_fresh (cols ++ columns df) dfs'
  end.

(** No file exists. *)
Definition no_files : Sources :=
  {| base_valores := None; calculo := None; cotacao := None |}.

(** ** read_base_valores.py: the cost sheets and the percentage sheet *)

(** [CANONICAL_VEHICLES] of vehicle_mapping.py, which is not among the
    sources. *)
Variable CANONICAL_VEHICLES : list string.

(** The names of the eight cost sheets; their accented letters are
    U+00D4, U+00C7, U+00D5, U+00C3 and U+00CD. *)
Definition SHEET_PATRIMONIO : string := "PATRIM" ++ String (PyStr.chr 212) "NIO + CAPITAL".
Definition SHEET_TAXAS : string := "TAXAS E IMPOSTOS".
Definition SHEET_LICENCAS : string :=
  "LICEN" ++ String (PyStr.chr 199) ("AS E CERTIFICA"
    ++ String (PyStr.chr 199) (String (PyStr.chr 213) "ES")).
Definition SHEET_RISCO : string := "GERENCIAMENTO DE RISCO".
Definition SHEET_SEGURO : string := "SEGURO - FROTA".
Definition SHEET_MANUTENCAO : string :=
  "MANUTEN" ++ String (PyStr.chr 199) (String (PyStr.chr 195) "O+PNEUS").
Definition SHEET_MAO_OBRA : string := "M" ++ String (PyStr.chr 195) "O DE OBRA + %".
Definition SHEET_COMBUSTIVEL : string := "COMBUST" ++ String (PyStr.chr 205) "VEL".

Definition cost_sheets : list string :=
  [ SHEET_PATRIMONIO; SHEET_TAXAS; SHEET_LICENCAS; SHEET_RISCO;
    SHEET_SEGURO; SHEET_MANUTENCAO; SHEET_MAO_OBRA; SHEET_COMBUSTIVEL ].

Definition sheet_prefix : list (string * string) :=
  [ (SHEET_PATRIMONIO, "patrimonio_"); (SHEET_TAXAS, "taxas_");
    (SHEET_LICENCAS, "licencas_"); (SHEET_RISCO, "risco_");
    (SHEET_SEGURO, "seguro_"); (SHEET_MANUTENCAO, "manutencao_");
    (SHEET_MAO_OBRA, "mao_obra_"); (SHEET_COMBUSTIVEL, "combustivel_") ].

(** [df.iloc[r]], a whole row. *)
Definition iloc_row (df : Grid) (r : nat) : result (list cell) :=
  match df !! r with
  | Some row => Ok row
  | None => Raise IndexError
  end.

(** Lines 64-68: the columns of row 0, from column 1 on, whose label is
    the text of a canonical vehicle. *)
Definition vehicle_cols_of (header_row : list cell) : list (nat * string) :=
  omap (λ c, match header_row !! c with
             | Some (Some (VStr v)) =>
                 if bool_decide (PyStr.strip v ∈ CANONICAL_VEHICLES)
                 then Some (c, PyStr.strip v) else None
             | _ => None
             end)
       (seq 1 (length header_row - 1)).

(** Lines 79-82: [num], with [None] for Python's [None]. *)
Definition metric_num (val : cell) : option pyfloat :=
  match val with
  | Some v =>
      if bool_decide (PyStr.strip (py_str v) = "") then None
      else match py_float val with
           | Ok f => Some f
           | Raise _ => None
           end
  | None => None
  end.

(** Lines 73-86: one metric row of a cost sheet. *)
Definition cost_row (df : Grid) (prefix : string) (vehicle_cols : list (nat * string))
    (r : nat) : result (list PyDict) :=
  metric_label ← iloc df r 0;
  match metric_label with
  | None => Ok []
  | Some lv =>
      if bool_decide (PyStr.strip (py_str lv) = "") then Ok []
      else
        let metric_name := prefix ++ _slug (py_str lv) in
        for_each (λ cv : nat * string,
                    val ← iloc df r cv.1;
                    Ok (match metric_num val with
                        | Some num =>
                            [[ ("vehicle_type", Some (VStr cv.2));
                               ("metric", Some (VStr metric_name));
                               ("value", cell_of_float num) ]]
                        | None => []
                        end))
                 vehicle_cols
  end.

(** Lines 57-86: one cost sheet. *)
Definition cost_sheet (xl : Workbook) (sheet : string) : result (list PyDict) :=
  if bool_decide (sheet ∈ sheet_names xl) then
    df ← read_excel xl sheet;
    if (shape0 df =? 0)%nat || (shape1 df =? 0)%nat || (shape1 df <? 2)%nat then Ok []
    else
      header_row ← iloc_row df 0;
      let vehicle_cols := vehicle_cols_of header_row in
      if bool_decide (vehicle_cols = []) then Ok []
      else
        let prefix :=
          PyStr.lower (PyStr.replace " " "_" (default "" (assoc sheet_prefix sheet))) in
        for_each (cost_row df prefix vehicle_cols) (seq 1 (shape0 df - 1))
  else Ok [].

(** Lines 54-86: [vehicle_metrics]. *)
Definition vehicle_metrics (xl : Workbook) : result (list PyDict) :=
  for_each (cost_sheet xl) cost_sheets.

(** [row[k]] on a row of a frame. *)
Definition getitem (row : PyDict) (k : string) : result cell :=
  match dict_get row k with
  | Some x => Ok x
  | None => Raise KeyError
  end.

(** [float(val) if pd.notna(val) else None] under its [try]. *)
Definition rel_pct (val : cell) : option pyfloat :=
  match val with
  | Some _ => match py_float val with
              | Ok f => Some f
              | Raise _ => None
              end
  | None => None
  end.

(** Lines 120-144: one row of the percentage frame, whose vehicle
    columns are [km_cols]. *)
Definition rel_row (km_cols : list string) (row : PyDict) : result (list PyDict) :=
  band ← try_except
            (x_i ← getitem row "KM INICIAL"; km_i ← py_float x_i;
             x_f ← getitem row "KM FINAL"; km_f ← py_float x_f;
             Ok (Some (km_i, km_f)))
            [TypeError; ValueError] (Ok None);
  match band with
  | Some (Some km_i, Some km_f) =>
      let km_total := rel_km_total km_i km_f in
      Ok (omap (λ v, match rel_pct (default None (dict_get row v)) with
                     | Some pct =>
                         Some [ ("vehicle_type", Some (VStr v));
                                ("km_inicial", Some (VNum km_i));
                                ("km_final", Some (VNum km_f));
                                ("km_total", Some (VNum km_total));
                                ("pct_frete_ida", cell_of_float pct) ]
                     | None => None
                     end) km_cols)
  | _ => Ok []
  end.

(** Lines 119-144: [rows_rel] after the loop over the percentage
    frame. *)
Definition rel_rows (df_rel : list PyDict) (km_cols : list string) : result (list PyDict) :=
  for_each (rel_row km_cols) df_rel.

(** [km_f - km_i + 1] on floats: [nan] wherever a bound is [nan]. *)
Definition float_span (km_f km_i : pyfloat) : pyfloat :=
  match km_f, km_i with
  | Some f, Some i => Some (f - i + 1)
  | _, _ => None
  end.

(** Lines 149-172: one row of the percentage sheet read without
    header. *)
Definition rel_fallback_row (rel_raw : Grid) (r : nat) : result (list PyDict) :=
  band ← try_except
            (x_i ← iloc rel_raw r 0; km_i ← py_float x_i;
             x_f ← iloc rel_raw r 1; km_f ← py_float x_f;
             Ok (Some (km_i, km_f)))
            [TypeError; ValueError] (Ok None);
  match band with
  | None => Ok []
  | Some (km_i, km_f) =>
      for_each (λ c,
                  v ← iloc rel_raw 0 c;
                  match v with
                  | Some lv =>
                      if bool_decide (PyStr.strip (py_str lv) ∈ CANONICAL_VEHICLES) then
                        val ← iloc rel_raw r c;
                        Ok (match rel_pct val with
                            | Some pct =>
                                [[ ("vehicle_type", Some (VStr (PyStr.strip (py_str lv))));
                                   ("km_inicial", cell_of_float km_i);
                                   ("km_final", cell_of_float km_f);
                                   ("km_total", cell_of_float (float_span km_f km_i));
                                   ("pct_frete_ida", cell_of_float pct) ]]
                            | None => []
                            end)
                      else Ok []
                  | None => Ok []
                  end)
               (seq 2 (min (shape1 rel_raw) (2 + length CANONICAL_VEHICLES) - 2))
  end.

(** The record that lines 164-171 append for the header cell [lv], the
    bounds [km_i] and [km_f] and the percentage [pct]. *)
Definition rel_fallback_record (lv : value) (km_i km_f pct : pyfloat) : PyDict :=
  [ ("vehicle_type", Some (VStr (PyStr.strip (py_str lv))));
    ("km_inicial", cell_of_float km_i);
    ("km_final", cell_of_float km_f);
    ("km_total", cell_of_float (float_span km_f km_i));
    ("pct_frete_ida", cell_of_float pct) ].

(** Lines 146-172: [rows_rel] after the fallback, which runs only when
    the loop of lines 120-144 gave no row ([if not rows_rel]);
    [rel_raw] is the sheet read once more without header. *)
Definition rel_fallback_rows (rows_rel : list PyDict) (rel_raw : Grid)
    : result (list PyDict) :=
  if bool_decide (rows_rel = []) then
    for_each (rel_fallback_row rel_raw) (seq 1 (shape0 rel_raw - 1))
  else Ok rows_rel.

(** ** read_cotacao.py: the band matrix *)

(** Lines 79-101: one data row of the FRETE_PESO sheet under the header
    row. *)
Definition frete_peso_row (header_row row : list cell) : result (list PyDict) :=
  band ← try_except
            (Some <$> band_floats (row_iloc row 1) (row_iloc row 2) (row_iloc row 3))
            [TypeError; ValueError; IndexError] (Ok None);
  match band with
  | None => Ok []
  | Some (km_i, km_f, km_t) =>
      if isna (cell_of_float km_i) || isna (cell_of_float km_f) then Ok []
      else
        for_each (λ c,
                    col_name ← row_iloc header_row c;
                    match col_name with
                    | None => Ok []
                    | Some lv =>
                        if bool_decide (PyStr.strip (py_str lv) = "") then Ok []
                        else
                          match truthy (normalize_vehicle (PyStr.strip (py_str lv))) with
                          | Some v =>
                              x ← row_iloc row c;
                              Ok [[ ("vehicle_type", Some (VStr v));
                                    ("km_inicial", cell_of_float km_i);
                                    ("km_final", cell_of_float km_f);
                                    ("km_total", cell_of_float km_t);
                                    ("frete_peso_total_cotacao", _num x) ]]
                          | None => Ok []
                          end
                    end)
                 (seq 4 (min (length header_row) (length row) - 4))
  end.

(** Lines 75-101: [long_rows], for a sheet of two rows at least. *)
Definition frete_peso_rows (df_fp : Grid) : result (list PyDict) :=
  header_row ← iloc_row df_fp 1;
  for_each (frete_peso_row header_row) (drop 2 df_fp).

(** ** app.py: the columns of the table *)

Definition id_cols : list string := ["vehicle_type"; "km_inicial"; "km_final"; "km_total"].

(** Lines 107-112 of [main]: [display_cols] and [show_cols] for a frame
    of columns [cols]. *)
Definition display_cols (cols : list string) : list string :=
  filter (λ c, String.prefix "_source" c = false) cols.

Definition show_cols (cols : list string) : list string :=
  let order_cols := filter (λ c, c ∈ cols) id_cols in
  let other_cols := filter (λ c, c ∉ order_cols) (display_cols cols) in
  (order_cols ++ other_cols)%list.

End Engine.

(** ** A host for closed examples *)

Module SampleHost.

Definition upper_char (c : ascii) : ascii :=
  let n := nat_of_ascii c in
  if PyStr.in_range 97 122 n || (PyStr.in_range 224 254 n && negb (n =? 247)%nat)
  then ascii_of_nat (n - 32) else c.

Fixpoint upper (s : string) : string :=
  match s with
  | EmptyString => EmptyString
  | String c s' => String (upper_char c) (upper s')
  end.

(** The canonical vehicle types that the sources name: the values of
    [SHEET_TO_VEHICLE]. *)
Definition CANONICAL_VEHICLES : list string :=
  uniq [] (SHEET_TO_VEHICLE.*2).

(** Modelled from the spec: [normalize_vehicle] of vehicle_mapping.py,
    which is not among the sources.  "Must handle exact matches against
    the canonical set, known abbreviation/alias mappings (e.g.,
    sheet-name-style codes such as FIORINO_CS to FIORINO - CARGA SECA),
    and must be case/whitespace tolerant.  Returns absent when no
    mapping is known."  The aliases taken here are the sheet codes. *)
Definition normalize (raw_label : string) : option string :=
  let t := upper (PyStr.strip raw_label) in
  if bool_decide (t ∈ CANONICAL_VEHICLES) then Some t
  else assoc SHEET_TO_VEHICLE t.

Fixpoint digits (acc : Z) (s : string) : option Z :=
  match s with
  | EmptyString => Some acc
  | String c s' =>
      let n := nat_of_ascii c in
      if PyStr.in_range 48 57 n then digits (10 * acc + (Z.of_nat n - 48)) s' else None
  end.

(** The texts that [float] reads as an infinity, whatever their case
    and the blanks around them. *)
Definition is_inf_text (s : string) : bool :=
  bool_decide (PyStr.lower (PyStr.strip s)
               ∈ ["inf"; "+inf"; "-inf"; "infinity"; "+infinity"; "-infinity"]).

(** [float] on text, for the decimal integers and "nan". *)
Definition float_text (s : string) : option pyfloat :=
  match PyStr.strip s with
  | EmptyString => None
  | String "-" (String c d) => (λ z, Some (- z)) <$> digits 0 (String c d)
  | String c d =>
      if bool_decide (String c d = "nan") then Some None
      else Some <$> digits 0 (String c d)
  end.

(** [str] on what is not text. *)
Definition str_other (v : value) : string :=
  match v with
  | VNum z => pretty z
  | VBool true => "True"
  | VBool false => "False"
  | VStr s => s
  | VDate _ => "1900-01-01 00:00:00"
  end.

Definition host : Host :=
  {| normalize_vehicle := normalize;
     float_of_str := float_text;
     float_is_inf := is_inf_text;
     str_of_other := str_other |}.

Local Open Scope nat_scope.

(** A row of [n] blank cells with the cells [xs] put at their indexes. *)
Definition cells (n : nat) (xs : list (nat * value)) : list cell :=
  foldr (λ ix row, <[ix.1 := Some ix.2]> row) (replicate n None) xs.

(** A computed-freight workbook with the two sheets that
    [SHEET_TO_VEHICLE] sends to the same vehicle, one band each. *)
Definition wb_two_fiorino : Workbook :=
  [ ("FIORINO_CS", [cells 21 []; cells 21 [(9, VNum 0); (10, VNum 100); (11, VNum 101); (18, VNum 500)]]);
    ("FIORINO_CS_AG", [cells 21 []; cells 21 [(9, VNum 0); (10, VNum 100); (11, VNum 101); (18, VNum 700)]]) ].

(** What [read_calculo_frete] returns on [wb_two_fiorino]. *)
Definition two_fiorino_frame : DataFrame :=
  frame_of_records
    [ [ ("vehicle_type", Some (VStr "FIORINO - CARGA SECA"));
        ("km_inicial", Some (VNum 0)); ("km_final", Some (VNum 100));
        ("km_total", Some (VNum 101));
        ("valor_dia_util_calculo", None); ("mensal_calculo", None);
        ("por_km_calculo", None); ("frete_peso_entrega", Some (VNum 500));
        ("frete_peso_retorno", None); ("frete_peso_viagem", None) ];
      [ ("vehicle_type", Some (VStr "FIORINO - CARGA SECA"));
        ("km_inicial", Some (VNum 0)); ("km_final", Some (VNum 100));
        ("km_total", Some (VNum 101));
        ("valor_dia_util_calculo", None); ("mensal_calculo", None);
        ("por_km_calculo", None); ("frete_peso_entrega", Some (VNum 700));
        ("frete_peso_retorno", None); ("frete_peso_viagem", None) ] ].

(** A frame of one band of one vehicle. *)
Definition one_band_frame : DataFrame :=
  frame_of_records
    [ [ ("vehicle_type", Some (VStr "VAN - CARGA SECA"));
        ("km_inicial", Some (VNum 0)); ("km_final", Some (VNum 100));
        ("km_total", Some (VNum 101)); ("frete_peso_entrega", Some (VNum 10)) ] ].

(** A computed-freight workbook whose only band runs backwards and has
    a blank KM TOTAL cell. *)
Definition wb_reversed_band : Workbook :=
  [ ("TRUCK_CS", [cells 21 []; cells 21 [(9, VNum 100); (10, VNum 50)]]) ].


(** A workbook that opens, with one blank sheet and none of the
    expected ones. *)
Definition wb_blank : Workbook := [("Plan1", [])].

(** A computed-freight workbook whose vehicle sheet stops at the KM
    TOTAL column. *)
Definition wb_narrow : Workbook :=
  [ ("TRUCK_CS", [cells 12 []; cells 12 [(9, VNum 0); (10, VNum 100); (11, VNum 101)]]) ].

(** The quotation file exists and its extractor gives a context but no
    main rows; the two other files do not exist. *)
Definition only_quotation_context : Sources :=
  {| base_valores := None;
     calculo := None;
     cotacao := Some (Ok (empty_frame, [("cliente", Some (VStr "ACME"))])) |}.

(** The calls of [merge_all] in which only the computed-freight file
    exists. *)
Definition only_calculo (xl : Workbook) : Sources :=
  {| base_valores := None;
     calculo := Some (@read_calculo_frete host xl);
     cotacao := None |}.

(** The example of the specification: source A with cliente = X before
    source B with cliente = Y and origem = Z. *)
Definition context_A : PyDict := [("cliente", Some (VStr "X"))].
Definition context_B : PyDict :=
  [("cliente", Some (VStr "Y")); ("origem", Some (VStr "Z"))].
Definition shared_field_sources : Sources :=
  {| base_valores := Some (Ok (one_band_frame, context_A));
     calculo := None;
     cotacao := Some (Ok (empty_frame, context_B)) |}.


(** A quotation sheet with the client in row 3 and the route length,
    under a label that contains "Km", in row 4. *)
Definition cotacao_sheet : Grid :=
  [ cells 4 []; cells 4 []; cells 4 [];
    cells 4 [(0, VStr "Cliente:"); (1, VStr "ACME")];
    cells 4 [(0, VStr "Total Km (ida)"); (1, VNum 420)] ].

Definition wb_cotacao : Workbook := [(COTACAO_SHEET, cotacao_sheet)].

(** A quotation sheet of two columns. *)
Definition cotacao_sheet_two_columns : Grid :=
  [ [Some (VStr "Cliente:"); Some (VStr "ACME")];
    [Some (VStr "Destino:"); None] ].

(** Quotation sheets too narrow for the quotation number and for the
    revision. *)
Definition wb_numero_narrow : Workbook :=
  [ (COTACAO_SHEET,
     [ [Some (VStr "Cliente:"); Some (VStr "ACME")];
       [Some (VStr NUMERO_LABEL); Some (VNum 123)] ]) ].

Definition wb_revisao_narrow : Workbook :=
  [ (COTACAO_SHEET, [ [Some (VStr REVISAO_LABEL); None; Some (VNum 2)] ]) ].

(** A quotation workbook whose client label stands in row 20, below
    twenty blank rows. *)
Definition wb_late_label : Workbook :=
  [ (COTACAO_SHEET,
     replicate 20 (cells 4 []) ++ [cells 4 [(0, VStr "Cliente:"); (1, VStr "ACME")]])%list ].

(** Two frames to join: they share the band 0-100 of the van and the
    columns km_total and source; the second has a band of its own. *)
Definition earlier_frame : DataFrame :=
  frame_of_records
    [ [ ("vehicle_type", Some (VStr "VAN - CARGA SECA"));
        ("km_inicial", Some (VNum 0)); ("km_final", Some (VNum 100));
        ("km_total", None); ("pct_frete_ida", Some (VNum 5));
        ("source", Some (VStr "BASE_VALORES")) ] ].

Definition later_frame : DataFrame :=
  frame_of_records
    [ [ ("vehicle_type", Some (VStr "VAN - CARGA SECA"));
        ("km_inicial", Some (VNum 0)); ("km_final", Some (VNum 100));
        ("km_total", Some (VNum 999)); ("frete_peso_entrega", Some (VNum 50));
        ("source", Some (VStr "CALCULO")) ];
      [ ("vehicle_type", Some (VStr "TRUCK - CARGA SECA"));
        ("km_inicial", Some (VNum 300)); ("km_final", Some (VNum 400));
        ("km_total", Some (VNum 7)); ("frete_peso_entrega", Some (VNum 60));
        ("source", Some (VStr "CALCULO")) ] ].

(** A fixed-cost workbook with one cost sheet: two vehicles, of which
    one is canonical, and three metric rows, of which one is blank. *)
Definition wb_costs : Workbook :=
  [ (SHEET_SEGURO,
     [ [Some (VStr "SEGURO"); Some (VStr " VAN - CARGA SECA "); Some (VStr "BICICLETA")];
       [Some (VStr "Seguro (R$/ano)"); Some (VNum 100); Some (VNum 1)];
       [None; Some (VNum 7); None];
       [Some (VStr "Franquia - %"); Some (VStr "n/d"); Some (VNum 2)] ]) ].


(** A percentage sheet whose only band has no lower bound, as the
    frame of the loop of lines 120-144 and as the sheet read without
    header. *)
Definition df_rel_open_band : list PyDict :=
  [ [("KM INICIAL", None); ("KM FINAL", Some (VNum 100));
     ("VAN - CARGA SECA", Some (VNum 5))] ].

Definition rel_raw_open_band : Grid :=
  [ [Some (VStr "DE"); Some (VStr "ATE"); Some (VStr "VAN - CARGA SECA")];
    [None; Some (VNum 100); Some (VNum 5)] ].

(** A band matrix of the quotation workbook, its rows of unequal
    length. *)
Definition df_fp_sample : Grid :=
  [ [Some (VStr "FRETE PESO")];
    [None; Some (VStr "KM INICIAL"); Some (VStr "KM FINAL"); Some (VStr "KM TOTAL");
     Some (VStr "VAN_CS"); Some (VStr "BICICLETA"); Some (VStr "TRUCK_CS")];
    [None; Some (VNum 0); Some (VNum 100); Some (VNum 101); Some (VNum 10); None];
    [None; Some (VStr "total")];
    [] ].

(** The call of [merge_all] on the two frames above. *)
Definition two_sources : Sources :=
  {| base_valores := Some (Ok (earlier_frame, [("dias_uteis", Some (VNum 24))]));
     calculo := Some (Ok later_frame);
     cotacao := None |}.

(** A fixed-cost workbook whose VIAGEM sheet gives 22 business days. *)
Definition wb_viagem : Workbook :=
  [ ("VIAGEM",
     [ [Some (VStr "VIAGEM"); None];
       [Some (VStr DIAS_UTEIS_LABEL); Some (VNum 22)];
       [Some (VStr DIAS_UTEIS_LABEL); Some (VNum 30)] ]) ].

(** A fixed-cost workbook whose VIAGEM sheet has one column only. *)
Definition wb_viagem_one_column : Workbook :=
  [ ("VIAGEM", [ [Some (VStr "VIAGEM")]; [Some (VStr DIAS_UTEIS_LABEL)] ]) ].

(** A fixed-cost workbook whose business days are the text "inf". *)
Definition wb_viagem_inf : Workbook :=
  [ ("VIAGEM",
     [ [Some (VStr "VIAGEM"); None];
       [Some (VStr DIAS_UTEIS_LABEL); Some (VStr "inf")] ]) ].

End SampleHost.

(** * Verification *)

(** ** Slugification *)

Section Slug.

Lemma take_length n s : (String.length (PyStr.take n s) <= n)%nat.
Proof.
  revert s; induction n as [|n IH]; intros [|c s]; simpl; try lia.
  specialize (IH s); lia.
Qed.

Lemma append_cons c s t : String c s ++ t = String c (s ++ t).
Proof. reflexivity. Qed.

Lemma append_assoc s t u : (s ++ t) ++ u = s ++ (t ++ u).
Proof.
  induction s as [|c s IH]; [reflexivity|].
  by rewrite !append_cons, IH.
Qed.

Lemma concat_map_app f s t :
  concat_map f (s ++ t) = concat_map f s ++ concat_map f t.
Proof.
  induction s as [|c s IH]; [reflexivity|].
  rewrite append_cons. simpl. by rewrite IH, append_assoc.
Qed.

Lemma concat_map_compose f g s :
  concat_map f (concat_map g s) = concat_map (λ c, concat_map f (g c)) s.
Proof.
  induction s as [|c s IH]; simpl; [done|].
  by rewrite concat_map_app, IH.
Qed.

Lemma concat_map_ext f g s :
  (∀ c, f c = g c) → concat_map f s = concat_map g s.
Proof. intros E; induction s as [|c s IH]; simpl; [done|]. by rewrite E, IH. Qed.

Lemma replace_concat_map old new s :
  PyStr.replace old new s = concat_map (subst1 old new) s.
Proof.
  induction s as [|c s IH]; simpl; [done|].
  unfold subst1 at 1. destruct (Ascii.eqb c old); simpl; by rewrite IH.
Qed.

Lemma slug_chain s :
  PyStr.replace "." "" (PyStr.replace ":" "" (PyStr.replace "-" "_"
    (PyStr.replace ")" "" (PyStr.replace "(" "" (PyStr.replace "/" "_"
    (PyStr.replace "%" "pct" (PyStr.replace " " "_" s)))))))
  = concat_map slug_char s.
Proof.
  rewrite !replace_concat_map, !concat_map_compose.
  apply concat_map_ext.
  intros [[] [] [] [] [] [] [] []]; vm_compute; reflexivity.
Qed.

End Slug.

(** C4 (as amended): for every label, [_slug] lowercases it, turns a
    space, a slash and a hyphen into an underscore and a percent sign
    into "pct", strips the characters ( ) : and ., and cuts the result
    at 50 characters; the slug, being a function of the label, is the
    same at every call and never exceeds 50 characters. *)
Theorem slug_characterised (label : string) :
  _slug label = PyStr.take 50 (concat_map slug_char (PyStr.lower label))
  ∧ (String.length (_slug label) <= 50)%nat.
Proof.
  split.
  - unfold _slug. by rewrite slug_chain.
  - apply take_length.
Qed.

(** C4 (as stated) fails: a slash and a hyphen are not stripped, they
    become underscores. *)
Lemma slug_keeps_separators :
  _slug "Custo/km - total" = "custo_km___total"
  ∧ spec_slug "Custo/km - total" = "custokm__total"
  ∧ ¬ (∀ label, _slug label = spec_slug label).
Proof.
  split; [reflexivity|]. split; [reflexivity|].
  intros E. specialize (E "a/b"). vm_compute in E. discriminate.
Qed.

(** ** The business-day count of the fixed-cost workbook *)

Section DiasUteis.
Context `{Host}.

(** What the [try] of lines 26-29 leaves in [dias_uteis], and what it
    lets through. *)
Lemma int_float_caught x :
  try_except (x' ← Ok x; n ← int_float x'; Ok (Some n))
             [ValueError; TypeError] (Ok None)
  = if is_inf x then Raise OverflowError
    else Ok (match int_float x with Ok n => Some n | Raise _ => None end).
Proof.
  unfold int_float. cbn [mbind result_bind].
  destruct (is_inf x); [reflexivity|].
  destruct x as [[z|s|b|d]|]; simpl; try done.
  destruct (float_of_str s) as [[z|]|]; done.
Qed.

Lemma viagem_scan_spec (df_viagem : Grid) :
  Forall (λ row, (2 ≤ length row)%nat) df_viagem →
  viagem_scan df_viagem =
    match dias_uteis_row df_viagem with
    | None => Ok None
    | Some row =>
        if is_inf (default None (row !! 1%nat)) then Raise OverflowError
        else Ok (match int_float (default None (row !! 1%nat)) with
                 | Ok n => Some n
                 | Raise _ => None
                 end)
    end.
Proof.
  induction 1 as [|row rest Hlen _ IH]; [done|].
  destruct row as [|c0 [|c1 row]]; simpl in Hlen; try lia.
  unfold dias_uteis_row. simpl.
  case_bool_decide as Hc0.
  - rewrite bool_decide_true by congruence.
    simpl. apply int_float_caught.
  - rewrite bool_decide_false by congruence. apply IH.
Qed.

End DiasUteis.

(** The default rule of [dias_uteis] where the conversion is under the
    [try]: on a VIAGEM sheet of two columns whose business-day cell is
    no infinity, the context record is returned with 24 when no row
    carries the label, when the value cell of the first such row cannot
    be converted, or when it converts to zero, and with the converted
    integer otherwise. *)
Theorem dias_uteis_default_rule `{Host} (xl : Workbook) (df_viagem : Grid) :
  read_excel xl "VIAGEM" = Ok df_viagem →
  Forall (λ row, (2 ≤ length row)%nat) df_viagem →
  (∀ row x, dias_uteis_row df_viagem = Some row → row !! 1%nat = Some x →
     is_inf x = false) →
  ∃ n : Z,
    base_valores_context xl = Ok [("dias_uteis", Some (VNum n))]
    ∧ (dias_uteis_row df_viagem = None → n = 24%Z)
    ∧ (∀ row x, dias_uteis_row df_viagem = Some row → row !! 1%nat = Some x →
         (raises (int_float x) → n = 24%Z)
         ∧ (int_float x = Ok 0%Z → n = 24%Z)
         ∧ (∀ k, int_float x = Ok k → k ≠ 0%Z → n = k)).
Proof.
  intros Hread Hwide Hfinite.
  unfold base_valores_context. rewrite Hread. cbn [mbind result_bind].
  rewrite (viagem_scan_spec _ Hwide).
  destruct (dias_uteis_row df_viagem) as [row|] eqn:Hrow.
  - assert (∃ x, row !! 1%nat = Some x) as [x Hx].
    { apply lookup_lt_is_Some_2.
      apply (proj1 (Forall_forall _ _) Hwide).
      unfold dias_uteis_row in Hrow. apply find_some in Hrow as [Hin _].
      by apply list_elem_of_In. }
    rewrite Hx. cbn [default id]. rewrite (Hfinite row x eq_refl Hx).
    cbn [mbind result_bind].
    eexists; split; [reflexivity|]. split; [done|].
    intros ? x' [= <-] Hx'. rewrite Hx in Hx'. injection Hx' as <-.
    repeat split.
    + by intros [e ->].
    + by intros ->.
    + intros k -> Hk. simpl. by rewrite bool_decide_false.
  - cbn [mbind result_bind]. eexists; split; [reflexivity|]. split; [done|].
    intros ?? [=].
Qed.

Lemma dias_uteis_default_rule_witness :
  ∃ n : Z,
    @base_valores_context SampleHost.host SampleHost.wb_viagem
      = Ok [("dias_uteis", Some (VNum n))]
    ∧ n = 22%Z.
Proof.
  destruct (@dias_uteis_default_rule SampleHost.host SampleHost.wb_viagem
              [ [Some (VStr "VIAGEM"); None];
                [Some (VStr DIAS_UTEIS_LABEL); Some (VNum 22)];
                [Some (VStr DIAS_UTEIS_LABEL); Some (VNum 30)] ])
    as (n & Hctx & _ & Hrow).
  - reflexivity.
  - repeat constructor; simpl; lia.
  - intros row x [= <-] [= <-]. reflexivity.
  - exists n. split; [exact Hctx|].
    destruct (Hrow [Some (VStr DIAS_UTEIS_LABEL); Some (VNum 22)] (Some (VNum 22)))
      as (_ & _ & Hk); [reflexivity..|].
    apply Hk; [reflexivity|discriminate].
Defined.

(** C10 fails on the code: the business-day cell is read and converted
    under a [try] that catches [ValueError] and [TypeError] only.  On a
    VIAGEM sheet of one column the label row raises [IndexError], and
    on the text "inf" the conversion raises [OverflowError]: the
    extractor returns no context record, where the claim has
    [dias_uteis] = 24. *)
Theorem dias_uteis_raises `{Host} :
  base_valores_context SampleHost.wb_viagem_one_column = Raise IndexError
  ∧ @base_valores_context SampleHost.host SampleHost.wb_viagem_inf
    = Raise OverflowError.
Proof. split; reflexivity. Qed.

(** ** Deduplication on the join key *)

Section KeepFirst.
Variable subset : list string.
Local Abbreviation key := (row_key subset).

Lemma keep_first_fresh seen rs r :
  r ∈ keep_first subset seen rs → key r ∉ seen.
Proof.
  revert seen; induction rs as [|r0 rs IH]; intros seen; simpl.
  - by intros ?%elem_of_nil.
  - case_bool_decide as Hseen; [by apply IH|].
    intros [->|Hin]%elem_of_cons; [done|].
    apply IH in Hin. by apply not_elem_of_cons in Hin as [_ ?].
Qed.

Lemma keep_first_NoDup seen rs :
  NoDup (key <$> keep_first subset seen rs).
Proof.
  revert seen; induction rs as [|r0 rs IH]; intros seen; simpl.
  - constructor.
  - case_bool_decide as Hseen; [apply IH|].
    rewrite fmap_cons. constructor; [|apply IH].
    intros (r & Hkey & Hin)%list_elem_of_fmap.
    apply keep_first_fresh in Hin. apply Hin. rewrite Hkey. by left.
Qed.

(** A row is kept exactly when it is the first of its key, and the key
    was not seen before. *)
Lemma keep_first_elem_of seen rs r :
  r ∈ keep_first subset seen rs ↔
  ((key r ∉ seen) ∧
   (∃ i, rs !! i = Some r
         ∧ ∀ j r', (j < i)%nat → rs !! j = Some r' → key r' ≠ key r)).
Proof.
  revert seen; induction rs as [|r0 rs IH]; intros seen; simpl.
  - split; [by intros ?%elem_of_nil|]. by intros (_ & i & ? & _).
  - case_bool_decide as Hseen.
    + rewrite IH. split.
      * intros (Hr & i & Hi & Hfirst). split; [done|].
        exists (S i). split; [done|].
        intros [|j] r' Hj Hr'; simplify_eq/=; [congruence|].
        eapply Hfirst; [|done]. lia.
      * intros (Hr & [|i] & Hi & Hfirst); simplify_eq/=; [done|].
        split; [done|]. exists i. split; [done|].
        intros j r' Hj Hr'. apply (Hfirst (S j)); [lia|done].
    + rewrite elem_of_cons, IH. split.
      * intros [->|(Hr & i & Hi & Hfirst)].
        { split; [done|]. exists 0%nat. split; [done|]. intros; lia. }
        apply not_elem_of_cons in Hr as [Hne Hr]. split; [done|].
        exists (S i). split; [done|].
        intros [|j] r' Hj Hr'; simplify_eq/=; [congruence|].
        eapply Hfirst; [|done]. lia.
      * intros (Hr & [|i] & Hi & Hfirst); simplify_eq/=; [by left|].
        right. split.
        { apply not_elem_of_cons. split; [|done].
          intros E. by apply (Hfirst 0%nat r0); [lia|..]. }
        exists i. split; [done|].
        intros j r' Hj Hr'. apply (Hfirst (S j)); [lia|done].
Qed.

(** Rows that stay keep their order. *)
Lemma keep_first_sublist seen rs : keep_first subset seen rs `sublist_of` rs.
Proof.
  revert seen; induction rs as [|r0 rs IH]; intros seen; simpl; [done|].
  case_bool_decide; [by apply sublist_cons|by apply sublist_skip].
Qed.

(** Without a repeated key nothing goes. *)
Lemma keep_first_id seen rs :
  NoDup (key <$> rs) → (∀ r, r ∈ rs → key r ∉ seen) →
  keep_first subset seen rs = rs.
Proof.
  revert seen; induction rs as [|r0 rs IH]; intros seen Hnd Hseen; simpl; [done|].
  rewrite fmap_cons in Hnd. apply NoDup_cons in Hnd as [Hr0 Hnd].
  rewrite bool_decide_false by (apply Hseen; by left).
  f_equal. apply IH; [done|].
  intros r Hr. apply not_elem_of_cons. split; [|apply Hseen; by right].
  intros E. apply Hr0. rewrite <- E. by apply list_elem_of_fmap_2.
Qed.

End KeepFirst.

Section MergeAll.

(** What a returning call of [merge_all] went through. *)
Lemma merge_all_Ok (s : Sources) main ctx :
  merge_all s = Ok (main, ctx) →
  ∃ main_dfs context_dfs,
    collect_sources s = Ok (main_dfs, context_dfs)
    ∧ ((main_dfs = [] ∧ main = empty_frame ∧ ctx = [])
       ∨ (∃ first others joined,
            main_dfs = first :: others
            ∧ join_and_fill first others = Ok joined
            ∧ drop_duplicates key_cols joined = Ok main
            ∧ flatten_context context_dfs = Ok ctx)).
Proof.
  unfold merge_all.
  destruct (collect_sources s) as [[main_dfs context_dfs]|e]; [|done]. simpl.
  intros Hm. exists main_dfs, context_dfs. split; [done|].
  destruct main_dfs as [|first others]; [left; by simplify_eq|right].
  destruct (join_and_fill first others) as [joined|] eqn:Hj; [|done]. simpl in Hm.
  destruct (drop_duplicates key_cols joined) as [main'|] eqn:Hdd; [|done]. simpl in Hm.
  destruct (flatten_context context_dfs) as [ctx'|] eqn:Hfl; [|done]. simpl in Hm.
  injection Hm as -> ->. exists first, others, joined. auto.
Qed.

Lemma drop_duplicates_Ok subset df main :
  drop_duplicates subset df = Ok main →
  columns main = columns df ∧ rows main = keep_first subset [] (rows df).
Proof.
  unfold drop_duplicates. destruct (has_columns subset df); [|done].
  by intros [= <-].
Qed.

End MergeAll.

(** C2: whatever files exist, the FactTable that [merge_all] returns has
    no two rows with the same (vehicle_type, km_inicial, km_final); the
    rows kept are exactly the first-seen rows of their key in the joined
    frame. *)
Theorem fact_table_unique_keys (s : Sources) (main : DataFrame) (ctx : PyDict) :
  merge_all s = Ok (main, ctx) →
  NoDup (row_key key_cols <$> rows main)
  ∧ (∀ first others context_dfs joined,
       collect_sources s = Ok (first :: others, context_dfs) →
       join_and_fill first others = Ok joined →
       rows main `sublist_of` rows joined
       ∧ ∀ r, r ∈ rows main ↔
           ∃ i, rows joined !! i = Some r
                ∧ ∀ j r', (j < i)%nat → rows joined !! j = Some r' →
                    row_key key_cols r' ≠ row_key key_cols r).
Proof.
  intros (main_dfs & context_dfs & Hcol & Hcase)%merge_all_Ok.
  destruct Hcase as [(-> & -> & ->)|(first & others & joined & -> & Hj & Hdd & _)].
  - split; [constructor|]. intros ???? E. rewrite Hcol in E. discriminate.
  - apply drop_duplicates_Ok in Hdd as [_ Hrows]. rewrite Hrows.
    split; [apply keep_first_NoDup|].
    intros first' others' cdfs' joined' E Hj'.
    rewrite Hcol in E. simplify_eq. rewrite Hj in Hj'. simplify_eq.
    split; [apply keep_first_sublist|].
    intros r. rewrite keep_first_elem_of. split.
    + by intros [_ ?].
    + intros ?. split; [apply not_elem_of_nil|done].
Qed.

Lemma fact_table_unique_keys_witness :
  ∃ main ctx,
    merge_all (SampleHost.only_calculo SampleHost.wb_two_fiorino) = Ok (main, ctx)
    ∧ NoDup (row_key key_cols <$> rows main).
Proof.
  destruct (merge_all (SampleHost.only_calculo SampleHost.wb_two_fiorino))
    as [[main ctx]|e] eqn:E; [|vm_compute in E; discriminate].
  exists main, ctx. split; [reflexivity|].
  exact (proj1 (fact_table_unique_keys _ _ _ E)).
Defined.

(** ** Empty input *)

Lemma collect_sources_none (s : Sources) :
  no_main_rows s → ∃ context_dfs, collect_sources s = Ok ([], context_dfs).
Proof.
  intros (Hbv & Hcf & Hcot). unfold collect_sources. rewrite Hbv.
  destruct Hcf as [->|(df & -> & Hdf)];
    destruct Hcot as [->|(df' & ctx & -> & Hdf')];
    cbn [mbind result_bind]; rewrite ?Hdf; cbn [mbind result_bind];
    rewrite ?Hdf'; eauto.
Qed.

(** C6: when no source file exists, and more generally when no source
    gives main rows, [merge_all] returns two empty tables; it does not
    raise. *)
Theorem merge_all_empty :
  merge_all no_files = Ok (empty_frame, [])
  ∧ ∀ s : Sources, no_main_rows s → merge_all s = Ok (empty_frame, []).
Proof.
  split; [reflexivity|].
  intros s [cdfs Hcol]%collect_sources_none.
  unfold merge_all. by rewrite Hcol.
Qed.

Lemma merge_all_empty_witness :
  no_main_rows SampleHost.only_quotation_context
  ∧ merge_all SampleHost.only_quotation_context = Ok (empty_frame, []).
Proof.
  assert (no_main_rows SampleHost.only_quotation_context) as Hnone.
  { split; [reflexivity|]. split; [by left|].
    right. eexists _, _. split; reflexivity. }
  split; [exact Hnone|].
  exact (proj2 merge_all_empty _ Hnone).
Defined.

(** ** The backfill of km_total *)

Section Backfill.

(** The part of the rule that holds: a row without [km_total] and with
    both bounds gets [km_final - km_inicial + 1]. *)
Lemma fill_row_backfills (r : Row) (i f : Z) :
  r !! "km_total" = None →
  r !! "km_inicial" = Some (VNum i) →
  r !! "km_final" = Some (VNum f) →
  fill_row r = Ok (<["km_total" := VNum (f - i + 1)]> r).
Proof. intros Ht Hi Hf. unfold fill_row. by rewrite Ht, Hi, Hf. Qed.

Lemma fill_row_untouched (r : Row) :
  (r !! "km_total" = None → r !! "km_inicial" = None ∨ r !! "km_final" = None) →
  fill_row r = Ok r.
Proof.
  intros Hr. unfold fill_row.
  destruct (r !! "km_total"); [done|].
  destruct (Hr eq_refl) as [-> | ->]; [done|].
  by destruct (r !! "km_inicial").
Qed.

Lemma fill_rows_untouched (rs : list Row) :
  (∀ r, r ∈ rs →
     r !! "km_total" = None → r !! "km_inicial" = None ∨ r !! "km_final" = None) →
  fill_rows rs = Ok rs.
Proof.
  induction rs as [|r rs IH]; intros Hrs; simpl; [done|].
  rewrite fill_row_untouched by exact (Hrs r (list_elem_of_here _ _)). simpl.
  rewrite IH; [done|].
  intros r' Hr'. exact (Hrs r' (list_elem_of_further _ _ _ Hr')).
Qed.


End Backfill.

(** C1 fails on the code: a computed-freight sheet whose only band
    runs from 100 down to 50 with a blank KM TOTAL cell comes out of
    [merge_all] with km_total = 50 - 100 + 1 = -49, where the rule
    wants it undefined or zero. *)
Theorem backfill_negative_km_total :
  fact_records (merge_all (SampleHost.only_calculo SampleHost.wb_reversed_band)) =
    Ok [[ ("vehicle_type", Some (VStr "TRUCK - CARGA SECA"));
          ("km_inicial", Some (VNum 100)); ("km_final", Some (VNum 50));
          ("km_total", Some (VNum (-49)));
          ("valor_dia_util_calculo", None); ("mensal_calculo", None);
          ("por_km_calculo", None); ("frete_peso_entrega", None);
          ("frete_peso_retorno", None); ("frete_peso_viagem", None);
          ("_source_cf", Some (VBool true)) ]].
Proof. vm_compute. reflexivity. Qed.

(** ** Raising extractors *)

(** C5 fails on the code: a workbook that opens but lacks an expected
    sheet makes every extractor raise, and so does a vehicle sheet that
    stops before the freight columns. *)
Theorem missing_sheet_raises `{Host} :
  read_calculo_frete SampleHost.wb_blank = Raise ValueError
  ∧ base_valores_context SampleHost.wb_blank = Raise ValueError
  ∧ cotacao_context SampleHost.wb_blank = Raise ValueError
  ∧ read_calculo_frete SampleHost.wb_narrow = Raise IndexError.
Proof. repeat split; reflexivity. Qed.

(** ** One source *)

Section SingleSource.

Lemma marker_fresh src :
  (marker src ∉ ["vehicle_type"; "km_inicial"; "km_final"; "km_total"])
  ∧ (marker src ∈ source_markers).
Proof. destruct src; split; by apply (bool_decide_unpack _). Qed.

Lemma collect_only src df ctx :
  src = BaseValores ∨ df_empty df = false →
  collect_sources (only src df ctx)
  = Ok ([set_column (marker src) (VBool true) df], contexts_of src ctx).
Proof.
  intros Hne. unfold collect_sources.
  destruct src; cbn [only base_valores calculo cotacao mbind result_bind marker contexts_of].
  - done.
  - destruct Hne as [?| ->]; done.
  - destruct Hne as [?| ->]; done.
Qed.

Lemma has_columns_set_column cs c v df :
  has_columns cs df = true → has_columns cs (set_column c v df) = true.
Proof.
  unfold has_columns. rewrite !forallb_forall. intros Hcs k Hk.
  specialize (Hcs k Hk). apply bool_decide_eq_true in Hcs.
  apply bool_decide_eq_true. simpl.
  case_bool_decide; [done|]. apply elem_of_app. by left.
Qed.

Lemma row_key_insert subset c v (r : Row) :
  c ∉ subset → row_key subset (<[c := v]> r) = row_key subset r.
Proof.
  intros Hc. unfold row_key. apply list_fmap_ext. intros i k Hk.
  apply lookup_insert_ne. intros ->. apply Hc.
  by eapply list_elem_of_lookup_2.
Qed.

Lemma drop_columns_set_column cs c v df :
  c ∈ cs → drop_columns cs (set_column c v df) = drop_columns cs df.
Proof.
  intros Hc. unfold drop_columns, set_column. simpl. f_equal.
  - case_bool_decide; [done|].
    rewrite filter_app, filter_cons_False, filter_nil by (by intros []).
    by rewrite app_nil_r.
  - rewrite <- list_fmap_compose. apply list_fmap_ext. intros i r _. simpl.
    apply map_filter_insert_not. by intros y [].
Qed.

(** The joined frame of a lone source is its own frame. *)
Lemma lone_frame_untouched c v df :
  c ∉ ["vehicle_type"; "km_inicial"; "km_final"; "km_total"] →
  has_columns key_cols df = true →
  NoDup (row_key key_cols <$> rows df) →
  km_total_complete df →
  join_and_fill (set_column c v df) [] = Ok (set_column c v df)
  ∧ drop_duplicates key_cols (set_column c v df) = Ok (set_column c v df).
Proof.
  intros Hc Hcols Hnd Hfull.
  assert (c ∉ key_cols) as Hck.
  { intros Hin. apply Hc. unfold key_cols in Hin.
    rewrite !elem_of_cons in *. tauto. }
  assert (∀ k, k ∈ ["km_total"; "km_inicial"; "km_final"] → k ≠ c) as Hkc.
  { intros k Hk ->. apply Hc. rewrite !elem_of_cons in *. tauto. }
  pose proof (has_columns_set_column _ c v _ Hcols) as Hcols'.
  assert (fill_km_total (set_column c v df) = Ok (set_column c v df)) as Hfill.
  { unfold fill_km_total. case_bool_decide; [|done].
    assert (has_columns ["km_inicial"; "km_final"] (set_column c v df) = true) as ->.
    { revert Hcols'. unfold has_columns, key_cols. simpl.
      rewrite !andb_true_r, !andb_true_iff. tauto. }
    rewrite fill_rows_untouched; [by destruct df|].
    intros r (r0 & -> & Hr0)%list_elem_of_fmap.
    rewrite !lookup_insert_ne
      by (apply not_eq_sym, Hkc; rewrite !elem_of_cons; tauto).
    by apply Hfull. }
  split; [exact Hfill|].
  unfold drop_duplicates. rewrite Hcols'. f_equal.
  rewrite keep_first_id; [by destruct df| |intros; apply not_elem_of_nil].
  assert (row_key key_cols <$> rows (set_column c v df)
          = row_key key_cols <$> rows df) as ->; [|done].
  unfold set_column; cbn [rows]. rewrite <- list_fmap_compose.
  apply list_fmap_ext. intros i r _. exact (row_key_insert key_cols c v r Hck).
Qed.

End SingleSource.

(** ** The combined context record *)

Section Context.

Lemma cells_named_labels (c : string) (d : PyDict) :
  length (cells_named c d) = length (filter (λ k, k = c) d.*1).
Proof.
  unfold cells_named. rewrite length_fmap.
  induction d as [|[k x] d IH]; [done|].
  rewrite fmap_cons, !filter_cons. simpl.
  destruct (decide (k = c)); simpl; by rewrite IH.
Qed.

Lemma dict_set_labels (d : PyDict) k v : k ∈ d.*1 → (dict_set d k v).*1 = d.*1.
Proof.
  induction d as [|[k' x] d IH]; [by intros ?%elem_of_nil|]. simpl.
  intros [->|Hin]%elem_of_cons.
  - by rewrite bool_decide_true.
  - case_bool_decide; simplify_eq/=; [done|]. by rewrite IH.
Qed.

(** Labels none of which is repeated are without a duplicate. *)
Lemma NoDup_from_counts (l l' : list string) :
  l' ⊆ l →
  (∀ c, c ∈ l' → (length (filter (λ k, k = c) l) ≤ 1)%nat) →
  (∀ c, c ∈ l' → (length (filter (λ k, k = c) l') ≤ length (filter (λ k, k = c) l))%nat) →
  NoDup l'.
Proof.
  intros _. induction l' as [|a l' IH]; intros Hcount Hle; [constructor|].
  constructor.
  - intros Ha.
    specialize (Hcount a (list_elem_of_here _ _)).
    specialize (Hle a (list_elem_of_here _ _)).
    rewrite filter_cons_True in Hle by done. simpl in Hle.
    assert (a ∈ filter (λ k, k = a) l') as Hin by (by apply list_elem_of_filter).
    destruct (filter (λ k, k = a) l');
      [by apply elem_of_nil in Hin|simpl in Hle; lia].
  - apply IH.
    + intros c Hc. apply Hcount. by right.
    + intros c Hc. etrans; [|apply Hle; by right].
      rewrite filter_cons. destruct (decide (a = c)); simpl; lia.
Qed.

Lemma cells_named_single (c : string) (d : PyDict) :
  NoDup d.*1 → c ∈ d.*1 → ∃ x, cells_named c d = [x].
Proof.
  unfold cells_named.
  induction d as [|[k x] d IH]; [by intros _ ?%elem_of_nil|].
  rewrite fmap_cons. simpl. intros [Hk Hnd]%NoDup_cons Hin.
  rewrite filter_cons. simpl. destruct (decide (k = c)) as [->|Hne].
  - exists x. simpl. f_equal.
    assert (filter (λ kv : string * cell, kv.1 = c) d = []) as ->; [|done].
    clear -Hk. induction d as [|[k' x'] d IH]; [done|].
    rewrite fmap_cons in Hk. apply not_elem_of_cons in Hk as [Hne Hk].
    rewrite filter_cons_False by (intros E; apply Hne; symmetry; exact E).
    by apply IH.
  - apply IH; [done|]. by apply elem_of_cons in Hin as [->|?].
Qed.

(** Over labels that are pairwise distinct the loop changes nothing. *)
Lemma flatten_loop_distinct (context : PyDict) (cols : list string) :
  NoDup context.*1 → cols ⊆ context.*1 →
  flatten_loop context cols context = Ok context.
Proof.
  intros Hnd. induction cols as [|c cols IH]; intros Hsub; [done|].
  assert (c ∈ context.*1) as Hc by (apply Hsub; by left).
  assert (cols ⊆ context.*1) as Hcols by (intros k Hk; apply Hsub; by right).
  destruct (cells_named_single c context Hnd Hc) as [x Hx].
  simpl. rewrite Hx.
  destruct (isna x) eqn:Hna; [|by apply IH].
  apply bool_decide_eq_true in Hna as ->.
  rewrite filter_cons_False by (by intros ?). rewrite filter_nil.
  by apply IH.
Qed.

(** A loop that ends has met no repeated label. *)
Lemma flatten_loop_Ok (context : PyDict) (cols : list string) (flat res : PyDict) :
  flat.*1 = context.*1 → cols ⊆ context.*1 →
  flatten_loop context cols flat = Ok res →
  ∀ c, c ∈ cols → (length (filter (λ k, k = c) context.*1) ≤ 1)%nat.
Proof.
  revert flat. induction cols as [|c cols IH]; intros flat Hlab Hsub Hloop c' Hc';
    [by apply elem_of_nil in Hc'|].
  assert (cols ⊆ context.*1) as Hcols by (intros k Hk; apply Hsub; by right).
  assert (c ∈ flat.*1) as Hcflat by (rewrite Hlab; apply Hsub; by left).
  simpl in Hloop.
  pose proof (cells_named_labels c flat) as Hlen. rewrite Hlab in Hlen.
  assert (∃ flat', flat'.*1 = context.*1
                   ∧ flatten_loop context cols flat' = Ok res
                   ∧ (length (cells_named c flat) ≤ 1)%nat) as (flat' & Hlab' & Hloop' & Hone).
  { destruct (cells_named c flat) as [|x [|y rest]]; [| |done].
    - exists flat. simpl. eauto.
    - destruct (isna x).
      + destruct (filter _ (cells_named c context)) as [|first ?].
        * exists flat. simpl. eauto.
        * exists (dict_set flat c first). split; [|simpl; eauto].
          by rewrite dict_set_labels.
      + exists flat. simpl. eauto. }
  apply elem_of_cons in Hc' as [->|Hc'].
  - lia.
  - by eapply IH.
Qed.

Lemma flatten_context_Ok (context_dfs : list PyDict) (flat : PyDict) :
  flatten_context context_dfs = Ok flat →
  NoDup (concat context_dfs).*1 ∧ flat = concat context_dfs.
Proof.
  intros Hfl.
  assert (flatten_loop (concat context_dfs) (concat context_dfs).*1 (concat context_dfs)
          = Ok flat) as Hloop.
  { destruct context_dfs; [|done]. by injection Hfl as <-. }
  assert (NoDup (concat context_dfs).*1) as Hnd.
  { eapply (NoDup_from_counts (concat context_dfs).*1); [done| |done].
    by eapply flatten_loop_Ok. }
  split; [done|].
  rewrite flatten_loop_distinct in Hloop by done. by injection Hloop.
Qed.

Lemma flatten_context_distinct (context_dfs : list PyDict) :
  NoDup (concat context_dfs).*1 →
  flatten_context context_dfs = Ok (concat context_dfs).
Proof.
  intros Hnd. destruct context_dfs as [|d ds]; [done|].
  unfold flatten_context. by apply flatten_loop_distinct.
Qed.

End Context.

Section ContextFields.





End ContextFields.

(** C7 (as amended): with one source present, whose main table has
    rows (or is the fixed-cost table), no two rows with the same key
    and no row that lacks km_total while having both bounds,
    [merge_all] returns a FactTable equal to that table up to the
    source-marker columns. *)
Theorem single_source_fact_table (src : source) (df : DataFrame) (ctx : PyDict) :
  src = BaseValores ∨ df_empty df = false →
  has_columns key_cols df = true →
  NoDup (row_key key_cols <$> rows df) →
  km_total_complete df →
  NoDup ctx.*1 →
  ∃ fact c,
    merge_all (only src df ctx) = Ok (fact, c)
    ∧ drop_columns source_markers fact = drop_columns source_markers df.
Proof.
  intros Hne Hcols Hnd Hfull Hctx.
  destruct (marker_fresh src) as [Hfresh Hmark].
  destruct (lone_frame_untouched (marker src) (VBool true) df Hfresh Hcols Hnd Hfull)
    as [Hjoin Hdd].
  assert (flatten_context (contexts_of src ctx) = Ok (concat (contexts_of src ctx)))
    as Hflat.
  { apply flatten_context_distinct.
    destruct src; simpl; rewrite ?app_nil_r; done || constructor. }
  eexists _, _. split.
  - unfold merge_all. rewrite (collect_only _ _ _ Hne).
    cbn [mbind result_bind]. rewrite Hjoin. cbn [mbind result_bind].
    rewrite Hdd. cbn [mbind result_bind]. rewrite Hflat. reflexivity.
  - by apply drop_columns_set_column.
Qed.

Lemma single_source_fact_table_witness :
  ∃ fact c,
    merge_all (only Calculo SampleHost.one_band_frame []) = Ok (fact, c)
    ∧ drop_columns source_markers fact
      = drop_columns source_markers SampleHost.one_band_frame.
Proof.
  apply single_source_fact_table.
  - right. reflexivity.
  - reflexivity.
  - apply (bool_decide_unpack _). vm_compute. reflexivity.
  - intros r Hr Ht. apply list_elem_of_singleton in Hr. subst r.
    vm_compute in Ht. discriminate.
  - constructor.
Defined.

(** C7 (as stated) fails: the two sheets that [SHEET_TO_VEHICLE] sends
    to the same vehicle give the extractor two rows of one key, of which
    [merge_all] keeps the first. *)
Lemma single_source_loses_rows :
  @read_calculo_frete SampleHost.host SampleHost.wb_two_fiorino
    = Ok SampleHost.two_fiorino_frame
  ∧ length (rows SampleHost.two_fiorino_frame) = 2%nat
  ∧ ∃ fact c,
      merge_all (only Calculo SampleHost.two_fiorino_frame []) = Ok (fact, c)
      ∧ length (rows fact) = 1%nat
      ∧ drop_columns source_markers fact
        ≠ drop_columns source_markers SampleHost.two_fiorino_frame.
Proof.
  split; [vm_compute; reflexivity|]. split; [reflexivity|].
  destruct (merge_all (only Calculo SampleHost.two_fiorino_frame []))
    as [[fact c]|e] eqn:E; [|vm_compute in E; discriminate].
  assert (length (rows fact) = 1%nat) as Hlen.
  { assert (fmap (M := result) (λ p : DataFrame * PyDict, length (rows p.1))
              (merge_all (only Calculo SampleHost.two_fiorino_frame [])) = Ok 1%nat)
      as Hone by (vm_compute; reflexivity).
    rewrite E in Hone. by injection Hone. }
  exists fact, c. split; [done|]. split; [done|].
  intros Heq. apply (f_equal (λ d, length (rows d))) in Heq.
  unfold drop_columns in Heq. cbn [rows] in Heq.
  rewrite !length_fmap, Hlen in Heq. discriminate.
Qed.

Section ExtractorContexts.
Context `{Host}.

Lemma dict_set_keys (d : PyDict) (k : string) (x : cell) :
  (dict_set d k x).*1 = if bool_decide (k ∈ d.*1) then d.*1 else (d.*1 ++ [k])%list.
Proof.
  induction d as [|[k' x'] d IH]; [done|]. cbn [dict_set].
  destruct (decide (k' = k)) as [->|Hne].
  - rewrite bool_decide_true by done.
    rewrite (bool_decide_true (k ∈ _)) by (rewrite fmap_cons; by left).
    done.
  - rewrite bool_decide_false by done. rewrite !fmap_cons, IH. cbn [fst].
    destruct (decide (k ∈ d.*1)) as [Hin|Hnin].
    + rewrite !bool_decide_true; [done|by right|done].
    + rewrite !bool_decide_false; [done| |done].
      intros [?|?]%elem_of_cons; congruence.
Qed.

Lemma dict_set_quotation_fields (d : PyDict) (k : string) (x : cell) :
  k ∈ QUOTATION_FIELDS →
  NoDup d.*1 ∧ d.*1 ⊆ QUOTATION_FIELDS →
  NoDup (dict_set d k x).*1 ∧ (dict_set d k x).*1 ⊆ QUOTATION_FIELDS.
Proof.
  intros Hk [Hnd Hsub]. rewrite dict_set_keys. case_bool_decide as Hin; [done|].
  split.
  - apply NoDup_app. split; [done|]. split; [|apply NoDup_singleton].
    intros k' Hk' ->%list_elem_of_singleton. done.
  - intros k' [Hk'| ->%list_elem_of_singleton]%elem_of_app; [by apply Hsub|done].
Qed.

Lemma cotacao_context_row_fields (df_cot : Grid) (context context' : PyDict) (r : nat) :
  cotacao_context_row df_cot context r = Ok context' →
  context' = context
  ∨ ∃ k x, k ∈ QUOTATION_FIELDS ∧ context' = dict_set context k x.
Proof.
  unfold cotacao_context_row. intros Hrow.
  destruct (iloc df_cot r 0) as [label|]; [|done].
  cbn [mbind result_bind] in Hrow.
  destruct (if (1 <? shape1 df_cot)%nat then iloc df_cot r 1 else Ok None)
    as [val|]; [|done].
  cbn [mbind result_bind] in Hrow.
  destruct label as [lv|]; [|left; by injection Hrow].
  revert Hrow. generalize (PyStr.strip (py_str lv)). intros s Hrow.
  repeat first
    [ progress cbn [mbind result_bind] in Hrow
    | match type of Hrow with
      | Raise _ = Ok _ => discriminate Hrow
      | Ok _ = Ok _ => injection Hrow as <-
      | context [iloc ?a ?b ?c] => destruct (iloc a b c)
      | context [if ?b then _ else _] => destruct b
      end ];
    first [ by left
          | right; eexists _, _; split; [|reflexivity];
            by apply (bool_decide_unpack _) ].
Qed.

Lemma cotacao_context_loop_fields (df_cot : Grid) (context context' : PyDict)
    (rs : list nat) :
  cotacao_context_loop df_cot context rs = Ok context' →
  NoDup context.*1 ∧ context.*1 ⊆ QUOTATION_FIELDS →
  NoDup context'.*1 ∧ context'.*1 ⊆ QUOTATION_FIELDS.
Proof.
  revert context. induction rs as [|r rs IH]; intros context; simpl.
  - by intros [= <-].
  - destruct (cotacao_context_row df_cot context r) as [context1|] eqn:Hrow; [|done].
    simpl. intros Hloop Hinv. apply (IH _ Hloop).
    destruct (cotacao_context_row_fields _ _ _ _ Hrow) as [->|(k & x & Hk & ->)];
      [done|]. by apply dict_set_quotation_fields.
Qed.

(** The context records that the two extractors build share no field
    name: the fixed-cost record has the one field dias_uteis, the
    quotation record has each of its fields once, all among
    [QUOTATION_FIELDS]. *)
Lemma extractor_contexts_share_no_field (xl_bv xl_cot : Workbook)
    (bv_ctx cot_ctx : PyDict) :
  base_valores_context xl_bv = Ok bv_ctx →
  cotacao_context xl_cot = Ok cot_ctx →
  bv_ctx.*1 = ["dias_uteis"]
  ∧ cot_ctx.*1 ⊆ QUOTATION_FIELDS
  ∧ NoDup (concat [bv_ctx; cot_ctx]).*1.
Proof.
  unfold base_valores_context, cotacao_context. intros Hbv Hcot.
  destruct (read_excel xl_bv "VIAGEM") as [df_viagem|]; [|done].
  cbn [mbind result_bind] in Hbv.
  destruct (viagem_scan df_viagem) as [dias_uteis|]; [|done].
  injection Hbv as <-.
  destruct (read_excel xl_cot COTACAO_SHEET) as [df_cot|]; [|done].
  cbn [mbind result_bind] in Hcot.
  destruct (cotacao_context_loop_fields _ _ _ _ Hcot) as [Hnd Hsub].
  { split; [constructor|]. by intros ? ?%elem_of_nil. }
  split; [done|]. split; [done|].
  cbn [concat]. rewrite app_nil_r, fmap_app. apply NoDup_app.
  split; [by apply NoDup_singleton|]. split; [|done].
  intros k ->%list_elem_of_singleton Hk%Hsub.
  cbn [fst] in Hk. by apply (bool_decide_pack _) in Hk.
Qed.

End ExtractorContexts.




(** Outside the amended statement: were a field name to stand in the
    records of two sources, as in the example of the specification, the
    loop of lines 91-95 would not take the first value: [merge_all]
    raises [ValueError].  The records that the extractors build share
    no field name. *)
Lemma shared_field_not_combined :
  first_non_missing [SampleHost.context_A; SampleHost.context_B] "cliente"
    = Some (VStr "X")
  ∧ first_non_missing [SampleHost.context_A; SampleHost.context_B] "origem"
    = Some (VStr "Z")
  ∧ collect_sources SampleHost.shared_field_sources
    = Ok ([set_column "_source_bv" (VBool true) SampleHost.one_band_frame],
          [SampleHost.context_A; SampleHost.context_B])
  ∧ merge_all SampleHost.shared_field_sources = Raise ValueError.
Proof. repeat split; vm_compute; reflexivity. Qed.

(** ** The consolidated layout of the computed-freight workbook *)

Section Fallback.
Context `{Host}.

Lemma iloc_rectangular (df : Grid) (r c : nat) :
  rectangular df → (r < shape0 df)%nat → (c < shape1 df)%nat →
  ∃ x, iloc df r c = Ok x.
Proof.
  intros Hrect Hr Hc. unfold iloc, row_iloc.
  destruct (lookup_lt_is_Some_2 df r Hr) as [row Hrow]. rewrite Hrow.
  assert (length row = shape1 df) as Hlen
    by (by eapply (proj1 (Forall_lookup _ _) Hrect)).
  destruct (lookup_lt_is_Some_2 row c) as [x Hx]; [lia|].
  rewrite Hx. eauto.
Qed.

Lemma py_float_raises (x : cell) (e : exn) :
  py_float x = Raise e → e ∈ [TypeError; ValueError].
Proof.
  destruct x as [[z|s|b|d]|]; simpl; try done.
  - destruct (float_of_str s); [done|]. intros [= <-]. by right; left.
  - intros [= <-]. by left.
Qed.


Lemma for_each_Ok {A B} (body : A → result (list B)) (xs : list A) :
  (∀ x, x ∈ xs → ∃ ys, body x = Ok ys) →
  ∃ out, for_each body xs = Ok out
         ∧ ∀ d, d ∈ out ↔ ∃ x ys, x ∈ xs ∧ body x = Ok ys ∧ d ∈ ys.
Proof.
  induction xs as [|x xs IH]; intros Hbody.
  - exists []. split; [done|]. intros d. split; [by intros ?%elem_of_nil|].
    by intros (? & ? & ?%elem_of_nil & _).
  - destruct (Hbody x (list_elem_of_here _ _)) as [ys Hys].
    destruct IH as (zs & Hzs & Hmem);
      [intros x' Hx'; apply Hbody; by right|].
    exists (ys ++ zs)%list. split; [simpl; by rewrite Hys, Hzs|].
    intros d. rewrite elem_of_app, Hmem. split.
    + intros [Hd|(x' & ys' & Hx' & Hb & Hd)].
      * exists x, ys. split; [by left|done].
      * exists x', ys'. split; [by right|done].
    + intros (x' & ys' & [->|Hx']%elem_of_cons & Hb & Hd).
      * left. congruence.
      * right. eauto.
Qed.




End Fallback.



(** ** The context scan of the quotation workbook *)

Section QuotationContext.
Context `{Host}.

Lemma iloc_cell_at (df : Grid) (r c : nat) :
  rectangular df → (r < shape0 df)%nat → (c < shape1 df)%nat →
  iloc df r c = Ok (cell_at df r c).
Proof.
  intros Hrect Hr Hc.
  destruct (iloc_rectangular df r c Hrect Hr Hc) as [x Hx]. rewrite Hx.
  unfold iloc, row_iloc, cell_at in *.
  destruct (df !! r) as [row|]; [|done]. simpl.
  destruct (row !! c); by simplify_eq.
Qed.

Lemma cell_at_outside (df : Grid) (r c : nat) :
  rectangular df → (shape1 df ≤ c)%nat → cell_at df r c = None.
Proof.
  intros Hrect Hc. unfold cell_at.
  destruct (df !! r) as [row|] eqn:Hrow; [|done]. simpl.
  assert (length row = shape1 df) as Hlen
    by (by eapply (proj1 (Forall_lookup _ _) Hrect)).
  rewrite lookup_ge_None_2; [done|lia].
Qed.

Lemma cotacao_context_row_spec (df_cot : Grid) (context : PyDict) (r : nat) :
  rectangular df_cot → (r < shape0 df_cot)%nat →
  (columns_read df_cot r ≤ shape1 df_cot)%nat →
  cotacao_context_row df_cot context r
  = Ok (apply_assignment context (row_assignment df_cot r)).
Proof.
  intros Hrect Hr Hcols. unfold cotacao_context_row, row_assignment.
  assert (1 ≤ shape1 df_cot)%nat as Hlabel.
  { unfold columns_read in Hcols.
    destruct (cell_at df_cot r 0); [repeat case_bool_decide|]; lia. }
  rewrite (iloc_cell_at df_cot r 0) by (done || lia).
  cbn [mbind result_bind].
  assert ((if (1 <? shape1 df_cot)%nat then iloc df_cot r 1 else Ok None)
          = Ok (cell_at df_cot r 1)) as ->.
  { destruct (1 <? shape1 df_cot)%nat eqn:E.
    - apply Nat.ltb_lt in E. by apply iloc_cell_at.
    - apply Nat.ltb_ge in E. by rewrite cell_at_outside. }
  cbn [mbind result_bind].
  rewrite (proj2 (Nat.leb_le (r + 1) (shape0 df_cot))) by lia.
  unfold columns_read in Hcols.
  destruct (cell_at df_cot r 0) as [lv|]; [|done].
  revert Hcols. generalize (PyStr.strip (py_str lv)). intros s Hcols.
  generalize (cell_at df_cot r 1). intros val.
  destruct (decide (s = NUMERO_LABEL)) as [->|Hnum].
  { rewrite bool_decide_true in Hcols by done.
    rewrite (iloc_cell_at df_cot r 2) by (done || lia). reflexivity. }
  rewrite (bool_decide_false _ Hnum) in Hcols.
  destruct (decide (s = REVISAO_LABEL)) as [->|Hrev].
  { rewrite bool_decide_true in Hcols by done.
    rewrite (iloc_cell_at df_cot r 3) by (done || lia).
    generalize (cell_at df_cot r 3). intros x3.
    destruct val, x3; reflexivity. }
  destruct (decide (s = "Data:")) as [->|Hdat]; [destruct val; reflexivity|].
  destruct (decide (s = "Cliente:")) as [->|Hcli]; [destruct val; reflexivity|].
  destruct (decide (s = "Origem:")) as [->|Hori]; [destruct val; reflexivity|].
  destruct (decide (s = "Destino:")) as [->|Hdes]; [destruct val; reflexivity|].
  unfold VALUE_LABELS. cbn [assoc].
  rewrite !bool_decide_false by congruence.
  cbn [andb mbind result_bind].
  by destruct (PyStr.contains "Km" s && notna val).
Qed.

Lemma cotacao_context_loop_spec (df_cot : Grid) (context : PyDict) (rs : list nat) :
  rectangular df_cot →
  Forall (λ r, (r < shape0 df_cot)%nat ∧ (columns_read df_cot r ≤ shape1 df_cot)%nat) rs →
  cotacao_context_loop df_cot context rs
  = Ok (fold_left (λ ctx r, apply_assignment ctx (row_assignment df_cot r)) rs context).
Proof.
  intros Hrect Hrs. revert context.
  induction Hrs as [|r rs [Hr Hcols] _ IH]; intros context; [done|].
  simpl. rewrite cotacao_context_row_spec by done. apply IH.
Qed.

End QuotationContext.

Section Assignments.
Variable asg : nat → option (string * cell).

Lemma dict_get_dict_set (d : PyDict) (k k' : string) (x : cell) :
  dict_get (dict_set d k x) k' = if bool_decide (k = k') then Some x else dict_get d k'.
Proof.
  induction d as [|[k0 x0] d IH]; simpl.
  - done.
  - destruct (decide (k0 = k)) as [->|Hne].
    + rewrite bool_decide_true by done. simpl. by case_bool_decide.
    + rewrite bool_decide_false by done. simpl. rewrite IH.
      repeat case_bool_decide; congruence.
Qed.

(** After a run of assignments a field holds what the last assignment
    to it gave. *)
Lemma fold_assignments_get (rs : list nat) (field : string) (x : cell) :
  dict_get (fold_left (λ ctx r, apply_assignment ctx (asg r)) rs []) field = Some x
  ↔ ∃ i r, rs !! i = Some r ∧ asg r = Some (field, x)
           ∧ ∀ i' r' x', (i < i')%nat → rs !! i' = Some r' → asg r' ≠ Some (field, x').
Proof.
  induction rs as [|r0 rs IH] using rev_ind.
  - simpl. split; [done|]. by intros (i & r & ? & _).
  - rewrite fold_left_app. simpl.
    set (prev := fold_left _ rs []) in *.
    assert (∀ i r, (rs ++ [r0])%list !! i = Some r ↔
              (rs !! i = Some r ∨ (i = length rs ∧ r = r0))) as Hsnoc.
    { intros i r. rewrite lookup_snoc_Some. split.
      - intros [[_ ?]|[? ?]]; [by left|by right].
      - intros [Hi|[? ?]]; [left; split; [by eapply lookup_lt_Some|done]|by right]. }
    assert (∀ i r, rs !! i = Some r → (i < length rs)%nat) as Hlt
      by (intros i r; apply lookup_lt_Some).
    destruct (asg r0) as [[f0 x0]|] eqn:Hr0; simpl.
    + rewrite dict_get_dict_set. case_bool_decide as Hf; [subst f0|].
      * split.
        { intros [= <-]. exists (length rs), r0. split; [by apply Hsnoc; right|].
          split; [done|]. intros i' r' x' Hi' [?%Hlt|[-> _]]%Hsnoc; lia. }
        { intros (i & r & [Hi|[-> ->]]%Hsnoc & Ha & Hlast); [|congruence].
          exfalso. apply (Hlast (length rs) r0 x0); [by eapply Hlt| |done].
          apply Hsnoc. by right. }
      * rewrite IH. split.
        { intros (i & r & Hi & Ha & Hlast). exists i, r.
          split; [apply Hsnoc; by left|]. split; [done|].
          intros i' r' x' Hi' [?|[-> ->]]%Hsnoc; [by eapply Hlast|congruence]. }
        { intros (i & r & [Hi|[-> ->]]%Hsnoc & Ha & Hlast); [|congruence].
          exists i, r. split; [done|]. split; [done|].
          intros i' r' x' Hi' Hr'. apply (Hlast i' r' x' Hi'). apply Hsnoc. by left. }
    + rewrite IH. split.
      { intros (i & r & Hi & Ha & Hlast). exists i, r.
        split; [apply Hsnoc; by left|]. split; [done|].
        intros i' r' x' Hi' [?|[-> ->]]%Hsnoc; [by eapply Hlast|congruence]. }
      { intros (i & r & [Hi|[-> ->]]%Hsnoc & Ha & Hlast); [|congruence].
        exists i, r. split; [done|]. split; [done|].
        intros i' r' x' Hi' Hr'. apply (Hlast i' r' x' Hi'). apply Hsnoc. by left. }
Qed.

End Assignments.

Section QuotationLabels.
Context `{Host}.

Lemma row_assignment_value (df_cot : Grid) (r : nat) (label field : string) :
  cell_at df_cot r 0 = Some (VStr label) →
  assoc VALUE_LABELS (PyStr.strip label) = Some field →
  cell_at df_cot r 1 ≠ None →
  row_assignment df_cot r = Some (field, cell_at df_cot r 1).
Proof.
  intros Hlabel Hassoc Hval. unfold row_assignment. rewrite Hlabel.
  cbn [py_str]. revert Hassoc. generalize (PyStr.strip label). intros s Hassoc.
  assert (s ≠ NUMERO_LABEL ∧ s ≠ REVISAO_LABEL) as [Hnum Hrev]
    by (split; intros ->; vm_compute in Hassoc; discriminate).
  rewrite !bool_decide_false by done. rewrite Hassoc.
  by destruct (cell_at df_cot r 1).
Qed.

Lemma row_assignment_km (df_cot : Grid) (r : nat) (label : string) :
  cell_at df_cot r 0 = Some (VStr label) →
  PyStr.contains "Km" (PyStr.strip label) = true →
  PyStr.strip label ∉ EXACT_LABELS →
  cell_at df_cot r 1 ≠ None →
  row_assignment df_cot r = Some ("km_rota", cell_at df_cot r 1).
Proof.
  intros Hlabel Hkm Hexact Hval. unfold row_assignment. rewrite Hlabel.
  cbn [py_str]. revert Hkm Hexact. generalize (PyStr.strip label). intros s Hkm Hexact.
  unfold EXACT_LABELS, VALUE_LABELS in Hexact. cbn [fmap list_fmap fst] in Hexact.
  rewrite !not_elem_of_cons in Hexact.
  destruct Hexact as (? & ? & ? & ? & ? & ? & _).
  unfold VALUE_LABELS. cbn [assoc].
  rewrite !bool_decide_false by congruence. rewrite Hkm.
  by destruct (cell_at df_cot r 1).
Qed.

Lemma row_assignment_numero (df_cot : Grid) (r : nat) (label : string) :
  cell_at df_cot r 0 = Some (VStr label) →
  PyStr.strip label = NUMERO_LABEL →
  row_assignment df_cot r
  = Some ("numero_cotacao", VStr ∘ py_str <$> cell_at df_cot r 2).
Proof.
  intros Hlabel Hs. unfold row_assignment. rewrite Hlabel. cbn [py_str].
  rewrite Hs. reflexivity.
Qed.

Lemma row_assignment_revisao (df_cot : Grid) (r : nat) (label : string) :
  cell_at df_cot r 0 = Some (VStr label) →
  PyStr.strip label = REVISAO_LABEL →
  cell_at df_cot r 3 ≠ None →
  row_assignment df_cot r = Some ("revisao", cell_at df_cot r 3).
Proof.
  intros Hlabel Hs Hx. unfold row_assignment. rewrite Hlabel. cbn [py_str].
  rewrite Hs. by destruct (cell_at df_cot r 3).
Qed.

End QuotationLabels.

(** C9 (as amended): the context fields of a quotation workbook are
    found by their label cells wherever these stand among the first 20
    rows of the sheet, the last such row giving the value; rows further
    down are not read.  Data, client, origin and destination have their
    value in column 1, the quotation number (as text) in column 2, the
    revision in column 3, and any other label that contains "Km" gives
    the route length from column 1.  This holds for a sheet of any
    width in which every row read has the cells that the scan reads
    without a test: column 2 in a row labelled with the quotation
    number, column 3 in a row labelled with the revision. *)
Theorem quotation_context_scan `{Host} (xl : Workbook) (df_cot : Grid) :
  read_excel xl COTACAO_SHEET = Ok df_cot →
  rectangular df_cot →
  (∀ r, (r < 20)%nat → (r < shape0 df_cot)%nat →
        (columns_read df_cot r ≤ shape1 df_cot)%nat) →
  ∃ context,
    cotacao_context xl = Ok context
    ∧ (∀ field x,
         dict_get context field = Some x ↔
         ∃ r, (r < 20)%nat ∧ (r < shape0 df_cot)%nat
              ∧ row_assignment df_cot r = Some (field, x)
              ∧ ∀ r' x', (r < r')%nat → (r' < 20)%nat → (r' < shape0 df_cot)%nat →
                  row_assignment df_cot r' ≠ Some (field, x'))
    ∧ (∀ r label field,
         cell_at df_cot r 0 = Some (VStr label) →
         assoc VALUE_LABELS (PyStr.strip label) = Some field →
         cell_at df_cot r 1 ≠ None →
         row_assignment df_cot r = Some (field, cell_at df_cot r 1))
    ∧ (∀ r label,
         cell_at df_cot r 0 = Some (VStr label) →
         PyStr.contains "Km" (PyStr.strip label) = true →
         PyStr.strip label ∉ EXACT_LABELS →
         cell_at df_cot r 1 ≠ None →
         row_assignment df_cot r = Some ("km_rota", cell_at df_cot r 1))
    ∧ (∀ r label,
         cell_at df_cot r 0 = Some (VStr label) →
         PyStr.strip label = NUMERO_LABEL →
         row_assignment df_cot r
         = Some ("numero_cotacao", VStr ∘ py_str <$> cell_at df_cot r 2))
    ∧ (∀ r label,
         cell_at df_cot r 0 = Some (VStr label) →
         PyStr.strip label = REVISAO_LABEL →
         cell_at df_cot r 3 ≠ None →
         row_assignment df_cot r = Some ("revisao", cell_at df_cot r 3)).
Proof.
  intros Hread Hrect Hwide.
  assert (Forall (λ r, (r < shape0 df_cot)%nat
                       ∧ (columns_read df_cot r ≤ shape1 df_cot)%nat)
                 (seq 0 (min 20 (shape0 df_cot))))
    as Hrs.
  { apply Forall_forall. intros r [_ Hr]%elem_of_seq.
    split; [lia|]. apply Hwide; lia. }
  eexists. split.
  { unfold cotacao_context. rewrite Hread. cbn [mbind result_bind].
    by apply cotacao_context_loop_spec. }
  split; [|repeat split; eauto using row_assignment_value, row_assignment_km,
             row_assignment_numero, row_assignment_revisao].
  intros field x. rewrite fold_assignments_get. split.
  - intros (i & r & [-> Hi]%lookup_seq & Ha & Hlast). cbn [Nat.add] in *.
    exists i. split; [lia|]. split; [lia|]. split; [done|].
    intros r' x' Hlt H20 Hsh. apply (Hlast r' r' x' Hlt).
    apply lookup_seq. lia.
  - intros (r & H20 & Hsh & Ha & Hlast).
    exists r, r. split; [apply lookup_seq; lia|]. split; [done|].
    intros i' r' x' Hlt [-> Hi']%lookup_seq. cbn [Nat.add]. apply Hlast; lia.
Qed.

Lemma quotation_context_scan_witness :
  (∃ context,
     @cotacao_context SampleHost.host SampleHost.wb_cotacao = Ok context
     ∧ dict_get context "cliente" = Some (Some (VStr "ACME"))
     ∧ dict_get context "km_rota" = Some (Some (VNum 420)))
  ∧ (∃ context,
       @cotacao_context SampleHost.host
         [(COTACAO_SHEET, SampleHost.cotacao_sheet_two_columns)] = Ok context
       ∧ dict_get context "cliente" = Some (Some (VStr "ACME"))).
Proof.
  split.
  - destruct (@quotation_context_scan SampleHost.host SampleHost.wb_cotacao
                SampleHost.cotacao_sheet)
      as (context & Hctx & Hget & _).
    + reflexivity.
    + repeat constructor.
    + intros r _ Hr. simpl in Hr.
      do 5 (destruct r as [|r]; [apply Nat.leb_le; vm_compute; reflexivity|]). lia.
    + exists context. split; [exact Hctx|]. split.
      * apply Hget. exists 3%nat. split; [lia|]. split; [simpl; lia|].
        split; [reflexivity|].
        intros r' x' Hlt _ Hsh. simpl in Hsh.
        assert (r' = 4%nat) as -> by lia. vm_compute. discriminate.
      * apply Hget. exists 4%nat. split; [lia|]. split; [simpl; lia|].
        split; [reflexivity|].
        intros r' x' Hlt _ Hsh. simpl in Hsh. lia.
  - destruct (@quotation_context_scan SampleHost.host
                [(COTACAO_SHEET, SampleHost.cotacao_sheet_two_columns)]
                SampleHost.cotacao_sheet_two_columns)
      as (context & Hctx & Hget & _).
    + reflexivity.
    + repeat constructor.
    + intros r _ Hr. simpl in Hr.
      do 2 (destruct r as [|r]; [apply Nat.leb_le; vm_compute; reflexivity|]). lia.
    + exists context. split; [exact Hctx|].
      apply Hget. exists 0%nat. split; [lia|]. split; [simpl; lia|].
      split; [reflexivity|].
      intros r' x' Hlt _ Hsh. simpl in Hsh.
      assert (r' = 1%nat) as -> by lia. vm_compute. discriminate.
Defined.

(** What the amended statement leaves out: on a sheet too narrow for
    the quotation number or for the revision, the row that carries the
    label makes the scan raise [IndexError] (lines 30 and 33 read
    columns 2 and 3 without the test that line 26 has for column 1). *)
Lemma narrow_quotation_sheet_raises :
  @cotacao_context SampleHost.host SampleHost.wb_numero_narrow = Raise IndexError
  ∧ @cotacao_context SampleHost.host SampleHost.wb_revisao_narrow = Raise IndexError.
Proof. split; vm_compute; reflexivity. Qed.

(** C9 (as stated) fails: a client label in row 20 of the sheet is not
    found. *)
Lemma label_below_row_20_ignored :
  find_sheet SampleHost.wb_late_label COTACAO_SHEET
    = Some (replicate 20 (SampleHost.cells 4 [])
            ++ [[Some (VStr "Cliente:"); Some (VStr "ACME"); None; None]])%list
  ∧ @cotacao_context SampleHost.host SampleHost.wb_late_label = Ok []
  ∧ @cotacao_context SampleHost.host
      [(COTACAO_SHEET,
        (replicate 19 (SampleHost.cells 4 [])
         ++ [[Some (VStr "Cliente:"); Some (VStr "ACME"); None; None]])%list)]
    = Ok [("cliente", Some (VStr "ACME"))].
Proof. repeat split; vm_compute; reflexivity. Qed.

(** * Further properties of the code *)

(** ** Slugs as column names *)

Section SlugNames.

Lemma string_forall_app p s t :
  string_forall p (s ++ t) = string_forall p s && string_forall p t.
Proof.
  induction s as [|c s IH]; [reflexivity|].
  rewrite append_cons. simpl. by rewrite IH, andb_assoc.
Qed.

Lemma string_forall_concat_map p f s :
  (∀ c, string_forall p (f c) = true) → string_forall p (concat_map f s) = true.
Proof.
  intros Hf. induction s as [|c s IH]; [reflexivity|].
  simpl. by rewrite string_forall_app, Hf, IH.
Qed.

Lemma string_forall_take p n s :
  string_forall p s = true → string_forall p (PyStr.take n s) = true.
Proof.
  revert s. induction n as [|n IH]; intros [|c s]; simpl; try done.
  intros [Hc Hs]%andb_true_iff. by rewrite Hc, IH.
Qed.

Lemma take_all n s : (String.length s ≤ n)%nat → PyStr.take n s = s.
Proof.
  revert s. induction n as [|n IH]; intros [|c s]; simpl; try done; [lia|].
  intros Hlen. rewrite IH; [done|lia].
Qed.

Lemma slug_char_lower_clean c :
  string_forall slug_clean (slug_char (PyStr.lower_char c)) = true.
Proof. destruct c as [[] [] [] [] [] [] [] []]; vm_compute; reflexivity. Qed.

Lemma slug_char_of_clean c :
  slug_clean c = true → slug_char (PyStr.lower_char c) = String c "".
Proof.
  destruct c as [[] [] [] [] [] [] [] []]; vm_compute; intros E;
    reflexivity || discriminate E.
Qed.

Lemma slug_chars_of_clean s :
  string_forall slug_clean s = true →
  concat_map slug_char (PyStr.lower s) = s.
Proof.
  induction s as [|c s IH]; [reflexivity|]. simpl.
  intros [Hc Hs]%andb_true_iff.
  by rewrite (slug_char_of_clean c Hc), append_cons, IH.
Qed.

Lemma slug_unfold (label : string) :
  _slug label = PyStr.take 50 (concat_map slug_char (PyStr.lower label)).
Proof. unfold _slug. by rewrite slug_chain. Qed.

Lemma slugged_clean (s : string) :
  string_forall slug_clean (concat_map slug_char (PyStr.lower s)) = true.
Proof.
  induction s as [|c s IH]; [reflexivity|].
  simpl. by rewrite string_forall_app, slug_char_lower_clean, IH.
Qed.

End SlugNames.

(** X1: a slug holds no space, none of the characters % / ( ) - : . and
    no letter that [str.lower] would change: the column names built
    from it are plain lowercase names. *)
Theorem slug_has_clean_characters (label : string) :
  string_forall slug_clean (_slug label) = true.
Proof.
  rewrite slug_unfold. apply string_forall_take, slugged_clean.
Qed.

(** X2: slugifying a slug changes nothing: [_slug] is idempotent. *)
Theorem slug_idempotent (label : string) :
  _slug (_slug label) = _slug label.
Proof.
  rewrite (slug_unfold (_slug label)).
  rewrite slug_chars_of_clean.
  - apply take_all. rewrite slug_unfold. apply take_length.
  - rewrite slug_unfold. apply string_forall_take, slugged_clean.
Qed.

(** ** The per-vehicle sheets of the computed-freight workbook *)

Section PrimaryLayout.
Context `{Host}.

Lemma for_each_inv {A B} (body : A → result (list B)) (xs : list A) (out : list B) :
  for_each body xs = Ok out →
  ∀ d, d ∈ out ↔ ∃ x ys, x ∈ xs ∧ body x = Ok ys ∧ d ∈ ys.
Proof.
  revert out. induction xs as [|x xs IH]; intros out; simpl.
  - intros [= <-] d. split; [by intros ?%elem_of_nil|].
    by intros (? & ? & ?%elem_of_nil & _).
  - destruct (body x) as [ys|] eqn:Hys; [|done]. simpl.
    destruct (for_each body xs) as [zs|] eqn:Hzs; [|done]. simpl.
    intros [= <-] d. rewrite elem_of_app, (IH zs eq_refl). split.
    + intros [Hd|(x' & ys' & Hx' & Hb & Hd)].
      * exists x, ys. split; [by left|done].
      * exists x', ys'. split; [by right|done].
    + intros (x' & ys' & [->|Hx']%elem_of_cons & Hb & Hd).
      * left. congruence.
      * right. eauto.
Qed.

Lemma band_floats_caught_all (x1 x2 x3 : cell) :
  try_except (Some <$> band_floats (Ok x1) (Ok x2) (Ok x3))
             [TypeError; ValueError; IndexError] (Ok None)
  = Ok (match band_floats (Ok x1) (Ok x2) (Ok x3) with
        | Ok band => Some band
        | Raise _ => None
        end).
Proof.
  destruct (band_floats (Ok x1) (Ok x2) (Ok x3)) as [band|e] eqn:E; [done|].
  assert (e ∈ [TypeError; ValueError]) as He.
  { revert E. unfold band_floats. cbn [mbind result_bind].
    destruct (py_float x1) as [f1|e1] eqn:E1; cbn [mbind result_bind];
      [|intros [= <-]; by eapply py_float_raises].
    destruct (py_float x2) as [f2|e2] eqn:E2; cbn [mbind result_bind];
      [|intros [= <-]; by eapply py_float_raises].
    destruct (py_float x3) as [f3|e3] eqn:E3; cbn [mbind result_bind];
      [done|intros [= <-]; by eapply py_float_raises]. }
  cbn [fmap result_fmap try_except]. rewrite bool_decide_true; [done|].
  apply elem_of_cons in He as [->|He]; [by left|].
  apply list_elem_of_singleton in He as ->. by right; left.
Qed.


Lemma calculo_row_returns (vehicle : string) (row : list cell) :
  (21 ≤ length row)%nat → ∃ ys, calculo_row vehicle row = Ok ys.
Proof.
  intros Hlen. unfold calculo_row.
  assert (∀ c, (c < 21)%nat → ∃ x, row_iloc row c = Ok x) as Hcell.
  { intros c Hc. unfold row_iloc.
    destruct (lookup_lt_is_Some_2 row c) as [x ->]; [lia|]. eauto. }
  destruct (Hcell 9%nat) as [x9 ->]; [lia|].
  destruct (Hcell 10%nat) as [x10 ->]; [lia|].
  destruct (Hcell 11%nat) as [x11 ->]; [lia|].
  rewrite band_floats_caught_all. cbn [mbind result_bind].
  destruct (band_floats _ _ _) as [[[km_i km_f] km_t]|]; [|eauto].
  destruct (isna (cell_of_float km_i) || isna (cell_of_float km_f)); [eauto|].
  destruct (Hcell 6%nat) as [? ->]; [lia|]. destruct (Hcell 4%nat) as [? ->]; [lia|].
  destruct (Hcell 5%nat) as [? ->]; [lia|]. destruct (Hcell 18%nat) as [? ->]; [lia|].
  destruct (Hcell 19%nat) as [? ->]; [lia|]. destruct (Hcell 20%nat) as [? ->]; [lia|].
  cbn [mbind result_bind]. eauto.
Qed.

Lemma find_sheet_listed (xl : Workbook) (sheet : string) :
  sheet ∈ sheet_names xl → ∃ df, find_sheet xl sheet = Some df.
Proof.
  induction xl as [|[n g] xl IH]; [by intros ?%elem_of_nil|].
  unfold sheet_names. rewrite fmap_cons. simpl.
  intros [->|Hin]%elem_of_cons.
  - rewrite bool_decide_true by done. eauto.
  - case_bool_decide; [eauto|]. by apply IH.
Qed.

End PrimaryLayout.



(** X4: the per-vehicle sheets are read without an exception as soon as
    every sheet that [SHEET_TO_VEHICLE] names is too small to be read
    (fewer than 2 rows or 12 columns) or has 21 cells in every row;
    sheets of other names do not matter. *)
Theorem calculo_primary_returns `{Host} (xl : Workbook) :
  (∀ sheet df,
     find_sheet xl sheet = Some df → is_Some (assoc SHEET_TO_VEHICLE sheet) →
     (shape0 df < 2)%nat ∨ (shape1 df < 12)%nat
     ∨ Forall (λ row, (21 ≤ length row)%nat) df) →
  ∃ out, calculo_primary xl = Ok out.
Proof.
  intros Hwide.
  destruct (for_each_Ok (calculo_sheet xl) (sheet_names xl)) as (out & Hout & _);
    [|by exists out].
  intros sheet Hsheet. unfold calculo_sheet.
  destruct (assoc SHEET_TO_VEHICLE sheet) as [vehicle|] eqn:Hv; [|eauto].
  destruct (find_sheet_listed xl sheet Hsheet) as [df Hdf].
  unfold read_excel. rewrite Hdf. cbn [mbind result_bind].
  destruct (Hwide sheet df Hdf) as [Hs|[Hs|Hrows]]; [by rewrite Hv| | |].
  - rewrite (proj2 (Nat.ltb_lt _ _) Hs). eauto.
  - rewrite (proj2 (Nat.ltb_lt _ _) Hs), orb_true_r. eauto.
  - destruct ((shape0 df <? 2)%nat || (shape1 df <? 12)%nat); [eauto|].
    destruct (for_each_Ok (calculo_row vehicle) (drop 1 df)) as (ys & Hys & _);
      [|eauto].
    intros row Hrow. apply calculo_row_returns.
    apply (proj1 (Forall_forall _ _) Hrows).
    by apply (subseteq_drop 1 df).
Qed.

Lemma calculo_primary_returns_witness :
  ∃ out, @calculo_primary SampleHost.host SampleHost.wb_two_fiorino = Ok out.
Proof.
  apply calculo_primary_returns.
  intros sheet df Hdf _. right. right.
  unfold SampleHost.wb_two_fiorino in Hdf. simpl in Hdf.
  repeat case_bool_decide; simplify_eq; repeat constructor; simpl; lia.
Defined.

(** ** The outer join *)

Section OuterJoin.

Lemma substring_whole (s : string) : String.substring 0 (String.length s) s = s.
Proof. induction s as [|c s IH]; simpl; [done|]. by rewrite IH. Qed.

Lemma substring_after (s t : string) :
  String.substring (String.length s) (String.length t) (s ++ t) = t.
Proof.
  induction s as [|c s IH]; [apply substring_whole|].
  rewrite append_cons. simpl. exact IH.
Qed.

Lemma length_append (s t : string) :
  String.length (s ++ t) = (String.length s + String.length t)%nat.
Proof.
  induction s as [|c s IH]; [reflexivity|].
  rewrite append_cons. simpl. by rewrite IH.
Qed.

Lemma endswith_append (s suf : string) : PyStr.endswith suf (s ++ suf) = true.
Proof.
  unfold PyStr.endswith. rewrite length_append.
  rewrite (proj2 (Nat.leb_le _ _)) by lia.
  replace (String.length s + String.length suf - String.length suf)%nat
    with (String.length s) by lia.
  rewrite substring_after. simpl. apply String.eqb_refl.
Qed.

Lemma key_cols_not_dup (c : string) : c ∈ key_cols → PyStr.endswith "_dup" c = false.
Proof.
  unfold key_cols. rewrite !elem_of_cons.
  intros [->|[->|[->|?%elem_of_nil]]]; done.
Qed.

(** A cell that a right row brings stands under the joined name of a
    column of [right] that is no key. *)
Lemma right_part_Some (left right : DataFrame) (r : Row) (c : string) (x : value) :
  right_part left right r !! c = Some x →
  ∃ c', c' ∈ columns right ∧ (c' ∉ key_cols) ∧ suffixed left c' = c.
Proof.
  unfold right_part. intros Hx%elem_of_list_to_map_2.
  apply list_elem_of_omap in Hx as (c' & Hc' & Hcx).
  apply list_elem_of_filter in Hc' as [Hkey Hc'].
  exists c'. split; [done|]. split; [done|].
  destruct (r !! c'); by simplify_eq/=.
Qed.

Lemma right_part_key (left right : DataFrame) (r : Row) (c : string) :
  c ∈ key_cols → right_part left right r !! c = None.
Proof.
  intros Hc. destruct (right_part left right r !! c) as [x|] eqn:Hx; [|done].
  apply right_part_Some in Hx as (c' & _ & Hkey & Hsuf).
  unfold suffixed in Hsuf. case_bool_decide; subst c; [|done].
  apply key_cols_not_dup in Hc. by rewrite endswith_append in Hc.
Qed.

Lemma right_part_left_column (left right : DataFrame) (r : Row) (c : string) :
  c ∈ columns left → PyStr.endswith "_dup" c = false →
  right_part left right r !! c = None.
Proof.
  intros Hc Hdup. destruct (right_part left right r !! c) as [x|] eqn:Hx; [|done].
  apply right_part_Some in Hx as (c' & _ & _ & Hsuf).
  unfold suffixed in Hsuf. case_bool_decide; subst c; [|done].
  by rewrite endswith_append in Hdup.
Qed.

Lemma key_part_lookup (r : Row) (c : string) :
  key_part r !! c = if bool_decide (c ∈ key_cols) then r !! c else None.
Proof.
  unfold key_part. case_bool_decide as Hc.
  - destruct (r !! c) as [x|] eqn:Hx.
    + by apply map_lookup_filter_Some.
    + apply map_lookup_filter_None. left. done.
  - apply map_lookup_filter_None. right. intros x _. done.
Qed.

Lemma row_key_joined (left right : DataFrame) (l r : Row) :
  row_key key_cols (l ∪ right_part left right r) = row_key key_cols l.
Proof.
  unfold row_key. apply list_fmap_ext. intros i c Hc%list_elem_of_lookup_2.
  by apply lookup_union_l, right_part_key.
Qed.

Lemma row_key_right_only (left right : DataFrame) (r : Row) :
  row_key key_cols (key_part r ∪ right_part left right r) = row_key key_cols r.
Proof.
  unfold row_key. apply list_fmap_ext. intros i c Hc%list_elem_of_lookup_2.
  rewrite lookup_union_l by by apply right_part_key.
  rewrite key_part_lookup. by rewrite bool_decide_true.
Qed.

(** The frame that [merge_outer] returns. *)
Lemma merge_outer_Ok (left right merged : DataFrame) :
  merge_outer left right = Ok merged →
  columns merged = (columns left
                    ++ (suffixed left <$> filter (λ c, c ∉ key_cols) (columns right)))%list
  ∧ rows merged =
      (flat_map (λ l,
         match filter (λ r, row_key key_cols r = row_key key_cols l) (rows right) with
         | [] => [l]
         | ms => (λ r, l ∪ right_part left right r) <$> ms
         end) (rows left)
       ++ ((λ r, key_part r ∪ right_part left right r)
             <$> filter (λ r, Forall (λ l, row_key key_cols l ≠ row_key key_cols r)
                                     (rows left)) (rows right)))%list.
Proof.
  unfold merge_outer.
  destruct (has_columns key_cols left && has_columns key_cols right); [|done].
  by intros [= <-].
Qed.

(** The outer join loses no key and invents none. *)
Lemma merge_outer_keys (left right merged : DataFrame) :
  merge_outer left right = Ok merged →
  ∀ k, k ∈ frame_keys merged ↔ k ∈ frame_keys left ∨ k ∈ frame_keys right.
Proof.
  intros [_ Hrows]%merge_outer_Ok k. unfold frame_keys. rewrite Hrows.
  rewrite fmap_app, elem_of_app, !list_elem_of_fmap. split.
  - intros [(m & -> & Hm)|(m & -> & Hm)].
    + apply list_elem_of_In, in_flat_map in Hm as (l & Hl%list_elem_of_In & Hm).
      apply list_elem_of_In in Hm. cbv beta in Hm.
      left. exists l. split; [|done].
      destruct (filter (λ r, row_key key_cols r = row_key key_cols l) (rows right))
        as [|r0 ms] eqn:Hms.
      * apply list_elem_of_singleton in Hm. by subst.
      * apply list_elem_of_fmap in Hm as (r & -> & _).
        apply row_key_joined.
    + apply list_elem_of_fmap in Hm as (r & -> & Hr).
      apply list_elem_of_filter in Hr as [_ Hr].
      right. exists r. split; [apply row_key_right_only|done].
  - assert (∀ l, l ∈ rows left →
              ∃ m, row_key key_cols l = row_key key_cols m
                   ∧ m ∈ flat_map (λ l,
                       match filter (λ r, row_key key_cols r = row_key key_cols l)
                                    (rows right) with
                       | [] => [l]
                       | ms => (λ r, l ∪ right_part left right r) <$> ms
                       end) (rows left)) as Hleft.
    { intros l Hl.
      destruct (filter (λ r, row_key key_cols r = row_key key_cols l) (rows right))
        as [|r0 ms] eqn:Hms.
      - exists l. split; [done|].
        apply list_elem_of_In, in_flat_map. exists l.
        split; [by apply list_elem_of_In|]. rewrite Hms. by left.
      - exists (l ∪ right_part left right r0). split; [by rewrite row_key_joined|].
        apply list_elem_of_In, in_flat_map. exists l.
        split; [by apply list_elem_of_In|]. rewrite Hms.
        apply list_elem_of_In. rewrite fmap_cons. by left. }
    intros [(l & -> & Hl)|(r & -> & Hr)].
    + left. by apply Hleft.
    + destruct (decide (Forall (λ l, row_key key_cols l ≠ row_key key_cols r)
                               (rows left))) as [Hall|Hex].
      * right. exists (key_part r ∪ right_part left right r).
        split; [by rewrite row_key_right_only|].
        apply list_elem_of_fmap. exists r. split; [done|].
        by apply list_elem_of_filter.
      * apply not_Forall_Exists in Hex; [|intros; apply _].
        apply Exists_exists in Hex as (l & Hl & Heq).
        unfold compose in Heq. apply dec_stable in Heq.
        left. rewrite <- Heq. by apply Hleft.
Qed.

Lemma row_key_dropped (subset cs : list string) (r : Row) :
  (∀ c, c ∈ subset → c ∉ cs) →
  row_key subset (filter (λ kv : string * value, kv.1 ∉ cs) r) = row_key subset r.
Proof.
  intros Hcs. unfold row_key.
  apply list_fmap_ext. intros j c Hc%list_elem_of_lookup_2.
  destruct (r !! c) as [x|] eqn:Hx.
  - apply map_lookup_filter_Some. split; [done|]. by apply Hcs.
  - apply map_lookup_filter_None. by left.
Qed.

Lemma drop_columns_keys (cs : list string) (df : DataFrame) :
  (∀ c, c ∈ key_cols → c ∉ cs) →
  frame_keys (drop_columns cs df) = frame_keys df.
Proof.
  intros Hcs. unfold frame_keys, drop_columns. cbn [rows].
  rewrite <- list_fmap_compose. apply list_fmap_ext. intros i r _.
  exact (row_key_dropped key_cols cs r Hcs).
Qed.

Lemma dup_cols_no_key (cols : list string) (c : string) :
  c ∈ key_cols → c ∉ filter (λ c, PyStr.endswith "_dup" c = true) cols.
Proof.
  intros Hc [Hdup _]%list_elem_of_filter.
  apply key_cols_not_dup in Hc. congruence.
Qed.

Lemma merge_loop_keys (main : DataFrame) (dfs : list DataFrame) (joined : DataFrame) :
  merge_loop main dfs = Ok joined →
  ∀ k, k ∈ frame_keys joined ↔
       k ∈ frame_keys main ∨ ∃ df, df ∈ dfs ∧ k ∈ frame_keys df.
Proof.
  revert main. induction dfs as [|df dfs IH]; intros main; simpl.
  - intros [= <-] k. split; [by left|].
    intros [?|(? & ?%elem_of_nil & _)]; done.
  - destruct (merge_outer main df) as [merged|] eqn:Hm; [|done]. simpl.
    intros Hloop k. rewrite (IH _ Hloop k).
    rewrite drop_columns_keys by (intros; by apply dup_cols_no_key).
    rewrite (merge_outer_keys _ _ _ Hm k). split.
    + intros [[?|?]|(df' & Hdf' & ?)]; [by left| |].
      * right. exists df. split; [by left|done].
      * right. exists df'. split; [by right|done].
    + intros [?|(df' & [->|Hdf']%elem_of_cons & ?)].
      * left. by left.
      * left. by right.
      * right. by exists df'.
Qed.

Lemma fill_row_key (r r' : Row) :
  fill_row r = Ok r' → row_key key_cols r' = row_key key_cols r.
Proof.
  unfold fill_row.
  destruct (r !! "km_total"); [by intros [= <-]|].
  destruct (r !! "km_inicial") as [i|]; [|by intros [= <-]].
  destruct (r !! "km_final") as [f|]; [|by intros [= <-]].
  destruct (km_span f i) as [v|]; [|done]. cbn [mbind result_bind]. intros [= <-].
  apply row_key_insert. unfold key_cols. by apply (bool_decide_unpack _).
Qed.

Lemma fill_rows_keys (rs rs' : list Row) :
  fill_rows rs = Ok rs' →
  row_key key_cols <$> rs' = row_key key_cols <$> rs.
Proof.
  revert rs'. induction rs as [|r rs IH]; intros rs'; simpl.
  - by intros [= <-].
  - destruct (fill_row r) as [r'|] eqn:Hr; [|done]. cbn [mbind result_bind].
    destruct (fill_rows rs) as [rs''|]; [|done]. cbn [mbind result_bind].
    intros [= <-].
    rewrite !fmap_cons. f_equal; [by apply fill_row_key|by apply IH].
Qed.

Lemma fill_km_total_keys (df filled : DataFrame) :
  fill_km_total df = Ok filled → frame_keys filled = frame_keys df.
Proof.
  unfold fill_km_total, frame_keys.
  case_bool_decide; [|by intros [= <-]].
  destruct (has_columns _ df); [|done].
  destruct (fill_rows (rows df)) as [rs|] eqn:Hrs; [|done]. cbn [mbind result_bind].
  intros [= <-]. cbn [rows]. by apply fill_rows_keys.
Qed.

Lemma keep_first_keys subset seen rs k :
  k ∈ row_key subset <$> keep_first subset seen rs
  ↔ k ∈ row_key subset <$> rs ∧ k ∉ seen.
Proof.
  revert seen. induction rs as [|r rs IH]; intros seen; cbn [keep_first].
  - split; [by intros ?%elem_of_nil|]. by intros [?%elem_of_nil _].
  - case_bool_decide as Hseen.
    + rewrite IH, fmap_cons, elem_of_cons. split; [tauto|].
      intros [[->|?] ?]; [done|tauto].
    + rewrite !fmap_cons, !elem_of_cons, IH, not_elem_of_cons. split.
      * intros [->|(? & ? & ?)]; [tauto|tauto].
      * intros [[->|?] ?]; [by left|].
        destruct (decide (k = row_key subset r)); [by left|right; tauto].
Qed.

End OuterJoin.

(** X5: the keys of the FactTable are exactly the keys of the frames
    that went into the join: no (vehicle_type, km_inicial, km_final) of
    any source is lost by the outer joins, the backfill or the
    deduplication, and none is invented. *)
Theorem fact_table_keys (s : Sources) (main : DataFrame) (ctx : PyDict)
    (main_dfs : list DataFrame) (context_dfs : list PyDict) :
  merge_all s = Ok (main, ctx) →
  collect_sources s = Ok (main_dfs, context_dfs) →
  ∀ k, k ∈ frame_keys main ↔ ∃ df, df ∈ main_dfs ∧ k ∈ frame_keys df.
Proof.
  intros (dfs & cdfs & Hcol & Hcase)%merge_all_Ok Hcol' k.
  rewrite Hcol in Hcol'. injection Hcol' as <- <-.
  destruct Hcase as [(-> & -> & ->)|(first & others & joined & -> & Hj & Hdd & _)].
  - split; [by intros ?%elem_of_nil|]. by intros (? & ?%elem_of_nil & _).
  - apply drop_duplicates_Ok in Hdd as [_ Hrows].
    unfold join_and_fill in Hj.
    destruct (merge_loop first others) as [merged|] eqn:Hloop; [|done].
    cbn [mbind result_bind] in Hj.
    unfold frame_keys at 1. rewrite Hrows, keep_first_keys.
    fold (frame_keys joined). rewrite (fill_km_total_keys _ _ Hj).
    rewrite (merge_loop_keys _ _ _ Hloop k). split.
    + intros [[?|(df & ? & ?)] _].
      * exists first. split; [by left|done].
      * exists df. split; [by right|done].
    + intros (df & [->|?]%elem_of_cons & ?); (split; [|apply not_elem_of_nil]).
      * by left.
      * right. by exists df.
Qed.

Lemma fact_table_keys_witness :
  ∃ main ctx,
    merge_all (only Calculo SampleHost.two_fiorino_frame []) = Ok (main, ctx)
    ∧ ∀ k, k ∈ frame_keys main ↔ k ∈ frame_keys SampleHost.two_fiorino_frame.
Proof.
  destruct (merge_all (only Calculo SampleHost.two_fiorino_frame []))
    as [[main ctx]|e] eqn:E; [|vm_compute in E; discriminate].
  exists main, ctx. split; [reflexivity|]. intros k.
  rewrite (fact_table_keys _ _ _
             [set_column "_source_cf" (VBool true) SampleHost.two_fiorino_frame] []
             E eq_refl).
  split.
  - intros (df & ->%list_elem_of_singleton & Hk). exact Hk.
  - intros Hk. eexists. split; [by apply list_elem_of_singleton|exact Hk].
Defined.

Section JoinStep.

Lemma lookup_dropped (cs : list string) (r : Row) (c : string) :
  c ∉ cs → filter (λ kv : string * value, kv.1 ∉ cs) r !! c = r !! c.
Proof.
  intros Hc. destruct (r !! c) as [x|] eqn:Hx.
  - by apply map_lookup_filter_Some.
  - apply map_lookup_filter_None. by left.
Qed.

Lemma not_dup_col (cols : list string) (c : string) :
  PyStr.endswith "_dup" c = false →
  c ∉ filter (λ c, PyStr.endswith "_dup" c = true) cols.
Proof. intros Hc [Hdup _]%list_elem_of_filter. congruence. Qed.

(** One step of the loop over [main_dfs[1:]]. *)
Lemma merge_loop_step (main df joined : DataFrame) :
  merge_loop main [df] = Ok joined →
  ∃ merged,
    merge_outer main df = Ok merged
    ∧ joined = drop_columns
                 (filter (λ c, PyStr.endswith "_dup" c = true) (columns merged)) merged.
Proof.
  simpl. destruct (merge_outer main df) as [merged|]; [|done].
  cbn [mbind result_bind]. intros [= <-]. by exists merged.
Qed.

Lemma fill_row_complete (r r' : Row) :
  fill_row r = Ok r' →
  (r' !! "km_total" = None → r' !! "km_inicial" = None ∨ r' !! "km_final" = None)
  ∧ (∀ c, c ≠ "km_total" → r' !! c = r !! c)
  ∧ (is_Some (r !! "km_total") → r' = r).
Proof.
  unfold fill_row.
  destruct (r !! "km_total") as [t|] eqn:Ht.
  { intros [= <-]. rewrite Ht. by repeat split. }
  destruct (r !! "km_inicial") as [i|] eqn:Hi.
  2:{ intros [= <-]. split; [by left|]. split; [done|]. by intros []. }
  destruct (r !! "km_final") as [f|] eqn:Hf.
  2:{ intros [= <-]. split; [by right|]. split; [done|]. by intros []. }
  destruct (km_span f i) as [v|]; [|done]. cbn [mbind result_bind].
  intros [= <-]. split; [by rewrite lookup_insert_eq|].
  split; [|by intros []].
  intros c Hc. by rewrite lookup_insert_ne.
Qed.

Lemma fill_rows_complete (rs rs' : list Row) :
  fill_rows rs = Ok rs' →
  Forall2 (λ r r' : Row,
             (r' !! "km_total" = None →
              r' !! "km_inicial" = None ∨ r' !! "km_final" = None)
             ∧ (∀ c, c ≠ "km_total" → r' !! c = r !! c)
             ∧ (is_Some (r !! "km_total") → r' = r)) rs rs'.
Proof.
  revert rs'. induction rs as [|r rs IH]; intros rs'; simpl.
  - intros [= <-]. constructor.
  - destruct (fill_row r) as [r'|] eqn:Hr; [|done]. cbn [mbind result_bind].
    destruct (fill_rows rs) as [rs''|]; [|done]. cbn [mbind result_bind].
    intros [= <-]. constructor; [by apply fill_row_complete|by apply IH].
Qed.

Lemma flatten_loop_error (context : PyDict) (cols : list string) (flat : PyDict) (e : exn) :
  flatten_loop context cols flat = Raise e → e = ValueError.
Proof.
  revert flat. induction cols as [|c cols IH]; intros flat; simpl; [done|].
  destruct (cells_named c flat) as [|x [|y rest]]; [by apply IH| |by intros [= <-]].
  destruct (isna x); [|by apply IH].
  destruct (filter _ (cells_named c context)); by apply IH.
Qed.

End JoinStep.

(** X6: in a join step the earlier frame wins.  Every row of the
    earlier frame is found in the joined frame with all its cells, the
    missing ones too, under the columns of the earlier frame (those
    whose name does not end in "_dup"); and a row whose key only the
    later frame has comes out with every such column missing that is no
    key, also a column that the later frame has under the same name. *)
Theorem earlier_frame_wins (main df joined : DataFrame) :
  merge_loop main [df] = Ok joined →
  (∀ l, l ∈ rows main →
     ∃ m, m ∈ rows joined
          ∧ ∀ c, c ∈ columns main → PyStr.endswith "_dup" c = false →
                 m !! c = l !! c)
  ∧ (∀ m, m ∈ rows joined →
       (∃ l, l ∈ rows main
             ∧ ∀ c, c ∈ columns main → PyStr.endswith "_dup" c = false →
                    m !! c = l !! c)
       ∨ (∃ r, r ∈ rows df
               ∧ row_key key_cols m = row_key key_cols r
               ∧ (row_key key_cols r ∉ frame_keys main)
               ∧ ∀ c, c ∈ columns main → c ∉ key_cols →
                      PyStr.endswith "_dup" c = false → m !! c = None)).
Proof.
  intros (merged & Hm & ->)%merge_loop_step.
  pose proof (merge_outer_keys _ _ _ Hm) as Hkeys.
  apply merge_outer_Ok in Hm as [Hcols Hrows].
  set (dups := filter (λ c, PyStr.endswith "_dup" c = true) (columns merged)).
  assert (∀ (l r : Row) c, c ∈ columns main → PyStr.endswith "_dup" c = false →
            filter (λ kv : string * value, kv.1 ∉ dups) (l ∪ right_part main df r) !! c
            = l !! c) as Hjoined.
  { intros l r c Hc Hdup. rewrite lookup_dropped by by apply not_dup_col.
    by apply lookup_union_l, right_part_left_column. }
  assert (∀ (l : Row) c, PyStr.endswith "_dup" c = false →
            filter (λ kv : string * value, kv.1 ∉ dups) l !! c = l !! c) as Hkept.
  { intros l c Hdup. by apply lookup_dropped, not_dup_col. }
  cbn [drop_columns rows]. rewrite Hrows, fmap_app. split.
  - intros l Hl.
    destruct (filter (λ r, row_key key_cols r = row_key key_cols l) (rows df))
      as [|r0 ms] eqn:Hms.
    + exists (filter (λ kv : string * value, kv.1 ∉ dups) l). split.
      * apply elem_of_app. left. apply list_elem_of_fmap. exists l. split; [done|].
        apply list_elem_of_In, in_flat_map. exists l.
        split; [by apply list_elem_of_In|]. rewrite Hms. by left.
      * intros c _ Hdup. by apply Hkept.
    + exists (filter (λ kv : string * value, kv.1 ∉ dups) (l ∪ right_part main df r0)).
      split.
      * apply elem_of_app. left. apply list_elem_of_fmap. eexists. split; [done|].
        apply list_elem_of_In, in_flat_map. exists l.
        split; [by apply list_elem_of_In|]. rewrite Hms.
        apply list_elem_of_In. rewrite fmap_cons. by left.
      * intros c Hc Hdup. by apply Hjoined.
  - intros m [Hm|Hm]%elem_of_app.
    + left. apply list_elem_of_fmap in Hm as (m0 & -> & Hm0).
      apply list_elem_of_In, in_flat_map in Hm0 as (l & Hl%list_elem_of_In & Hm0).
      apply list_elem_of_In in Hm0. cbv beta in Hm0.
      exists l. split; [done|]. intros c Hc Hdup.
      destruct (filter (λ r, row_key key_cols r = row_key key_cols l) (rows df))
        as [|r0 ms] eqn:Hms.
      * apply list_elem_of_singleton in Hm0 as ->. by apply Hkept.
      * apply list_elem_of_fmap in Hm0 as (r & -> & _). by apply Hjoined.
    + right. apply list_elem_of_fmap in Hm as (m0 & -> & Hm0).
      apply list_elem_of_fmap in Hm0 as (r & -> & Hr).
      apply list_elem_of_filter in Hr as [Hall Hr].
      exists r. split; [done|]. split.
      { rewrite row_key_dropped by (intros; by apply dup_cols_no_key).
        apply row_key_right_only. }
      split.
      { unfold frame_keys. intros (l & Heq & Hl)%list_elem_of_fmap.
        by apply (proj1 (Forall_forall _ _) Hall l Hl). }
      intros c Hc Hkey Hdup. rewrite Hkept by done.
      rewrite lookup_union_l by by apply right_part_left_column.
      rewrite key_part_lookup. by rewrite bool_decide_false.
Qed.

Lemma earlier_frame_wins_witness :
  ∃ joined,
    merge_loop SampleHost.earlier_frame [SampleHost.later_frame] = Ok joined
    ∧ ∀ l, l ∈ rows SampleHost.earlier_frame →
        ∃ m, m ∈ rows joined ∧ m !! "km_total" = l !! "km_total"
             ∧ m !! "source" = l !! "source".
Proof.
  destruct (merge_loop SampleHost.earlier_frame [SampleHost.later_frame])
    as [joined|e] eqn:E; [|vm_compute in E; discriminate].
  exists joined. split; [reflexivity|]. intros l Hl.
  destruct (proj1 (earlier_frame_wins _ _ _ E) l Hl) as (m & Hm & Hsame).
  exists m. split; [exact Hm|].
  split; apply Hsame; (by apply (bool_decide_unpack _)) || reflexivity.
Defined.

(** X7: once a frame has been joined to another, no column of the
    result has a name that ends in "_dup": the columns of the later
    frame that clash are gone, and so is any column of any source that
    happened to bear such a name. *)
Theorem joined_frame_has_no_dup_column (main df : DataFrame) (dfs : list DataFrame)
    (joined : DataFrame) :
  merge_loop main (df :: dfs) = Ok joined →
  ∀ c, c ∈ columns joined → PyStr.endswith "_dup" c = false.
Proof.
  revert main df. induction dfs as [|df' dfs IH]; intros main df.
  - intros (merged & _ & ->)%merge_loop_step c.
    cbn [drop_columns columns]. intros [Hnot Hin]%list_elem_of_filter.
    destruct (PyStr.endswith "_dup" c) eqn:Hdup; [|done].
    exfalso. apply Hnot. by apply list_elem_of_filter.
  - cbn [merge_loop]. destruct (merge_outer main df) as [merged|]; [|done].
    cbn [mbind result_bind]. apply IH.
Qed.

Lemma joined_frame_has_no_dup_column_witness :
  ∃ joined,
    merge_loop SampleHost.earlier_frame [SampleHost.later_frame] = Ok joined
    ∧ ∀ c, c ∈ columns joined → PyStr.endswith "_dup" c = false.
Proof.
  destruct (merge_loop SampleHost.earlier_frame [SampleHost.later_frame])
    as [joined|e] eqn:E; [|vm_compute in E; discriminate].
  exists joined. split; [reflexivity|].
  exact (joined_frame_has_no_dup_column _ _ _ _ E).
Defined.



(** X9: the context records are combined exactly when their field names
    are pairwise distinct, and then to the records put side by side;
    with a field name that occurs twice the combination raises
    ValueError. *)
Theorem context_combination_outcome (context_dfs : list PyDict) :
  (NoDup (concat context_dfs).*1 →
   flatten_context context_dfs = Ok (concat context_dfs))
  ∧ (¬ NoDup (concat context_dfs).*1 →
     flatten_context context_dfs = Raise ValueError).
Proof.
  split; [apply flatten_context_distinct|].
  intros Hdup.
  destruct (flatten_context context_dfs) as [flat|e] eqn:Hfl.
  - by apply flatten_context_Ok in Hfl as [? _].
  - f_equal. destruct context_dfs as [|d ds]; [done|].
    by eapply flatten_loop_error.
Qed.

Lemma context_combination_outcome_witness :
  flatten_context [SampleHost.context_A; SampleHost.context_B] = Raise ValueError
  ∧ flatten_context [[("dias_uteis", Some (VNum 24))]; SampleHost.context_B]
    = Ok [("dias_uteis", Some (VNum 24));
          ("cliente", Some (VStr "Y")); ("origem", Some (VStr "Z"))].
Proof.
  split.
  - apply (proj2 (context_combination_outcome _)).
    apply (bool_decide_unpack _). vm_compute. reflexivity.
  - apply (proj1 (context_combination_outcome
                    [[("dias_uteis", Some (VNum 24))]; SampleHost.context_B])).
    apply (bool_decide_unpack _). vm_compute. reflexivity.
Defined.

(** X10: deduplicating a deduplicated frame changes nothing, and the
    deduplication keeps the columns. *)
Theorem drop_duplicates_idempotent (subset : list string) (df deduped : DataFrame) :
  drop_duplicates subset df = Ok deduped →
  columns deduped = columns df
  ∧ drop_duplicates subset deduped = Ok deduped.
Proof.
  unfold drop_duplicates.
  destruct (has_columns subset df) eqn:Hcols; [|done].
  intros [= <-]. split; [done|].
  unfold has_columns in *. cbn [columns rows]. rewrite Hcols.
  rewrite keep_first_id; [done|apply keep_first_NoDup|].
  intros; apply not_elem_of_nil.
Qed.

Lemma drop_duplicates_idempotent_witness :
  ∃ deduped,
    drop_duplicates key_cols SampleHost.two_fiorino_frame = Ok deduped
    ∧ length (rows deduped) = 1%nat
    ∧ drop_duplicates key_cols deduped = Ok deduped.
Proof.
  destruct (drop_duplicates key_cols SampleHost.two_fiorino_frame)
    as [deduped|e] eqn:E; [|vm_compute in E; discriminate].
  exists deduped. split; [reflexivity|]. split.
  - assert ((λ d, length (rows d)) <$> drop_duplicates key_cols SampleHost.two_fiorino_frame
            = Ok 1%nat) as Hlen by (vm_compute; reflexivity).
    rewrite E in Hlen. by injection Hlen.
  - exact (proj2 (drop_duplicates_idempotent _ _ _ E)).
Defined.

(** ** The cost sheets of the fixed-cost workbook *)

Section CostSheets.
Context `{Host}.
Variable CANONICAL_VEHICLES : list string.

Lemma vehicle_cols_of_elem (header_row : list cell) (c : nat) (vehicle : string) :
  (c, vehicle) ∈ vehicle_cols_of CANONICAL_VEHICLES header_row →
  (c < length header_row)%nat ∧ vehicle ∈ CANONICAL_VEHICLES.
Proof.
  unfold vehicle_cols_of. intros (c' & Hc' & Hcv)%list_elem_of_omap.
  apply elem_of_seq in Hc' as [? ?].
  destruct (header_row !! c') as [[[z|v|b|dt]|]|]; try done.
  case_bool_decide; [|done]. injection Hcv as <- <-. split; [lia|done].
Qed.

Lemma sheet_prefix_plain (sheet : string) :
  sheet ∈ cost_sheets →
  ∃ prefix,
    assoc sheet_prefix sheet = Some prefix
    ∧ PyStr.lower (PyStr.replace " " "_" (default "" (assoc sheet_prefix sheet))) = prefix.
Proof.
  unfold cost_sheets. rewrite !elem_of_cons.
  intros [->|[->|[->|[->|[->|[->|[->|[->|?%elem_of_nil]]]]]]]]; [..|done];
    eexists; split; vm_compute; reflexivity.
Qed.

(** The records of one metric row. *)
Lemma cost_row_records (df : Grid) (prefix : string) (vehicle_cols : list (nat * string))
    (r : nat) (ys : list PyDict) :
  cost_row df prefix vehicle_cols r = Ok ys →
  ∀ d, d ∈ ys →
    ∃ c vehicle label,
      (c, vehicle) ∈ vehicle_cols
      ∧ dict_get d "vehicle_type" = Some (Some (VStr vehicle))
      ∧ dict_get d "metric" = Some (Some (VStr (prefix ++ _slug label))).
Proof.
  unfold cost_row. destruct (iloc df r 0) as [[lv|]|]; cbn [mbind result_bind];
    [|by intros [= <-] d ?%elem_of_nil|done].
  case_bool_decide; [by intros [= <-] d ?%elem_of_nil|].
  intros Hys d Hd.
  apply (for_each_inv _ _ _ Hys) in Hd as ([c vehicle] & zs & Hcv & Hzs & Hd).
  cbn [fst snd] in Hzs. destruct (iloc df r c) as [val|]; [|done].
  cbn [mbind result_bind] in Hzs. injection Hzs as <-.
  destruct (metric_num val) as [num|]; [|by apply elem_of_nil in Hd].
  apply list_elem_of_singleton in Hd as ->.
  by exists c, vehicle, (py_str lv).
Qed.


End CostSheets.



(** X12: every record of a cost sheet has a canonical vehicle and, as
    metric name, the prefix of its sheet followed by a slug: a name of
    at most 50 characters after the prefix that holds no space and none
    of % / ( ) - : . *)
Theorem vehicle_metrics_records `{Host} (CANONICAL_VEHICLES : list string)
    (xl : Workbook) (out : list PyDict) :
  vehicle_metrics CANONICAL_VEHICLES xl = Ok out →
  ∀ d, d ∈ out →
    ∃ sheet prefix vehicle slug,
      sheet ∈ sheet_names xl
      ∧ assoc sheet_prefix sheet = Some prefix
      ∧ vehicle ∈ CANONICAL_VEHICLES
      ∧ dict_get d "vehicle_type" = Some (Some (VStr vehicle))
      ∧ dict_get d "metric" = Some (Some (VStr (prefix ++ slug)))
      ∧ (String.length slug ≤ 50)%nat
      ∧ string_forall slug_clean slug = true.
Proof.
  intros Hout d Hd.
  apply (for_each_inv _ _ _ Hout) in Hd as (sheet & ys & Hsheet & Hys & Hd).
  unfold cost_sheet in Hys.
  case_bool_decide as Hlisted; [|injection Hys as <-; by apply elem_of_nil in Hd].
  destruct (read_excel xl sheet) as [df|]; [|done]. cbn [mbind result_bind] in Hys.
  destruct ((shape0 df =? 0)%nat || (shape1 df =? 0)%nat || (shape1 df <? 2)%nat);
    [injection Hys as <-; by apply elem_of_nil in Hd|].
  destruct (iloc_row df 0) as [header_row|]; [|done]. cbn [mbind result_bind] in Hys.
  case_bool_decide; [injection Hys as <-; by apply elem_of_nil in Hd|].
  destruct (sheet_prefix_plain sheet Hsheet) as (prefix & Hprefix & Hplain).
  rewrite Hplain in Hys.
  apply (for_each_inv _ _ _ Hys) in Hd as (r & zs & _ & Hzs & Hd).
  destruct (cost_row_records _ _ _ _ _ Hzs d Hd) as (c & vehicle & label & Hcv & Hv & Hm).
  apply vehicle_cols_of_elem in Hcv as [_ Hcanon].
  exists sheet, prefix, vehicle, (_slug label).
  repeat split; try done.
  - rewrite slug_unfold. apply take_length.
  - rewrite slug_unfold. apply string_forall_take, slugged_clean.
Qed.

Lemma vehicle_metrics_records_witness :
  ∃ out,
    @vehicle_metrics SampleHost.host SampleHost.CANONICAL_VEHICLES SampleHost.wb_costs
    = Ok out
    ∧ out ≠ []
    ∧ ∀ d, d ∈ out → ∃ vehicle,
        vehicle ∈ SampleHost.CANONICAL_VEHICLES
        ∧ dict_get d "vehicle_type" = Some (Some (VStr vehicle)).
Proof.
  destruct (@vehicle_metrics SampleHost.host SampleHost.CANONICAL_VEHICLES
              SampleHost.wb_costs) as [out|e] eqn:E; [|vm_compute in E; discriminate].
  exists out. split; [reflexivity|]. split.
  - intros ->. vm_compute in E. discriminate.
  - intros d Hd.
    destruct (@vehicle_metrics_records SampleHost.host _ _ _ E d Hd)
      as (_ & _ & vehicle & _ & _ & _ & Hcanon & Hv & _).
    by exists vehicle.
Defined.

(** ** The percentage sheet of the fixed-cost workbook *)

Section PercentageSheet.
Context `{Host}.
Variable CANONICAL_VEHICLES : list string.



(** One row of the sheet read without header: the loop body returns,
    and its records are those of the columns of the window whose header
    cell is a canonical vehicle and whose cell converts. *)
Lemma rel_fallback_row_spec (rel_raw : Grid) (r : nat) :
  rectangular rel_raw → (2 ≤ shape1 rel_raw)%nat → (r < shape0 rel_raw)%nat →
  ∃ ys,
    rel_fallback_row CANONICAL_VEHICLES rel_raw r = Ok ys
    ∧ ∀ d, d ∈ ys ↔
        ∃ (c : nat) (lv : value) (km_i km_f pct : pyfloat),
          (2 ≤ c < min (shape1 rel_raw) (2 + length CANONICAL_VEHICLES))%nat
          ∧ py_float (cell_at rel_raw r 0) = Ok km_i
          ∧ py_float (cell_at rel_raw r 1) = Ok km_f
          ∧ cell_at rel_raw 0 c = Some lv
          ∧ PyStr.strip (py_str lv) ∈ CANONICAL_VEHICLES
          ∧ rel_pct (cell_at rel_raw r c) = Some pct
          ∧ d = rel_fallback_record lv km_i km_f pct.
Proof.
  intros Hrect Hwide Hr. unfold rel_fallback_row.
  rewrite (iloc_cell_at rel_raw r 0), (iloc_cell_at rel_raw r 1) by (done || lia).
  cbn [mbind result_bind].
  destruct (py_float (cell_at rel_raw r 0)) as [km_i|e1] eqn:E1;
    cbn [mbind result_bind try_except].
  2: { apply py_float_raises in E1. rewrite bool_decide_true by done.
       cbn [mbind result_bind]. exists []. split; [done|]. intros d. split.
       - by intros ?%elem_of_nil.
       - by intros (? & ? & ? & ? & ? & _ & [=] & _). }
  destruct (py_float (cell_at rel_raw r 1)) as [km_f|e2] eqn:E2;
    cbn [mbind result_bind try_except].
  2: { apply py_float_raises in E2. rewrite bool_decide_true by done.
       cbn [mbind result_bind]. exists []. split; [done|]. intros d. split.
       - by intros ?%elem_of_nil.
       - by intros (? & ? & ? & ? & ? & _ & _ & [=] & _). }
  match goal with
  | |- ∃ ys, for_each ?body ?cols = Ok ys ∧ _ =>
      assert (∀ c, c ∈ cols →
                body c = Ok (match cell_at rel_raw 0 c with
                             | Some lv =>
                                 if bool_decide (PyStr.strip (py_str lv) ∈ CANONICAL_VEHICLES)
                                 then match rel_pct (cell_at rel_raw r c) with
                                      | Some pct => [rel_fallback_record lv km_i km_f pct]
                                      | None => []
                                      end
                                 else []
                             | None => []
                             end)) as Hbody;
      [|destruct (for_each_Ok body cols) as (ys & Hys & Hmem);
        [intros c Hc; rewrite (Hbody c Hc); eauto|]]
  end.
  { intros c [Hc2 Hc]%elem_of_seq. cbv beta.
    rewrite (iloc_cell_at rel_raw 0 c) by (done || lia).
    cbn [mbind result_bind]. destruct (cell_at rel_raw 0 c) as [lv|]; [|done].
    case_bool_decide; [|done].
    rewrite (iloc_cell_at rel_raw r c) by (done || lia).
    cbn [mbind result_bind]. by destruct (rel_pct (cell_at rel_raw r c)). }
  exists ys. split; [exact Hys|]. intros d. rewrite Hmem. split.
  - intros (c & zs & Hc & Hzs & Hd). rewrite (Hbody c Hc) in Hzs.
    injection Hzs as <-. apply elem_of_seq in Hc.
    destruct (cell_at rel_raw 0 c) as [lv|] eqn:Hlv; [|by apply elem_of_nil in Hd].
    case_bool_decide as Hcanon; [|by apply elem_of_nil in Hd].
    destruct (rel_pct (cell_at rel_raw r c)) as [pct|] eqn:Hpct;
      [|by apply elem_of_nil in Hd].
    apply list_elem_of_singleton in Hd as ->.
    exists c, lv, km_i, km_f, pct. split; [lia|]. by repeat split.
  - intros (c & lv & km_i' & km_f' & pct & Hc & [= <-] & [= <-] & Hlv & Hcanon & Hpct & ->).
    assert (c ∈ seq 2 (min (shape1 rel_raw) (2 + length CANONICAL_VEHICLES) - 2)) as Hin
      by (apply elem_of_seq; lia).
    eexists c, _. split; [exact Hin|]. split; [apply (Hbody c Hin)|].
    rewrite Hlv, bool_decide_true, Hpct by done. by apply list_elem_of_singleton.
Qed.

End PercentageSheet.



(** X14: the percentage sheet is read once more without header only
    when the loop over the percentage frame gave no row; rows that this
    loop gave are returned as they are.  When it gave none, a
    rectangular sheet of two columns at least is read without an
    exception, and the records are exactly those of a data row [r] >= 1
    whose first two cells convert to floats and of a column [c] from 2
    on, below [2 + len(CANONICAL_VEHICLES)], whose header cell is a
    canonical vehicle and whose cell in row [r] converts: the vehicle
    is that header, km_total is km_final - km_inicial + 1 on floats,
    with no test on the order of the bounds or on a missing bound. *)
Theorem rel_fallback_rows_bands `{Host} (CANONICAL_VEHICLES : list string)
    (rows_rel : list PyDict) (rel_raw : Grid) :
  rectangular rel_raw → (2 ≤ shape1 rel_raw)%nat →
  ∃ out,
    rel_fallback_rows CANONICAL_VEHICLES rows_rel rel_raw = Ok out
    ∧ (rows_rel ≠ [] → out = rows_rel)
    ∧ (rows_rel = [] →
       ∀ d, d ∈ out ↔
         ∃ (r c : nat) (lv : value) (km_i km_f pct : pyfloat),
           (1 ≤ r < shape0 rel_raw)%nat
           ∧ (2 ≤ c < min (shape1 rel_raw) (2 + length CANONICAL_VEHICLES))%nat
           ∧ py_float (cell_at rel_raw r 0) = Ok km_i
           ∧ py_float (cell_at rel_raw r 1) = Ok km_f
           ∧ cell_at rel_raw 0 c = Some lv
           ∧ PyStr.strip (py_str lv) ∈ CANONICAL_VEHICLES
           ∧ rel_pct (cell_at rel_raw r c) = Some pct
           ∧ d = rel_fallback_record lv km_i km_f pct).
Proof.
  intros Hrect Hwide. unfold rel_fallback_rows.
  case_bool_decide as Hnone.
  - destruct (for_each_Ok (rel_fallback_row CANONICAL_VEHICLES rel_raw)
                (seq 1 (shape0 rel_raw - 1))) as (out & Hout & Hmem).
    { intros r [Hr1 Hr]%elem_of_seq.
      destruct (rel_fallback_row_spec CANONICAL_VEHICLES rel_raw r) as (ys & Hys & _);
        [done..|lia|eauto]. }
    exists out. split; [exact Hout|]. split; [done|].
    intros _ d. rewrite Hmem. split.
    + intros (r & ys & [Hr1 Hr]%elem_of_seq & Hys & Hd).
      destruct (rel_fallback_row_spec CANONICAL_VEHICLES rel_raw r) as (ys' & Hys' & Hrow);
        [done..|lia|].
      rewrite Hys in Hys'. injection Hys' as <-.
      apply Hrow in Hd as (c & lv & km_i & km_f & pct & Hd).
      exists r, c, lv, km_i, km_f, pct. split; [lia|exact Hd].
    + intros (r & c & lv & km_i & km_f & pct & Hr & Hd).
      destruct (rel_fallback_row_spec CANONICAL_VEHICLES rel_raw r) as (ys & Hys & Hrow);
        [done..|lia|].
      exists r, ys. split; [apply elem_of_seq; lia|]. split; [exact Hys|].
      apply Hrow. by exists c, lv, km_i, km_f, pct.
  - exists rows_rel. split; [done|]. split; [done|]. by intros.
Qed.

Lemma rel_fallback_rows_bands_witness :
  ∃ rows_rel out,
    @rel_rows SampleHost.host SampleHost.df_rel_open_band ["VAN - CARGA SECA"]
      = Ok rows_rel
    ∧ rows_rel = []
    ∧ @rel_fallback_rows SampleHost.host SampleHost.CANONICAL_VEHICLES
        rows_rel SampleHost.rel_raw_open_band = Ok out
    ∧ [ ("vehicle_type", Some (VStr "VAN - CARGA SECA"));
        ("km_inicial", None); ("km_final", Some (VNum 100));
        ("km_total", None); ("pct_frete_ida", Some (VNum 5)) ] ∈ out.
Proof.
  exists [].
  destruct (@rel_fallback_rows_bands SampleHost.host SampleHost.CANONICAL_VEHICLES
              [] SampleHost.rel_raw_open_band) as (out & Hout & _ & Hmem).
  - repeat constructor.
  - simpl. lia.
  - exists out. split; [reflexivity|]. split; [reflexivity|]. split; [exact Hout|].
    apply (Hmem eq_refl).
    exists 1%nat, 2%nat, (VStr "VAN - CARGA SECA"), None, (Some 100%Z), (Some 5%Z).
    split; [simpl; lia|]. split; [simpl; lia|].
    repeat split; try reflexivity.
    by apply (bool_decide_unpack _).
Defined.

(** ** The band matrix of the quotation workbook *)

Section BandMatrix.
Context `{Host}.

Lemma row_band_caught (row : list cell) :
  ∃ band,
    try_except (Some <$> band_floats (row_iloc row 1) (row_iloc row 2) (row_iloc row 3))
               [TypeError; ValueError; IndexError] (Ok None) = Ok band.
Proof.
  assert (∀ e, e ∈ [TypeError; ValueError] → e ∈ [TypeError; ValueError; IndexError])
    as Hsub.
  { intros e. rewrite !elem_of_cons. tauto. }
  assert (IndexError ∈ [TypeError; ValueError; IndexError]) as Hidx
    by (rewrite !elem_of_cons; tauto).
  unfold band_floats, row_iloc.
  destruct (row !! 1%nat) as [x1|]; cbn [mbind result_bind fmap result_fmap try_except];
    [|rewrite bool_decide_true by done; eauto].
  destruct (py_float x1) as [f1|e1] eqn:E1; cbn [mbind result_bind fmap result_fmap try_except];
    [|apply py_float_raises, Hsub in E1; rewrite bool_decide_true by done; eauto].
  destruct (row !! 2%nat) as [x2|]; cbn [mbind result_bind fmap result_fmap try_except];
    [|rewrite bool_decide_true by done; eauto].
  destruct (py_float x2) as [f2|e2] eqn:E2; cbn [mbind result_bind fmap result_fmap try_except];
    [|apply py_float_raises, Hsub in E2; rewrite bool_decide_true by done; eauto].
  destruct (row !! 3%nat) as [x3|]; cbn [mbind result_bind fmap result_fmap try_except];
    [|rewrite bool_decide_true by done; eauto].
  destruct (py_float x3) as [f3|e3] eqn:E3; cbn [mbind result_bind fmap result_fmap try_except];
    [|apply py_float_raises, Hsub in E3; rewrite bool_decide_true by done; eauto].
  eauto.
Qed.

(** One data row: no exception, and the records it gives. *)
Lemma frete_peso_row_spec (header_row row : list cell) :
  ∃ ys,
    frete_peso_row header_row row = Ok ys
    ∧ ∀ d, d ∈ ys →
        ∃ (c : nat) (lv : value) (v : string) (i f : Z),
          (4 ≤ c)%nat
          ∧ header_row !! c = Some (Some lv)
          ∧ truthy (normalize_vehicle (PyStr.strip (py_str lv))) = Some v
          ∧ dict_get d "vehicle_type" = Some (Some (VStr v))
          ∧ dict_get d "km_inicial" = Some (Some (VNum i))
          ∧ dict_get d "km_final" = Some (Some (VNum f))
          ∧ dict_get d "frete_peso_total_cotacao" = Some (_num (default None (row !! c))).
Proof.
  unfold frete_peso_row. destruct (row_band_caught row) as [band ->].
  cbn [mbind result_bind].
  destruct band as [[[km_i km_f] km_t]|];
    [|exists []; split; [done|by intros d ?%elem_of_nil]].
  destruct km_i as [i|], km_f as [f|];
    try (exists []; split; [done|by intros d ?%elem_of_nil]).
  cbn [cell_of_float fmap option_fmap option_map].
  change (isna (Some (VNum i)) || isna (Some (VNum f))) with false. cbv iota.
  match goal with
  | |- ∃ ys, for_each ?body ?cols = Ok ys ∧ _ =>
      destruct (for_each_Ok body cols) as (ys & Hys & Hmem)
  end.
  { intros c [Hc4 Hc]%elem_of_seq. cbv beta. unfold row_iloc.
    destruct (lookup_lt_is_Some_2 header_row c) as [col_name ->]; [lia|].
    cbn [mbind result_bind]. destruct col_name as [lv|]; [|eauto].
    case_bool_decide; [eauto|].
    destruct (truthy _); [|eauto].
    destruct (lookup_lt_is_Some_2 row c) as [x ->]; [lia|].
    cbn [mbind result_bind]. eauto. }
  exists ys. split; [exact Hys|].
  intros d (c & zs & [Hc4 Hc]%elem_of_seq & Hzs & Hd)%Hmem. cbv beta in Hzs.
  unfold row_iloc in Hzs.
  destruct (header_row !! c) as [[lv|]|] eqn:Hlv; cbn [mbind result_bind] in Hzs;
    [|injection Hzs as <-; by apply elem_of_nil in Hd|done].
  case_bool_decide; [injection Hzs as <-; by apply elem_of_nil in Hd|].
  destruct (truthy _) as [v|] eqn:Hv;
    [|injection Hzs as <-; by apply elem_of_nil in Hd].
  destruct (row !! c) as [x|] eqn:Hx; [|done].
  cbn [mbind result_bind] in Hzs. injection Hzs as <-.
  apply list_elem_of_singleton in Hd as ->.
  exists c, lv, v, i, f. rewrite Hx. split; [lia|]. by repeat split.
Qed.

End BandMatrix.

(** X15: the band matrix of the quotation workbook is read without an
    exception whatever the shape of the sheet, as soon as it has its
    two header rows: a short or unreadable row gives no record.  Every
    record has two bounds that are numbers, the normalized vehicle of a
    label of row 1 in a column from 4 on, and as value the number of
    the cell under that label, missing when the cell is no number. *)
Theorem frete_peso_rows_spec `{Host} (df_fp : Grid) :
  (2 ≤ length df_fp)%nat →
  ∃ header_row out,
    df_fp !! 1%nat = Some header_row
    ∧ frete_peso_rows df_fp = Ok out
    ∧ ∀ d, d ∈ out →
        ∃ (row : list cell) (c : nat) (lv : value) (v : string) (i f : Z),
          row ∈ drop 2 df_fp
          ∧ (4 ≤ c)%nat
          ∧ header_row !! c = Some (Some lv)
          ∧ truthy (normalize_vehicle (PyStr.strip (py_str lv))) = Some v
          ∧ dict_get d "vehicle_type" = Some (Some (VStr v))
          ∧ dict_get d "km_inicial" = Some (Some (VNum i))
          ∧ dict_get d "km_final" = Some (Some (VNum f))
          ∧ dict_get d "frete_peso_total_cotacao" = Some (_num (default None (row !! c))).
Proof.
  intros Hlen.
  destruct (lookup_lt_is_Some_2 df_fp 1) as [header_row Hheader]; [lia|].
  exists header_row.
  destruct (for_each_Ok (frete_peso_row header_row) (drop 2 df_fp))
    as (out & Hout & Hmem).
  { intros row _. destruct (frete_peso_row_spec header_row row) as (ys & ? & _). eauto. }
  exists out. split; [done|]. split.
  { unfold frete_peso_rows, iloc_row. rewrite Hheader. exact Hout. }
  intros d (row & ys & Hrow & Hys & Hd)%Hmem.
  destruct (frete_peso_row_spec header_row row) as (ys' & Hys' & Hrec).
  rewrite Hys in Hys'. injection Hys' as <-.
  destruct (Hrec d Hd) as (c & lv & v & i & f & ?).
  by exists row, c, lv, v, i, f.
Qed.

Lemma frete_peso_rows_spec_witness :
  ∃ out,
    @frete_peso_rows SampleHost.host SampleHost.df_fp_sample = Ok out
    ∧ length out = 1%nat.
Proof.
  destruct (@frete_peso_rows_spec SampleHost.host SampleHost.df_fp_sample)
    as (header_row & out & _ & Hout & _); [simpl; lia|].
  exists out. split; [exact Hout|].
  assert (length <$> @frete_peso_rows SampleHost.host SampleHost.df_fp_sample
          = Ok 1%nat) as Hlen by (vm_compute; reflexivity).
  rewrite Hout in Hlen. by injection Hlen.
Defined.

(** ** The columns of the dashboard table *)

Section ShowCols.

Lemma id_cols_displayed (c : string) :
  c ∈ id_cols → String.prefix "_source" c = false.
Proof.
  unfold id_cols. rewrite !elem_of_cons.
  intros [->|[->|[->|[->|?%elem_of_nil]]]]; done.
Qed.

End ShowCols.

(** X16: the table of the dashboard shows the columns of the frame
    except those whose name starts with "_source", each once: the four
    identifying columns that the frame has come first, the others after
    them in the order of the frame.  The source markers of [merge_all]
    are never shown. *)
Theorem show_cols_spec (cols : list string) :
  NoDup cols →
  show_cols cols ≡ₚ display_cols cols
  ∧ NoDup (show_cols cols)
  ∧ (∀ c, c ∈ show_cols cols → c ∈ cols ∧ String.prefix "_source" c = false)
  ∧ (∀ c, c ∈ source_markers → c ∉ show_cols cols)
  ∧ take (length (filter (λ c, c ∈ cols) id_cols)) (show_cols cols)
    = filter (λ c, c ∈ cols) id_cols.
Proof.
  intros Hnd. unfold show_cols.
  set (order_cols := filter (λ c, c ∈ cols) id_cols).
  set (other_cols := filter (λ c, c ∉ order_cols) (display_cols cols)).
  assert (NoDup id_cols) as Hid by (by apply (bool_decide_unpack _)).
  assert (NoDup (display_cols cols)) as Hdisp by (by apply NoDup_filter).
  assert (∀ c, c ∈ order_cols → c ∈ display_cols cols) as Hsub.
  { intros c [Hc Hin]%list_elem_of_filter. apply list_elem_of_filter.
    split; [by apply id_cols_displayed|done]. }
  assert (NoDup (order_cols ++ other_cols)%list) as Hshow.
  { apply NoDup_app. split; [by apply NoDup_filter|]. split; [|by apply NoDup_filter].
    intros c Hc [Hnot _]%list_elem_of_filter. done. }
  assert (∀ c, c ∈ (order_cols ++ other_cols)%list ↔ c ∈ display_cols cols) as Hsame.
  { intros c. rewrite elem_of_app. split.
    - intros [?|[_ ?]%list_elem_of_filter]; [by apply Hsub|done].
    - intros Hc. destruct (decide (c ∈ order_cols)); [by left|].
      right. by apply list_elem_of_filter. }
  split; [by apply NoDup_Permutation|]. split; [done|]. split.
  { intros c [Hpre Hc]%Hsame%list_elem_of_filter. done. }
  split.
  { intros c Hmark [Hpre _]%Hsame%list_elem_of_filter.
    unfold source_markers in Hmark. rewrite !elem_of_cons in Hmark.
    destruct Hmark as [->|[->|[->|?%elem_of_nil]]]; done. }
  by rewrite take_app_length.
Qed.

Lemma show_cols_spec_witness :
  show_cols [ "_source_bv"; "pct_frete_ida"; "km_total"; "vehicle_type";
              "km_inicial"; "km_final"; "_source_cf" ]
  = [ "vehicle_type"; "km_inicial"; "km_final"; "km_total"; "pct_frete_ida" ]
  ∧ NoDup (show_cols [ "_source_bv"; "pct_frete_ida"; "km_total"; "vehicle_type";
                       "km_inicial"; "km_final"; "_source_cf" ]).
Proof.
  split; [reflexivity|].
  apply (show_cols_spec [ "_source_bv"; "pct_frete_ida"; "km_total"; "vehicle_type";
                          "km_inicial"; "km_final"; "_source_cf" ]).
  by apply (bool_decide_unpack _).
Defined.

(** ** The source markers *)

Section Markers.

Lemma source_marker_plain (mk : string) :
  mk ∈ source_markers →
  PyStr.endswith "_dup" mk = false ∧ (mk ∉ key_cols) ∧ mk ≠ "km_total".
Proof.
  unfold source_markers. rewrite !elem_of_cons.
  intros [->|[->|[->|?%elem_of_nil]]]; [..|done];
    (split; [done|]; split; [by apply (bool_decide_unpack _)|done]).
Qed.

Lemma markers_fresh_weaken (cols cols' : list string) (dfs : list DataFrame) :
  cols' ⊆ cols → markers_fresh cols dfs → markers_fresh cols' dfs.
Proof.
  revert cols cols'. induction dfs as [|df dfs IH]; intros cols cols' Hsub; [done|].
  simpl. intros [(mk & ? & ? & Hmk & ?) Hrest]. split.
  - exists mk. repeat split; try done. intros Hin. by apply Hmk, Hsub.
  - eapply IH; [|exact Hrest]. intros c. rewrite !elem_of_app.
    intros [?|?]; [left; by apply Hsub|by right].
Qed.

(** The marker of a right row goes through the join. *)
Lemma right_part_marker (left right : DataFrame) (r : Row) (mk : string) (x : value) :
  mk ∈ columns right → (mk ∉ key_cols) → (mk ∉ columns left) →
  PyStr.endswith "_dup" mk = false →
  r !! mk = Some x →
  right_part left right r !! mk = Some x.
Proof.
  intros Hcol Hkey Hleft Hdup Hx. unfold right_part.
  apply elem_of_list_to_map_1'.
  - intros y (c' & Hc' & Hy)%list_elem_of_omap.
    destruct (r !! c') as [y'|] eqn:Hy'; [|done]. cbn in Hy. injection Hy as Hsuf <-.
    unfold suffixed in Hsuf. case_bool_decide.
    + subst mk. by rewrite endswith_append in Hdup.
    + subst c'. congruence.
  - apply list_elem_of_omap. exists mk. split.
    + by apply list_elem_of_filter.
    + rewrite Hx. cbn. unfold suffixed. by rewrite bool_decide_false.
Qed.

Lemma merge_step_marked (main df merged : DataFrame) :
  merge_outer main df = Ok merged →
  marked main →
  (∃ mk, mk ∈ source_markers ∧ mk ∈ columns df ∧ (mk ∉ columns main)
         ∧ ∀ r : Row, r ∈ rows df → r !! mk = Some (VBool true)) →
  marked (drop_columns (filter (λ c, PyStr.endswith "_dup" c = true) (columns merged))
                       merged)
  ∧ columns (drop_columns (filter (λ c, PyStr.endswith "_dup" c = true) (columns merged))
                          merged) ⊆ (columns main ++ columns df)%list.
Proof.
  intros [Hcols Hrows]%merge_outer_Ok Hmain (mk & Hmk & Hmkcol & Hfresh & Hrmk).
  split.
  - intros m. cbn [drop_columns rows]. rewrite Hrows, fmap_app.
    assert (∀ (m0 : Row) mk0, mk0 ∈ source_markers → m0 !! mk0 = Some (VBool true) →
              filter (λ kv : string * value,
                        kv.1 ∉ filter (λ c, PyStr.endswith "_dup" c = true)
                                      (columns merged)) m0 !! mk0
              = Some (VBool true)) as Hkeep.
    { intros m0 mk0 [Hdup _]%source_marker_plain Hm0.
      rewrite lookup_dropped by by apply not_dup_col. done. }
    intros [Hm|Hm]%elem_of_app.
    + apply list_elem_of_fmap in Hm as (m0 & -> & Hm0).
      apply list_elem_of_In, in_flat_map in Hm0 as (l & Hl%list_elem_of_In & Hm0).
      apply list_elem_of_In in Hm0. cbv beta in Hm0.
      destruct (Hmain l Hl) as (mk0 & Hmk0 & Hl0).
      exists mk0. split; [done|]. apply Hkeep; [done|].
      destruct (filter (λ r, row_key key_cols r = row_key key_cols l) (rows df))
        as [|r0 ms] eqn:Hms.
      * by apply list_elem_of_singleton in Hm0 as ->.
      * apply list_elem_of_fmap in Hm0 as (r & -> & _).
        by apply lookup_union_Some_l.
    + apply list_elem_of_fmap in Hm as (m0 & -> & Hm0).
      apply list_elem_of_fmap in Hm0 as (r & -> & Hr).
      apply list_elem_of_filter in Hr as [_ Hr].
      exists mk. split; [done|]. apply Hkeep; [done|].
      destruct (source_marker_plain mk Hmk) as (Hdup & Hkey & _).
      rewrite lookup_union_r by (rewrite key_part_lookup; by rewrite bool_decide_false).
      apply right_part_marker; auto.
  - intros c. cbn [drop_columns columns]. rewrite Hcols.
    intros [Hnot Hc]%list_elem_of_filter.
    apply elem_of_app in Hc as [Hc|Hc]; [apply elem_of_app; by left|].
    apply list_elem_of_fmap in Hc as (c' & -> & [Hkey Hc']%list_elem_of_filter).
    unfold suffixed in *. case_bool_decide as Hin; [|apply elem_of_app; by right].
    exfalso. apply Hnot. apply list_elem_of_filter. split; [apply endswith_append|].
    apply elem_of_app. right.
    apply list_elem_of_fmap. exists c'. split.
    + by rewrite bool_decide_true.
    + by apply list_elem_of_filter.
Qed.

End Markers.

Section MarkedRows.

Lemma merge_loop_marked (main : DataFrame) (dfs : list DataFrame) (joined : DataFrame) :
  merge_loop main dfs = Ok joined →
  marked main → markers_fresh (columns main) dfs → marked joined.
Proof.
  revert main. induction dfs as [|df dfs IH]; intros main; cbn [merge_loop].
  - by intros [= <-].
  - destruct (merge_outer main df) as [merged|] eqn:Hm; [|done].
    cbn [mbind result_bind]. intros Hloop Hmain [Hdf Hrest].
    destruct (merge_step_marked _ _ _ Hm Hmain Hdf) as [Hmarked Hcols].
    eapply IH; [exact Hloop|exact Hmarked|].
    eapply markers_fresh_weaken; [exact Hcols|exact Hrest].
Qed.

Lemma fill_km_total_marked (df filled : DataFrame) :
  fill_km_total df = Ok filled → marked df → marked filled.
Proof.
  unfold fill_km_total. case_bool_decide; [|by intros [= <-]].
  destruct (has_columns _ df); [|done].
  destruct (fill_rows (rows df)) as [rs|] eqn:Hrs; [|done].
  cbn [mbind result_bind]. intros [= <-] Hmarked r' Hr'. cbn [rows] in Hr'.
  apply list_elem_of_lookup_1 in Hr' as [i Hi].
  destruct (Forall2_lookup_r _ _ _ _ _ (fill_rows_complete _ _ Hrs) Hi)
    as (r & Hr & _ & Hsame & _).
  destruct (Hmarked r) as (mk & Hmk & Htrue); [by eapply list_elem_of_lookup_2|].
  exists mk. split; [done|].
  rewrite Hsame; [done|]. by apply source_marker_plain.
Qed.

Lemma set_column_columns (c c' : string) (v : value) (df : DataFrame) :
  c' ∈ columns (set_column c v df) ↔ c' ∈ columns df ∨ c' = c.
Proof.
  unfold set_column. cbn [columns]. case_bool_decide.
  - split; [by left|]. by intros [?| ->].
  - rewrite elem_of_app, list_elem_of_singleton. done.
Qed.

Lemma set_column_rows (c : string) (v : value) (df : DataFrame) (r : Row) :
  r ∈ rows (set_column c v df) → r !! c = Some v.
Proof.
  unfold set_column. cbn [rows]. intros (r0 & -> & _)%list_elem_of_fmap.
  apply lookup_insert_eq.
Qed.

Lemma set_column_marked (src : source) (df : DataFrame) :
  marked (set_column (marker src) (VBool true) df).
Proof.
  intros r Hr%set_column_rows. exists (marker src).
  split; [apply marker_fresh|done].
Qed.

(** The marker of [src] is fresh for columns that hold no marker but
    those of other sources. *)
Lemma marker_entry (src : source) (df : DataFrame) (cols : list string) :
  marker src ∉ cols →
  ∃ mk, mk ∈ source_markers
        ∧ mk ∈ columns (set_column (marker src) (VBool true) df)
        ∧ (mk ∉ cols)
        ∧ ∀ r : Row, r ∈ rows (set_column (marker src) (VBool true) df) →
                     r !! mk = Some (VBool true).
Proof.
  intros Hfresh. exists (marker src). split; [apply marker_fresh|].
  split; [apply set_column_columns; by right|]. split; [done|].
  intros r. apply set_column_rows.
Qed.

(** The frames that go into the join, when no extractor gave a column
    that bears the name of a marker. *)
Lemma collect_sources_marked (s : Sources) (first : DataFrame)
    (others : list DataFrame) (context_dfs : list PyDict) :
  collect_sources s = Ok (first :: others, context_dfs) →
  (∀ src df, main_of s src = Some df → ∀ mk, mk ∈ source_markers → mk ∉ columns df) →
  marked first ∧ markers_fresh (columns first) others.
Proof.
  intros Hcol Hplain.
  assert (∀ src src' df, main_of s src = Some df → src ≠ src' →
            marker src' ∉ columns (set_column (marker src) (VBool true) df)) as Hother.
  { intros src src' df Hdf Hne [Hin|Heq]%set_column_columns.
    - by apply (Hplain src df Hdf (marker src')); [apply marker_fresh|].
    - by destruct src, src'. }
  revert Hcol. unfold collect_sources.
  destruct s as [bv cf cot]; cbn [base_valores calculo cotacao] in *.
  destruct bv as [[[bv_main bv_ctx]|]|]; cbn [mbind result_bind]; [| done |];
    (destruct cf as [[cf_main|]|]; cbn [mbind result_bind]; [| done |]);
    try destruct (df_empty cf_main);
    (destruct cot as [[[cot_main cot_ctx]|]|]; cbn [mbind result_bind]; [| done |]);
    try destruct (df_empty cot_main);
    cbn [app]; intros [= <- <- <-];
    (split; [apply (set_column_marked BaseValores) || apply (set_column_marked Calculo)
                    || apply (set_column_marked Cotacao)|]);
    cbn [markers_fresh];
    repeat match goal with
           | |- _ ∧ _ => split
           | |- True => exact I
           end;
    match goal with
    | |- ∃ mk, _ ∧ mk ∈ columns (set_column "_source_cf" _ _) ∧ _ =>
        apply (marker_entry Calculo)
    | |- ∃ mk, _ ∧ mk ∈ columns (set_column "_source_cot" _ _) ∧ _ =>
        apply (marker_entry Cotacao)
    end;
    rewrite ?elem_of_app; intros Hin;
    repeat match type of Hin with _ ∨ _ => destruct Hin as [Hin|Hin] end;
    revert Hin;
    match goal with
    | |- marker ?b ∈ columns (set_column "_source_bv" _ _) → False =>
        by apply (Hother BaseValores b _ eq_refl)
    | |- marker ?b ∈ columns (set_column "_source_cf" _ _) → False =>
        by apply (Hother Calculo b _ eq_refl)
    end.
Qed.

End MarkedRows.

(** X17: when no extractor gives a column that bears the name of a
    source marker, every row of the FactTable has at least one of the
    markers _source_bv, _source_cf and _source_cot set to true. *)
Theorem every_fact_row_marked (s : Sources) (main : DataFrame) (ctx : PyDict) :
  merge_all s = Ok (main, ctx) →
  (∀ src df, main_of s src = Some df → ∀ mk, mk ∈ source_markers → mk ∉ columns df) →
  marked main.
Proof.
  intros (main_dfs & context_dfs & Hcol & Hcase)%merge_all_Ok Hplain.
  destruct Hcase as [(-> & -> & ->)|(first & others & joined & -> & Hj & Hdd & _)].
  - by intros r ?%elem_of_nil.
  - destruct (collect_sources_marked _ _ _ _ Hcol Hplain) as [Hfirst Hfresh].
    unfold join_and_fill in Hj.
    destruct (merge_loop first others) as [merged|] eqn:Hloop; [|done].
    cbn [mbind result_bind] in Hj.
    pose proof (merge_loop_marked _ _ _ Hloop Hfirst Hfresh) as Hmerged.
    pose proof (fill_km_total_marked _ _ Hj Hmerged) as Hjoined.
    apply drop_duplicates_Ok in Hdd as [_ Hrows].
    intros r Hr. rewrite Hrows in Hr.
    apply keep_first_elem_of in Hr as (_ & i & Hi & _).
    apply Hjoined. by eapply list_elem_of_lookup_2.
Qed.

Lemma every_fact_row_marked_witness :
  ∃ main ctx,
    merge_all SampleHost.two_sources = Ok (main, ctx)
    ∧ marked main.
Proof.
  destruct (merge_all SampleHost.two_sources) as [[main ctx]|e] eqn:E;
    [|vm_compute in E; discriminate].
  exists main, ctx. split; [reflexivity|].
  apply (every_fact_row_marked _ _ _ E).
  intros src df Hdf mk Hmk.
  assert (Forall (λ mk, mk ∉ columns df) source_markers) as Hall.
  { destruct src; try discriminate Hdf; injection Hdf as <-;
      apply (bool_decide_unpack _); vm_compute; exact I. }
  exact (proj1 (Forall_forall _ _) Hall mk Hmk).
Defined.

(** ** Exceptions of the extractors *)

(** X18: [merge_all] catches nothing: the exception of the first
    extractor that raises, in the order fixed costs, computed freight,
    quotation, is the exception of the call, whatever the other files
    hold. *)
Theorem extractor_failure_propagates (s : Sources) (e : exn) :
  (base_valores s = Some (Raise e) → merge_all s = Raise e)
  ∧ ((∀ e', base_valores s ≠ Some (Raise e')) →
     calculo s = Some (Raise e) → merge_all s = Raise e)
  ∧ ((∀ e', base_valores s ≠ Some (Raise e')) →
     (∀ e', calculo s ≠ Some (Raise e')) →
     cotacao s = Some (Raise e) → merge_all s = Raise e).
Proof.
  unfold merge_all, collect_sources.
  destruct s as [bv cf cot]; cbn [base_valores calculo cotacao].
  split; [by intros ->|]. split.
  - intros Hbv ->.
    destruct bv as [[[bv_main bv_ctx]|e']|]; [done|by destruct (Hbv e')|done].
  - intros Hbv Hcf ->.
    destruct bv as [[[bv_main bv_ctx]|e']|]; [|by destruct (Hbv e')|];
      (destruct cf as [[cf_main|e']|]; [|by destruct (Hcf e')|]); done.
Qed.

Lemma extractor_failure_propagates_witness :
  merge_all
    {| base_valores := Some (Ok (SampleHost.earlier_frame, []));
       calculo := Some (@read_calculo_frete SampleHost.host SampleHost.wb_narrow);
       cotacao := Some (Raise ValueError) |}
  = Raise IndexError.
Proof.
  apply (proj1 (proj2 (extractor_failure_propagates _ IndexError))).
  - intros e'. cbn [base_valores]. discriminate.
  - reflexivity.
Defined.

(** X19: the consolidated sheet is read only when the per-vehicle sheets
    give no record.  In a workbook without a sheet FRETE PESO - GERAL
    the extractor returns the frame of the per-vehicle records when
    there are some, and raises ValueError when there are none. *)
Theorem fallback_sheet_read_when_needed `{Host} (xl : Workbook) (out : list PyDict) :
  calculo_primary xl = Ok out →
  find_sheet xl "FRETE PESO - GERAL" = None →
  (out ≠ [] → read_calculo_frete xl = Ok (frame_of_records out))
  ∧ (out = [] → read_calculo_frete xl = Raise ValueError).
Proof.
  intros Hout Hgeral. unfold read_calculo_frete. rewrite Hout.
  cbn [mbind result_bind]. split.
  - intros Hne. by rewrite bool_decide_false.
  - intros ->. rewrite bool_decide_true by done.
    unfold calculo_fallback, read_excel. by rewrite Hgeral.
Qed.

Lemma fallback_sheet_read_when_needed_witness :
  (∃ out, out ≠ []
     ∧ @read_calculo_frete SampleHost.host SampleHost.wb_two_fiorino
       = Ok (frame_of_records out))
  ∧ @read_calculo_frete SampleHost.host SampleHost.wb_blank = Raise ValueError.
Proof.
  split.
  - destruct (@calculo_primary SampleHost.host SampleHost.wb_two_fiorino)
      as [out|e] eqn:E; [|vm_compute in E; discriminate].
    assert (out ≠ []) as Hne.
    { intros ->. vm_compute in E. discriminate. }
    exists out. split; [exact Hne|].
    by apply (proj1 (@fallback_sheet_read_when_needed SampleHost.host
                       SampleHost.wb_two_fiorino out E eq_refl)).
  - by apply (proj2 (@fallback_sheet_read_when_needed SampleHost.host
                       SampleHost.wb_blank [] eq_refl eq_refl)).
Defined.
